(** * Denver temperature dashboard: the aggregation pipeline of [fetch_data.py]

    A shallow embedding of [main] of [src/fetch_data.py] and the properties
    of its derived datasets (normals, trailing averages, percentile envelope,
    monthly records, summary counts).

    Modelling conventions.
    - A temperature is a Python number read from the provider's JSON.  It is
      modelled by an exact rational ([Q]); the float literals [0.1], [0.25],
      [0.75], [0.9] are the rationals they denote.  Binary rounding error of
      the float operations is outside the model; for the index expressions
      of step 5 the binary64 products are checked against it
      ([float_indices_agree]).
    - [None] in a list of readings is [None] of [option Q].
    - A Python exception ([IndexError], [ValueError], [sys.exit]) is the
      [None] of the option monad; no handler of the program catches one.
    - A [dict] whose iteration order is used ([historical]) is an association
      list in insertion order; a [defaultdict] that is only read by key
      ([all_daily], [trailing_daily], [monthly_hist], [monthly_records],
      [current_monthly]) is a [gmap] with the default supplied at lookup.
    - Date strings are ASCII, one character per byte. *)

From Stdlib Require Import ZArith QArith Qround Lqa Lia DecimalString Ascii Sorted.
From Stdlib Require Import Floats Uint63.
From stdpp Require Import gmap strings list fin_maps.

(* ================================================================== *)
(** * Python primitives *)
(* ================================================================== *)

Module Py.

(** ** Numbers *)

(** [a > b] and [a < b], [a <= b], [a >= b] on numbers. *)
Definition gt (a b : Q) : bool := negb (Qle_bool a b).
Definition lt (a b : Q) : bool := negb (Qle_bool b a).
Definition le (a b : Q) : bool := Qle_bool a b.
Definition ge (a b : Q) : bool := Qle_bool b a.

(** [int(x)] on a number: truncation towards zero. *)
Definition int (x : Q) : Z := Z.quot (Qnum x) (Z.pos (Qden x)).

(** Nearest integer, ties to the even neighbour. *)
Definition round_half_even (x : Q) : Z :=
  let f := Qfloor x in
  match (x - inject_Z f ?= 1 # 2)%Q with
  | Lt => f
  | Gt => (f + 1)%Z
  | Eq => if Z.even f then f else (f + 1)%Z
  end.

(** [round(x, 1)]: one decimal, ties to even. *)
Definition round1 (x : Q) : Q := (round_half_even (x * 10) # 10)%Q.

(** [sum(xs)]: left to right, starting from 0. *)
Definition sum (xs : list Q) : Q := fold_left Qplus xs 0%Q.

(** [len(xs)] as a number. *)
Definition len {A} (xs : list A) : Z := Z.of_nat (length xs).

(** [sum(xs) / len(xs)], evaluated only where [xs] is non-empty. *)
Definition mean (xs : list Q) : Q := (sum xs / inject_Z (len xs))%Q.

(** [sorted(xs)]: a stable ascending sort.  Insertion from the right puts
    each element before the first element that is not smaller, so equal
    elements keep their order. *)
Fixpoint insert_sorted (x : Q) (l : list Q) : list Q :=
  match l with
  | [] => [x]
  | y :: t => if le x y then x :: y :: t else y :: insert_sorted x t
  end.

Definition sorted (xs : list Q) : list Q := foldr insert_sorted [] xs.

(** [max(xs)] and [min(xs)]: the first extremal element; [ValueError] on
    an empty list. *)
Definition max (xs : list Q) : option Q :=
  match xs with
  | [] => None
  | x :: t => Some (fold_left (fun m y => if gt y m then y else m) t x)
  end.

Definition min (xs : list Q) : option Q :=
  match xs with
  | [] => None
  | x :: t => Some (fold_left (fun m y => if lt y m then y else m) t x)
  end.

(** [xs[i]]: negative indices count from the end, [IndexError] outside. *)
Definition index {A} (xs : list A) (i : Z) : option A :=
  if (0 <=? i)%Z then xs !! Z.to_nat i
  else if (- len xs <=? i)%Z then xs !! Z.to_nat (len xs + i)
  else None.

(** [xs.index(x)]: position of the first occurrence, [ValueError] if none. *)
Fixpoint list_index (x : string) (xs : list string) : option nat :=
  match xs with
  | [] => None
  | y :: t => if bool_decide (y = x) then Some 0%nat else S <$> list_index x t
  end.

(** [xs.insert(i, x)] for [i >= 0]: beyond the end it appends. *)
Definition list_insert_at {A} (i : nat) (x : A) (xs : list A) : list A :=
  take i xs ++ x :: drop i xs.

(** [range(a, b)]. *)
Definition range (a b : Z) : list Z := seqZ a (b - a).

(** ** Strings *)

(** [s[n:]] and [s[:n]]. *)
Fixpoint str_drop (n : nat) (s : string) : string :=
  match n, s with
  | O, _ => s
  | S n', String _ t => str_drop n' t
  | S _, EmptyString => EmptyString
  end.

Fixpoint str_take (n : nat) (s : string) : string :=
  match n, s with
  | O, _ => EmptyString
  | S n', String c t => String c (str_take n' t)
  | S _, EmptyString => EmptyString
  end.

(** [str(n)] on an integer. *)
Definition str (n : Z) : string := NilZero.string_of_int (Z.to_int n).

Definition digit_val (c : ascii) : option Z :=
  let n := Z.of_nat (nat_of_ascii c) in
  if ((48 <=? n) && (n <=? 57))%Z then Some (n - 48)%Z else None.

Definition is_space (c : ascii) : bool :=
  let n := Z.of_nat (nat_of_ascii c) in
  (((9 <=? n) && (n <=? 13)) || ((28 <=? n) && (n <=? 32)))%Z.

Fixpoint lstrip (s : string) : string :=
  match s with
  | String c t => if is_space c then lstrip t else s
  | EmptyString => EmptyString
  end.

Fixpoint rstrip (s : string) : string :=
  match s with
  | EmptyString => EmptyString
  | String c t =>
      let t' := rstrip t in
      if is_space c && bool_decide (t' = EmptyString) then EmptyString
      else String c t'
  end.

(** The digits of an integer literal; single underscores may separate
    digits. *)
Fixpoint int_digits (acc : Z) (after_digit : bool) (s : string) : option Z :=
  match s with
  | EmptyString => if after_digit then Some acc else None
  | String c t =>
      match digit_val c with
      | Some d => int_digits (10 * acc + d)%Z true t
      | None =>
          if bool_decide (c = "_"%char) && after_digit
          then int_digits acc false t
          else None
      end
  end.

(** [int(s)] on a string, base 10: surrounding white space, an optional
    sign, digits; [ValueError] otherwise. *)
Definition int_str (s : string) : option Z :=
  match rstrip (lstrip s) with
  | String "-"%char t => Z.opp <$> int_digits 0 false t
  | String "+"%char t => int_digits 0 false t
  | t => int_digits 0 false t
  end.

(** ** Dates ([datetime.date], proleptic Gregorian calendar) *)

Record date := Date { d_year : Z; d_month : Z; d_day : Z }.

Definition is_leap (y : Z) : bool :=
  ((y mod 4 =? 0) && (negb (y mod 100 =? 0) || (y mod 400 =? 0)))%Z.

Definition days_in_month (y m : Z) : Z :=
  if (m =? 2)%Z then (if is_leap y then 29 else 28)%Z
  else if ((m =? 4) || (m =? 6) || (m =? 9) || (m =? 11))%Z then 30%Z
  else 31%Z.

(** [d + datetime.timedelta(days=1)]. *)
Definition add_one_day (d : date) : date :=
  if (d_day d <? days_in_month (d_year d) (d_month d))%Z
  then Date (d_year d) (d_month d) (d_day d + 1)
  else if (d_month d <? 12)%Z then Date (d_year d) (d_month d + 1) 1
  else Date (d_year d + 1) 1 1.

(** [a <= b] on dates. *)
Definition date_le (a b : date) : bool :=
  ((d_year a <? d_year b)
   || ((d_year a =? d_year b)
       && ((d_month a <? d_month b)
           || ((d_month a =? d_month b) && (d_day a <=? d_day b)))))%Z.

Definition digit_char (n : Z) : ascii := ascii_of_nat (48 + Z.to_nat n).

(** A number below 100 on two digits, as [%m] and [%d] print it. *)
Definition pad2 (n : Z) : string :=
  String (digit_char (n / 10)) (String (digit_char (n mod 10)) EmptyString).

(** [d.strftime("%m-%d")]. *)
Definition strftime_md (d : date) : string :=
  pad2 (d_month d) +:+ "-" +:+ pad2 (d_day d).

End Py.

(* ================================================================== *)
(** * The pipeline of [main] *)
(* ================================================================== *)

(** ** Configuration *)

Definition LATITUDE : Q := 39.7392%Q.
Definition LONGITUDE : Q := (-104.9903)%Q.
Definition HIST_START_YEAR : Z := 1996.
Definition HIST_END_YEAR : Z := 2025.
Definition TRAILING_YEARS : Z := 10.

Definition MONTH_NAMES : list string :=
  ["January"; "February"; "March"; "April"; "May"; "June";
   "July"; "August"; "September"; "October"; "November"; "December"].

(** ** Data *)

(** What [fetch_year] returns on success: three parallel lists. *)
Record YearData := {
  dates : list string;
  high : list (option Q);
  low : list (option Q)
}.

(** One pass of [for i, date_str in enumerate(data["dates"])] reads
    [(date_str, data["high"][i], data["low"][i])]. *)
Definition Row : Type := string * option Q * option Q.

(** The value of a [defaultdict(lambda: {"highs": [], "lows": []})]. *)
Record Pooled := { highs : list Q; lows : list Q }.

Definition empty_pooled : Pooled := {| highs := []; lows := [] |}.

(** [{"dates": [], "high": [], "low": []}] of [normals] and [trailing_avg]. *)
Record Series := {
  s_dates : list string;
  s_high : list Q;
  s_low : list Q
}.

(** ** Helpers shared by the steps *)

(** A loop whose body may raise. *)
Fixpoint foldl_opt {A B} (f : A → B → option A) (l : list B) (a : A)
  : option A :=
  match l with
  | [] => Some a
  | x :: t => a' ← f a x; foldl_opt f t a'
  end.

(** Truth value of a list: non-empty. *)
Definition truthy {A} (l : list A) : bool :=
  match l with [] => false | _ :: _ => true end.

(** [d[k] = v] and [d[k]] / [k in d] on an insertion-ordered dict. *)
Fixpoint dict_set {V} (k : string) (v : V) (d : list (string * V))
  : list (string * V) :=
  match d with
  | [] => [(k, v)]
  | (k', v') :: t =>
      if bool_decide (k' = k) then (k', v) :: t else (k', v') :: dict_set k v t
  end.

Fixpoint dict_get {V} (k : string) (d : list (string * V)) : option V :=
  match d with
  | [] => None
  | (k', v') :: t => if bool_decide (k' = k) then Some v' else dict_get k t
  end.

(** [daily[key]] on a defaultdict. *)
Definition dd_get `{Countable K} (daily : gmap K Pooled) (key : K) : Pooled :=
  default empty_pooled (daily !! key).

(** [daily[key]["highs"].append(h); daily[key]["lows"].append(l)]. *)
Definition dd_append `{Countable K} (daily : gmap K Pooled) (key : K)
    (h l : Q) : gmap K Pooled :=
  let p := dd_get daily key in
  <[key := {| highs := highs p ++ [h]; lows := lows p ++ [l] |}]> daily.

(** [md_key]: "YYYY-MM-DD" to "MM-DD". *)
Definition md_key (date_str : string) : string := Py.str_drop 5 date_str.

(** [is_leap_day]. *)
Definition is_leap_day (date_str : string) : bool :=
  bool_decide (Py.str_drop 5 date_str = "02-29").

(** [int(date_str[5:7])]. *)
Definition month_num (date_str : string) : option Z :=
  Py.int_str (Py.str_take 2 (Py.str_drop 5 date_str)).

(** The rows of one year; [IndexError] when [high] or [low] is shorter than
    [dates]. *)
Fixpoint enumerate_rows (i : nat) (ds : list string) (data : YearData)
  : option (list Row) :=
  match ds with
  | [] => Some []
  | date_str :: ds' =>
      h ← high data !! i;
      l ← low data !! i;
      rest ← enumerate_rows (S i) ds' data;
      Some ((date_str, h, l) :: rest)
  end.

Definition rows (data : YearData) : option (list Row) :=
  enumerate_rows 0 (dates data) data.

(** The body of the pooling loops of steps 1 and 4. *)
Definition pool_row (daily : gmap string Pooled) (r : Row)
  : gmap string Pooled :=
  match r with
  | (date_str, Some h, Some l) => dd_append daily (md_key date_str) h l
  | _ => daily
  end.

Definition pool_rows (daily : gmap string Pooled) (rs : list Row)
  : gmap string Pooled :=
  fold_left pool_row rs daily.

(** ** Step 1: the historical years *)

Fixpoint fetch_historical (fetch_year : Z → option YearData) (years : list Z)
    (historical : list (string * YearData)) (all_daily : gmap string Pooled)
  : option (list (string * YearData) * gmap string Pooled) :=
  match years with
  | [] => Some (historical, all_daily)
  | year :: rest =>
      match fetch_year year with
      | None => fetch_historical fetch_year rest historical all_daily
      | Some data =>
          rs ← rows data;
          fetch_historical fetch_year rest
            (dict_set (Py.str year) data historical) (pool_rows all_daily rs)
      end
  end.

(** ** Step 3: the calendar axis and the normals *)

(** The [while d <= datetime.date(2025, 12, 31)] loop; [fuel] bounds the
    number of times the condition is evaluated. *)
Fixpoint base_dates_loop (fuel : nat) (d : Py.date) (base_dates : list string)
  : option (list string) :=
  match fuel with
  | O => None
  | S fuel' =>
      if Py.date_le d (Py.Date 2025 12 31)
      then base_dates_loop fuel' (Py.add_one_day d)
             (base_dates ++ [Py.strftime_md d])
      else Some base_dates
  end.

Definition build_base_dates (fuel : nat) : option (list string) :=
  base_dates ← base_dates_loop fuel (Py.Date 2025 1 1) [];
  if bool_decide ("02-29" ∈ base_dates) then Some base_dates
  else
    i ← Py.list_index "02-28" base_dates;
    Some (Py.list_insert_at (i + 1) "02-29" base_dates).

(** The loop stops after 365 days, at its 366th test. *)
Definition base_dates : list string := default [] (build_base_dates 366).

(** The loop body of steps 3 and 4, one entry per emitted day. *)
Definition mean_row (daily : gmap string Pooled) (md : string)
  : option (string * Q * Q) :=
  let highs := highs (dd_get daily md) in
  let lows := lows (dd_get daily md) in
  if truthy highs && truthy lows
  then Some (md, Py.round1 (Py.mean highs), Py.round1 (Py.mean lows))
  else None.

Definition mean_rows (daily : gmap string Pooled) (mds : list string)
  : list (string * Q * Q) :=
  omap (mean_row daily) mds.

(** The three lists grow together, one element each per emitted day. *)
Definition series_of (rs : list (string * Q * Q)) : Series :=
  {| s_dates := (λ r, r.1.1) <$> rs;
     s_high := (λ r, r.1.2) <$> rs;
     s_low := (λ r, r.2) <$> rs |}.

Definition daily_means (daily : gmap string Pooled) (mds : list string)
  : Series :=
  series_of (mean_rows daily mds).

(** ** Step 4: the trailing average *)

Fixpoint pool_trailing (historical : list (string * YearData))
    (years : list Z) (trailing_daily : gmap string Pooled)
  : option (gmap string Pooled) :=
  match years with
  | [] => Some trailing_daily
  | year :: rest =>
      match dict_get (Py.str year) historical with
      | None => pool_trailing historical rest trailing_daily
      | Some data =>
          rs ← rows data;
          pool_trailing historical rest (pool_rows trailing_daily rs)
      end
  end.

(** ** Step 5: the percentile envelope *)

(** One emitted day of [envelope]: the value appended to each of its eleven
    lists in that pass of the loop. *)
Record EnvRow := {
  e_date : string;
  e_p10_high : Q; e_p25_high : Q; e_p75_high : Q; e_p90_high : Q;
  e_p10_low : Q; e_p25_low : Q; e_p75_low : Q; e_p90_low : Q;
  e_record_high : Q; e_record_low : Q
}.

(** The index expressions [max(0, int(n * p))] and [min(n - 1, int(n * p))]
    of the lower and of the upper percentiles. *)
Definition lower_index (n : Z) (p : Q) : Z :=
  Z.max 0 (Py.int (inject_Z n * p)).

Definition upper_index (n : Z) (p : Q) : Z :=
  Z.min (n - 1) (Py.int (inject_Z n * p)).

(** The products [n * 0.1], ... are binary64 products in the program.
    [float_floor_is x k] says that the float [x] lies in [k, k + 1), that is
    [int(x) = k]; [float_index_agrees n] that for a sample of size [n] the
    four float products have the integer part that the exact products of
    the model have. *)
Definition float_of_Z (n : Z) : float := PrimFloat.of_uint63 (Uint63.of_Z n).

Definition float_floor_is (x : float) (k : Z) : bool :=
  PrimFloat.leb (float_of_Z k) x && PrimFloat.ltb x (float_of_Z (k + 1)).

#[local] Set Warnings "-inexact-float".
Definition float_index_agrees (n : Z) : bool :=
  float_floor_is (PrimFloat.mul (float_of_Z n) 0.1%float)
    (Py.int (inject_Z n * 0.1))
  && float_floor_is (PrimFloat.mul (float_of_Z n) 0.25%float)
       (Py.int (inject_Z n * 0.25))
  && float_floor_is (PrimFloat.mul (float_of_Z n) 0.75%float)
       (Py.int (inject_Z n * 0.75))
  && float_floor_is (PrimFloat.mul (float_of_Z n) 0.9%float)
       (Py.int (inject_Z n * 0.9)).
#[local] Set Warnings "+inexact-float".

(** The appends of one pass, on the sorted lists. *)
Definition envelope_row (md : string) (highs lows : list Q) : option EnvRow :=
  let n_h := Py.len highs in
  let n_l := Py.len lows in
  p10_high ← Py.index highs (lower_index n_h 0.1);
  p25_high ← Py.index highs (lower_index n_h 0.25);
  p75_high ← Py.index highs (upper_index n_h 0.75);
  p90_high ← Py.index highs (upper_index n_h 0.9);
  p10_low ← Py.index lows (lower_index n_l 0.1);
  p25_low ← Py.index lows (lower_index n_l 0.25);
  p75_low ← Py.index lows (upper_index n_l 0.75);
  p90_low ← Py.index lows (upper_index n_l 0.9);
  record_high ← Py.max highs;
  record_low ← Py.min lows;
  Some {| e_date := md;
          e_p10_high := Py.round1 p10_high;
          e_p25_high := Py.round1 p25_high;
          e_p75_high := Py.round1 p75_high;
          e_p90_high := Py.round1 p90_high;
          e_p10_low := Py.round1 p10_low;
          e_p25_low := Py.round1 p25_low;
          e_p75_low := Py.round1 p75_low;
          e_p90_low := Py.round1 p90_low;
          e_record_high := Py.round1 record_high;
          e_record_low := Py.round1 record_low |}.

Fixpoint envelope_rows (all_daily : gmap string Pooled) (mds : list string)
  : option (list EnvRow) :=
  match mds with
  | [] => Some []
  | md :: rest =>
      let highs := Py.sorted (highs (dd_get all_daily md)) in
      let lows := Py.sorted (lows (dd_get all_daily md)) in
      if ((Py.len highs <? 5) || (Py.len lows <? 5))%Z
      then envelope_rows all_daily rest
      else
        r ← envelope_row md highs lows;
        rs ← envelope_rows all_daily rest;
        Some (r :: rs)
  end.

(** The [envelope] dict: eleven parallel lists. *)
Record Envelope := {
  env_dates : list string;
  p10_high : list Q; p25_high : list Q; p75_high : list Q; p90_high : list Q;
  p10_low : list Q; p25_low : list Q; p75_low : list Q; p90_low : list Q;
  record_high : list Q; record_low : list Q
}.

Definition envelope_of (rs : list EnvRow) : Envelope :=
  {| env_dates := e_date <$> rs;
     p10_high := e_p10_high <$> rs; p25_high := e_p25_high <$> rs;
     p75_high := e_p75_high <$> rs; p90_high := e_p90_high <$> rs;
     p10_low := e_p10_low <$> rs; p25_low := e_p25_low <$> rs;
     p75_low := e_p75_low <$> rs; p90_low := e_p90_low <$> rs;
     record_high := e_record_high <$> rs;
     record_low := e_record_low <$> rs |}.

(** ** Step 6: monthly statistics and records *)

(** Pooling per month number; only rows with both values are pooled. *)
Definition pool_month_row (monthly : gmap Z Pooled) (r : Row)
  : option (gmap Z Pooled) :=
  match r with
  | (date_str, Some h, Some l) =>
      m ← month_num date_str; Some (dd_append monthly m h l)
  | _ => Some monthly
  end.

Definition pool_month_year (monthly : gmap Z Pooled) (data : YearData)
  : option (gmap Z Pooled) :=
  rs ← rows data; foldl_opt pool_month_row rs monthly.

(** The value of the [monthly_records] defaultdict. *)
Record MonthRecord := {
  mr_record_high : Q; mr_record_high_year : string;
  mr_record_low : Q; mr_record_low_year : string
}.

Definition default_record : MonthRecord :=
  {| mr_record_high := -999; mr_record_high_year := "";
     mr_record_low := 999; mr_record_low_year := "" |}.

Definition mr_get (records : gmap Z MonthRecord) (m : Z) : MonthRecord :=
  default default_record (records !! m).

(** One pass of the record loop: the month number is read for every row,
    and each of the two tests looks at its own value only. *)
Definition record_row (yr_str : string) (records : gmap Z MonthRecord)
    (r : Row) : option (gmap Z MonthRecord) :=
  let '(date_str, h, l) := r in
  m ← month_num date_str;
  let records1 :=
    match h with
    | Some h' =>
        if Py.gt h' (mr_record_high (mr_get records m))
        then <[m := {| mr_record_high := h';
                       mr_record_high_year := yr_str;
                       mr_record_low := mr_record_low (mr_get records m);
                       mr_record_low_year :=
                         mr_record_low_year (mr_get records m) |}]> records
        else records
    | None => records
    end in
  let records2 :=
    match l with
    | Some l' =>
        if Py.lt l' (mr_record_low (mr_get records1 m))
        then <[m := {| mr_record_high := mr_record_high (mr_get records1 m);
                       mr_record_high_year :=
                         mr_record_high_year (mr_get records1 m);
                       mr_record_low := l';
                       mr_record_low_year := yr_str |}]> records1
        else records1
    | None => records1
    end in
  Some records2.

Definition record_year (records : gmap Z MonthRecord)
    (item : string * YearData) : option (gmap Z MonthRecord) :=
  rs ← rows item.2; foldl_opt (record_row item.1) rs records.

(** A value of the [monthly] dict. *)
Record MonthlyStat := {
  avg_high : option Q; avg_low : option Q;
  normal_high : option Q; normal_low : option Q;
  ms_record_high : option Q; ms_record_high_year : string;
  ms_record_low : option Q; ms_record_low_year : string;
  departure_high : option Q; departure_low : option Q
}.

(** [round(sum(xs) / len(xs), 1) if xs else None]. *)
Definition mean_or_none (xs : list Q) : option Q :=
  if truthy xs then Some (Py.round1 (Py.mean xs)) else None.

(** [round(a - b, 1) if a is not None and b is not None else None]. *)
Definition departure (a b : option Q) : option Q :=
  match a, b with
  | Some a', Some b' => Some (Py.round1 (a' - b'))
  | _, _ => None
  end.

Definition monthly_stat (monthly_hist current_monthly : gmap Z Pooled)
    (monthly_records : gmap Z MonthRecord) (m : Z) : MonthlyStat :=
  let normal_high := mean_or_none (highs (dd_get monthly_hist m)) in
  let normal_low := mean_or_none (lows (dd_get monthly_hist m)) in
  let avg_high := mean_or_none (highs (dd_get current_monthly m)) in
  let avg_low := mean_or_none (lows (dd_get current_monthly m)) in
  let rec := mr_get monthly_records m in
  {| avg_high := avg_high; avg_low := avg_low;
     normal_high := normal_high; normal_low := normal_low;
     ms_record_high :=
       if Py.gt (mr_record_high rec) (-999) then Some (mr_record_high rec)
       else None;
     ms_record_high_year := mr_record_high_year rec;
     ms_record_low :=
       if Py.lt (mr_record_low rec) 999 then Some (mr_record_low rec)
       else None;
     ms_record_low_year := mr_record_low_year rec;
     departure_high := departure avg_high normal_high;
     departure_low := departure avg_low normal_low |}.

(** The loop [for m in range(1, 13)] filling [monthly]; the twelve names
    are distinct, so every assignment adds an entry. *)
Definition build_monthly (monthly_hist current_monthly : gmap Z Pooled)
    (monthly_records : gmap Z MonthRecord)
  : option (list (string * MonthlyStat)) :=
  foldl_opt (λ monthly m,
      name ← Py.index MONTH_NAMES (m - 1);
      Some (dict_set name
              (monthly_stat monthly_hist current_monthly monthly_records m)
              monthly))
    (Py.range 1 13) [].

(** ** Step 7: anomalies *)

Record Anomalies := {
  months : list string;
  high_departure : list Q;
  low_departure : list (option Q)
}.

Definition build_anomalies (monthly : list (string * MonthlyStat))
  : option Anomalies :=
  foldl_opt (λ anomalies m,
      name ← Py.index MONTH_NAMES (m - 1);
      info ← dict_get name monthly;
      match departure_high info with
      | Some dh =>
          Some {| months := months anomalies ++ [Py.str_take 3 name];
                  high_departure := high_departure anomalies ++ [dh];
                  low_departure :=
                    low_departure anomalies ++ [departure_low info] |}
      | None => Some anomalies
      end)
    (Py.range 1 13)
    {| months := []; high_departure := []; low_departure := [] |}.

(** ** Step 8: summary *)

Record Summary := {
  today_high : option Q;
  today_low : option Q;
  today_date : option string;
  ytd_avg_high : option Q;
  ytd_normal_avg_high : option Q;
  hottest_day : option string * option Q;
  coldest_day : option string * option Q;
  days_below_freezing : Z;
  days_above_90 : Z
}.

(** The backwards scan for the most recent day with both values.  It reads
    the same [high[i]], [low[i]] as the rows of step 6, which have been read
    without error by then; the scan visits them last to first and stops at
    the first hit. *)
Fixpoint latest_valid (reversed_rows : list Row)
  : option Q * option Q * option string :=
  match reversed_rows with
  | [] => (None, None, None)
  | (date_str, Some h, Some l) :: _ => (Some h, Some l, Some date_str)
  | _ :: rest => latest_valid rest
  end.

(** [[v for v in xs if v is not None]]. *)
Definition present (xs : list (option Q)) : list Q := omap id xs.

(** The list [ytd_normal_highs]. *)
Definition ytd_normal_highs (normals : Series) (ds : list string)
  : option (list Q) :=
  foldl_opt (λ acc date_str,
      let md := md_key date_str in
      idx ← (if bool_decide (md ∈ s_dates normals)
             then Z.of_nat <$> Py.list_index md (s_dates normals)
             else Some (-1)%Z);
      if (0 <=? idx)%Z
      then v ← Py.index (s_high normals) idx; Some (acc ++ [v])
      else Some acc)
    ds [].

(** The loops for the hottest and the coldest day: [enumerate] over the
    values, [current_data["dates"][i]] read when a new extreme is found. *)
Fixpoint extreme_loop (better : Q → Q → bool) (i : nat)
    (values : list (option Q)) (ds : list string)
    (temp : Q) (date : option string) : option (Q * option string) :=
  match values with
  | [] => Some (temp, date)
  | v :: rest =>
      match v with
      | Some x =>
          if better x temp
          then d ← ds !! i; extreme_loop better (S i) rest ds x (Some d)
          else extreme_loop better (S i) rest ds temp date
      | None => extreme_loop better (S i) rest ds temp date
      end
  end.

(** [sum(1 for v in xs if v is not None and test(v))]. *)
Definition count_if (test : Q → bool) (xs : list (option Q)) : Z :=
  fold_left Z.add
    ((λ _, 1%Z) <$>
       List.filter (λ v, match v with Some x => test x | None => false end) xs)
    0%Z.

Definition build_summary (current_data : YearData) (cur_rows : list Row)
    (normals : Series) : option Summary :=
  let '(today_high, today_low, today_date) := latest_valid (reverse cur_rows) in
  let valid_highs := present (high current_data) in
  let ytd_avg_high := mean_or_none valid_highs in
  ytd_normal ← ytd_normal_highs normals (dates current_data);
  let ytd_normal_avg_high := mean_or_none ytd_normal in
  hottest ← extreme_loop Py.gt 0 (high current_data) (dates current_data)
              (-999) None;
  coldest ← extreme_loop Py.lt 0 (low current_data) (dates current_data)
              999 None;
  Some {| today_high := today_high;
          today_low := today_low;
          today_date := today_date;
          ytd_avg_high := ytd_avg_high;
          ytd_normal_avg_high := ytd_normal_avg_high;
          hottest_day :=
            (hottest.2,
             if Py.gt hottest.1 (-999) then Some hottest.1 else None);
          coldest_day :=
            (coldest.2,
             if Py.lt coldest.1 999 then Some coldest.1 else None);
          days_below_freezing :=
            count_if (λ l, Py.le l 32) (low current_data);
          days_above_90 :=
            count_if (λ h, Py.ge h 90) (high current_data) |}.

(** ** Steps 9 and 10: the output document *)

(** [[round(v, 1) if v is not None else None for v in xs]]. *)
Definition round_all (xs : list (option Q)) : list (option Q) :=
  (λ v : option Q, Py.round1 <$> v) <$> xs.

Definition rounded (data : YearData) : YearData :=
  {| dates := dates data;
     high := round_all (high data);
     low := round_all (low data) |}.

Record Output := {
  generated_at : string;
  year : Z;
  current_year : YearData;
  trailing_avg : Series;
  normals : Series;
  historical_envelope : Envelope;
  historical_years : list (string * YearData);
  monthly : list (string * MonthlyStat);
  anomalies : Anomalies;
  summary : Summary
}.

(** What a run reads from outside: the result of [fetch_year] for each
    historical year and for the current year, and the clock
    ([datetime.date.today().year], [datetime.datetime.now().isoformat]). *)
Record World := {
  fetch_year : Z → option YearData;
  fetch_current : option YearData;
  CURRENT_YEAR : Z;
  now : string
}.

Definition main (w : World) : option Output :=
  (* Step 1 *)
  '(historical, all_daily) ←
    fetch_historical (fetch_year w)
      (Py.range HIST_START_YEAR (HIST_END_YEAR + 1)) [] ∅;
  (* Step 2 *)
  current_data ← fetch_current w;
  (* Step 3 *)
  let normals := daily_means all_daily base_dates in
  (* Step 4 *)
  trailing_daily ←
    pool_trailing historical
      (Py.range (HIST_END_YEAR - TRAILING_YEARS + 1) (HIST_END_YEAR + 1)) ∅;
  let trailing_avg := daily_means trailing_daily base_dates in
  (* Step 5 *)
  envelope ← envelope_rows all_daily base_dates;
  (* Step 6 *)
  monthly_hist ← foldl_opt pool_month_year historical.*2 ∅;
  monthly_records ← foldl_opt record_year historical ∅;
  cur_rows ← rows current_data;
  current_monthly ← foldl_opt pool_month_row cur_rows ∅;
  monthly ← build_monthly monthly_hist current_monthly monthly_records;
  (* Step 7 *)
  anomalies ← build_anomalies monthly;
  (* Step 8 *)
  summary ← build_summary current_data cur_rows normals;
  (* Steps 9 and 10 *)
  Some {| generated_at := now w;
          year := CURRENT_YEAR w;
          current_year := rounded current_data;
          trailing_avg := trailing_avg;
          normals := normals;
          historical_envelope := envelope_of envelope;
          historical_years := prod_map id rounded <$> historical;
          monthly := monthly;
          anomalies := anomalies;
          summary := summary |}.

(** ** The document handed to [json.dumps] *)

(** The JSON value of the [output] dict: [None] is [null], a dict is an
    object whose fields are in insertion order. *)
#[local] Unset Elimination Schemes.
Inductive json :=
| JNull
| JNum (q : Q)
| JStr (s : string)
| JArr (items : list json)
| JObj (fields : list (string * json)).
#[local] Set Elimination Schemes.

Definition j_opt (v : option Q) : json :=
  match v with Some q => JNum q | None => JNull end.

Definition j_opt_str (v : option string) : json :=
  match v with Some s => JStr s | None => JNull end.

Definition j_year_data (data : YearData) : json :=
  JObj [("dates", JArr (JStr <$> dates data));
        ("high", JArr (j_opt <$> high data));
        ("low", JArr (j_opt <$> low data))].

Definition j_series (s : Series) : json :=
  JObj [("dates", JArr (JStr <$> s_dates s));
        ("high", JArr (JNum <$> s_high s));
        ("low", JArr (JNum <$> s_low s))].

Definition j_envelope (e : Envelope) : json :=
  JObj [("dates", JArr (JStr <$> env_dates e));
        ("p10_high", JArr (JNum <$> p10_high e));
        ("p25_high", JArr (JNum <$> p25_high e));
        ("p75_high", JArr (JNum <$> p75_high e));
        ("p90_high", JArr (JNum <$> p90_high e));
        ("p10_low", JArr (JNum <$> p10_low e));
        ("p25_low", JArr (JNum <$> p25_low e));
        ("p75_low", JArr (JNum <$> p75_low e));
        ("p90_low", JArr (JNum <$> p90_low e));
        ("record_high", JArr (JNum <$> record_high e));
        ("record_low", JArr (JNum <$> record_low e))].

Definition j_monthly_stat (st : MonthlyStat) : json :=
  JObj [("avg_high", j_opt (avg_high st));
        ("avg_low", j_opt (avg_low st));
        ("normal_high", j_opt (normal_high st));
        ("normal_low", j_opt (normal_low st));
        ("record_high", j_opt (ms_record_high st));
        ("record_high_year", JStr (ms_record_high_year st));
        ("record_low", j_opt (ms_record_low st));
        ("record_low_year", JStr (ms_record_low_year st));
        ("departure_high", j_opt (departure_high st));
        ("departure_low", j_opt (departure_low st))].

Definition j_anomalies (a : Anomalies) : json :=
  JObj [("months", JArr (JStr <$> months a));
        ("high_departure", JArr (JNum <$> high_departure a));
        ("low_departure", JArr (j_opt <$> low_departure a))].

Definition j_extreme (d : option string * option Q) : json :=
  JObj [("date", j_opt_str d.1); ("temp", j_opt d.2)].

Definition j_summary (s : Summary) : json :=
  JObj [("today_high", j_opt (today_high s));
        ("today_low", j_opt (today_low s));
        ("today_date", j_opt_str (today_date s));
        ("ytd_avg_high", j_opt (ytd_avg_high s));
        ("ytd_normal_avg_high", j_opt (ytd_normal_avg_high s));
        ("hottest_day", j_extreme (hottest_day s));
        ("coldest_day", j_extreme (coldest_day s));
        ("days_below_freezing", JNum (inject_Z (days_below_freezing s)));
        ("days_above_90", JNum (inject_Z (days_above_90 s)))].

Definition document (out : Output) : json :=
  JObj [("generated_at", JStr (generated_at out));
        ("year", JNum (inject_Z (year out)));
        ("location",
         JObj [("name", JStr "Denver, CO");
               ("lat", JNum LATITUDE);
               ("lon", JNum LONGITUDE);
               ("elevation", JStr "5,280 ft")]);
        ("current_year", j_year_data (current_year out));
        ("trailing_avg", j_series (trailing_avg out));
        ("normals", j_series (normals out));
        ("historical_envelope", j_envelope (historical_envelope out));
        ("historical_years",
         JObj (prod_map id j_year_data <$> historical_years out));
        ("monthly", JObj (prod_map id j_monthly_stat <$> monthly out));
        ("anomalies", j_anomalies (anomalies out));
        ("summary", j_summary (summary out))].

(** A field of an object, and an object without one of its fields. *)
Definition field (k : string) (j : json) : option json :=
  match j with
  | JObj fields => dict_get k fields
  | _ => None
  end.

Definition without_field (k : string) (j : json) : json :=
  match j with
  | JObj fields => JObj (List.filter (λ kv, negb (bool_decide (kv.1 = k))) fields)
  | _ => j
  end.

(* ================================================================== *)
(** * Specification-side notions *)
(* ================================================================== *)

(** The daily observations of a year: the three lists side by side. *)
Definition days (data : YearData) : list Row :=
  zip_with (λ d hl, (d, hl.1, hl.2)) (dates data) (zip (high data) (low data)).

(** The years of [range(a, b)] for which the provider returned data, in
    ascending order, under the key [str(year)]. *)
Definition fetched_of (fetch : Z → option YearData) (years : list Z)
  : list (string * YearData) :=
  omap (λ y, pair (Py.str y) <$> fetch y) years.

Definition fetched (fetch : Z → option YearData) (a b : Z)
  : list (string * YearData) :=
  fetched_of fetch (Py.range a b).

(** The calendar of a year that is not a leap year: the months and their
    lengths, and the keys of its days in calendar order. *)
Definition month_lengths : list (Z * Z) :=
  [(1, 31); (2, 28); (3, 31); (4, 30); (5, 31); (6, 30);
   (7, 31); (8, 31); (9, 30); (10, 31); (11, 30); (12, 31)]%Z.

Definition year_keys : list string :=
  month_lengths ≫= λ ml,
    (λ d, Py.pad2 ml.1 +:+ "-" +:+ Py.pad2 d) <$> seqZ 1 ml.2.

(** Contributing years of the normals and of the trailing average. *)
Definition all_years (w : World) : list (string * YearData) :=
  fetched (fetch_year w) HIST_START_YEAR (HIST_END_YEAR + 1).

Definition trailing_years (w : World) : list (string * YearData) :=
  fetched (fetch_year w) (HIST_END_YEAR - TRAILING_YEARS + 1)
    (HIST_END_YEAR + 1).

(** The highs and the lows of the valid days (both values present) of
    some rows whose key is [key]. *)
Definition key_highs (key : string) (rs : list Row) : list Q :=
  omap (λ r : Row,
      match r with
      | (d, Some h, Some _) =>
          if bool_decide (md_key d = key) then Some h else None
      | _ => None
      end) rs.

Definition key_lows (key : string) (rs : list Row) : list Q :=
  omap (λ r : Row,
      match r with
      | (d, Some _, Some l) =>
          if bool_decide (md_key d = key) then Some l else None
      | _ => None
      end) rs.

(** [pool(years, key)]: year order, then date order within the year. *)
Definition pooled_highs (years : list (string * YearData)) (key : string)
  : list Q :=
  years ≫= λ item, key_highs key (days item.2).

Definition pooled_lows (years : list (string * YearData)) (key : string)
  : list Q :=
  years ≫= λ item, key_lows key (days item.2).

(** Arithmetic mean: the sum of the values over their number. *)
Definition arith_mean (xs : list Q) : Q :=
  (foldr Qplus 0 xs / inject_Z (Z.of_nat (length xs)))%Q.

(** Nearest-rank index [clamp(floor(n * p), 0, n - 1)]. *)
Definition clamp (x lo hi : Z) : Z := Z.max lo (Z.min hi x).

Definition nearest_rank (n : Z) (p : Q) : Z :=
  clamp (Qfloor (inject_Z n * p)) 0 (n - 1).

(** The value emitted for fraction [p]: the element of the sorted sample at
    the nearest-rank index, rounded like every output to one decimal. *)
Definition rank_value (xs : list Q) (p : Q) : option Q :=
  Py.round1 <$> xs !! Z.to_nat (nearest_rank (Py.len xs) p).

(** The [i]-th emitted day of the envelope, read off its eleven lists. *)
Definition env_at (e : Envelope) (i : nat) : option EnvRow :=
  md ← env_dates e !! i;
  a ← p10_high e !! i; b ← p25_high e !! i;
  c ← p75_high e !! i; d ← p90_high e !! i;
  a' ← p10_low e !! i; b' ← p25_low e !! i;
  c' ← p75_low e !! i; d' ← p90_low e !! i;
  rh ← record_high e !! i; rl ← record_low e !! i;
  Some {| e_date := md;
          e_p10_high := a; e_p25_high := b; e_p75_high := c; e_p90_high := d;
          e_p10_low := a'; e_p25_low := b'; e_p75_low := c'; e_p90_low := d';
          e_record_high := rh; e_record_low := rl |}.



(** The dates of a series: keys of the axis, in its order, 366 at most. *)
Definition within_axis (ds : list string) : Prop :=
  ds `sublist_of` base_dates
  ∧ (length ds ≤ 366)%nat
  ∧ ∀ key, key ∈ ds → key ∈ base_dates.

(** Every key of a pooling has as many highs as lows. *)
Definition balanced (daily : gmap string Pooled) : Prop :=
  ∀ key, length (highs (dd_get daily key)) = length (lows (dd_get daily key)).

(** The values of one month with the year they were observed in, in
    processing order: [select] says which days count. *)
Definition month_row (select : Row → option Q) (m : Z) (yr_str : string)
    (r : Row) : option (string * Q) :=
  if bool_decide (month_num r.1.1 = Some m) then pair yr_str <$> select r
  else None.

Definition month_values (select : Row → option Q) (m : Z)
    (years : list (string * YearData)) : list (string * Q) :=
  years ≫= λ item, omap (month_row select m item.1) (days item.2).

(** The record loop seen from one month and one of its two statistics: the
    running extreme and the year it was set in. *)
Definition best_step (better : Q → Q → bool) (acc : Q * string)
    (p : string * Q) : Q * string :=
  if better p.2 acc.1 then (p.2, p.1) else acc.

Definition high_part (r : MonthRecord) : Q * string :=
  (mr_record_high r, mr_record_high_year r).

Definition low_part (r : MonthRecord) : Q * string :=
  (mr_record_low r, mr_record_low_year r).

(** Every high that is present, every low that is present. *)
Definition any_high (r : Row) : option Q := r.1.2.
Definition any_low (r : Row) : option Q := r.2.

(** The high, the low of a valid day. *)
Definition valid_high (r : Row) : option Q :=
  match r with (_, Some h, Some _) => Some h | _ => None end.
Definition valid_low (r : Row) : option Q :=
  match r with (_, Some _, Some l) => Some l | _ => None end.

(** [(y, v)] is the first greatest (smallest) entry of [l]. *)
Definition first_max (l : list (string * Q)) (y : string) (v : Q) : Prop :=
  ∃ l1 l2, l = l1 ++ (y, v) :: l2
    ∧ Forall (λ p, (p.2 < v)%Q) l1 ∧ Forall (λ p, (p.2 <= v)%Q) l2.

Definition first_min (l : list (string * Q)) (y : string) (v : Q) : Prop :=
  ∃ l1 l2, l = l1 ++ (y, v) :: l2
    ∧ Forall (λ p, (v < p.2)%Q) l1 ∧ Forall (λ p, (v <= p.2)%Q) l2.

(** The entry of a month in the [monthly] dict. *)
Definition month_entry (out : Output) (m : Z) : option MonthlyStat :=
  name ← Py.index MONTH_NAMES (m - 1); dict_get name (monthly out).

(** A reading that is present and satisfies [P]. *)
Definition present_and (P : Q → Prop) (v : option Q) : Prop :=
  ∃ x, v = Some x ∧ P x.

#[global] Instance Qle_decision (a b : Q) : Decision (a <= b)%Q.
Proof.
  destruct (Qlt_le_dec b a) as [H | H]; [right | left; exact H].
  intros Hle. exact (Qlt_not_le _ _ H Hle).
Defined.

#[global] Instance present_and_decision (P : Q → Prop) `{∀ x, Decision (P x)}
    (v : option Q) : Decision (present_and P v).
Proof.
  destruct v as [x |].
  - destruct (decide (P x)) as [HP | HP].
    + left. by exists x.
    + right. intros (y & [= <-] & Hy). done.
  - right. intros (y & [=] & _).
Defined.

(* ================================================================== *)
(** * Sample runs *)
(* ================================================================== *)

(** Ten historical years (2016 to 2025) of three days each; the second day
    has no low, the third no high. *)
Definition sample_year (y : Z) : YearData :=
  let k := inject_Z (y - 2016) in
  {| dates := [Py.str y +:+ "-01-01"; Py.str y +:+ "-01-02";
               Py.str y +:+ "-07-04"];
     high := [Some (30 + 1.5 * k)%Q; Some 38%Q; None];
     low := [Some (10 + k)%Q; None; Some 55.1%Q] |}.

Definition sample_current : YearData :=
  {| dates := ["2026-01-01"; "2026-01-02"; "2026-01-03"; "2026-01-04";
               "2026-01-05"];
     high := [Some 45%Q; Some 91%Q; Some 90%Q; Some 50%Q; None];
     low := [Some 20%Q; Some 32%Q; Some 33%Q; None; Some 31%Q] |}.

Definition sample_world : World :=
  {| fetch_year := λ y, if (2016 <=? y)%Z then Some (sample_year y) else None;
     fetch_current := Some sample_current;
     CURRENT_YEAR := 2026;
     now := "2026-01-06T08:00:00" |}.

(** The same responses, read one year later. *)
Definition sample_world_next_year : World :=
  {| fetch_year := fetch_year sample_world;
     fetch_current := fetch_current sample_world;
     CURRENT_YEAR := 2027;
     now := "2027-01-01T08:00:00" |}.

(** One historical year whose hottest January day has no low. *)
Definition invalid_day_world : World :=
  {| fetch_year := λ y,
       if (y =? 1996)%Z
       then Some {| dates := ["1996-01-01"; "1996-01-02"];
                    high := [Some 50%Q; Some 60%Q];
                    low := [Some 20%Q; None] |}
       else None;
     fetch_current := Some {| dates := []; high := []; low := [] |};
     CURRENT_YEAR := 2026;
     now := "2026-01-06T08:00:00" |}.

(** No historical year at all. *)
Definition no_history_world : World :=
  {| fetch_year := λ _, None;
     fetch_current := Some {| dates := []; high := []; low := [] |};
     CURRENT_YEAR := 2026;
     now := "2026-01-06T08:00:00" |}.

(** An output with nothing in it: the default of the sample outputs. *)
Definition no_output : Output :=
  {| generated_at := ""; year := 0;
     current_year := {| dates := []; high := []; low := [] |};
     trailing_avg := series_of [];
     normals := series_of [];
     historical_envelope := envelope_of [];
     historical_years := [];
     monthly := [];
     anomalies := {| months := []; high_departure := []; low_departure := [] |};
     summary :=
       {| today_high := None; today_low := None; today_date := None;
          ytd_avg_high := None; ytd_normal_avg_high := None;
          hottest_day := (None, None); coldest_day := (None, None);
          days_below_freezing := 0; days_above_90 := 0 |} |}.

Definition sample_out : Output :=
  Eval vm_compute in default no_output (main sample_world).

(** The two poolings of the sample run. *)
Definition sample_historical : list (string * YearData) :=
  Eval vm_compute in all_years sample_world.

Definition sample_all_daily : gmap string Pooled :=
  Eval vm_compute in
    default ∅
      (snd <$> fetch_historical (fetch_year sample_world)
                 (Py.range HIST_START_YEAR (HIST_END_YEAR + 1)) [] ∅).

Definition sample_trailing_daily : gmap string Pooled :=
  Eval vm_compute in
    default ∅
      (pool_trailing sample_historical
         (Py.range (HIST_END_YEAR - TRAILING_YEARS + 1) (HIST_END_YEAR + 1))
         ∅).

Definition invalid_day_out : Output :=
  Eval vm_compute in default no_output (main invalid_day_world).

Definition no_history_out : Output :=
  Eval vm_compute in default no_output (main no_history_world).

(* ================================================================== *)
(** * Three statements of the specification, as it words them *)
(* ================================================================== *)

(** Monthly records over the valid days only. *)
Definition records_over_valid_days : Prop :=
  ∀ (w : World) (out : Output) (m : Z) (st : MonthlyStat),
    main w = Some out → (1 ≤ m ≤ 12)%Z → month_entry out m = Some st →
    (month_values valid_high m (all_years w) ≠ [] →
     ∃ h, ms_record_high st = Some h
          ∧ first_max (month_values valid_high m (all_years w))
              (ms_record_high_year st) h)
    ∧ (month_values valid_low m (all_years w) ≠ [] →
       ∃ l, ms_record_low st = Some l
            ∧ first_min (month_values valid_low m (all_years w))
                (ms_record_low_year st) l).

(** A month without valid historical days has nothing but nulls. *)
Definition empty_month_all_null : Prop :=
  ∀ (w : World) (out : Output) (m : Z) (st : MonthlyStat),
    main w = Some out → (1 ≤ m ≤ 12)%Z → month_entry out m = Some st →
    month_values valid_high m (all_years w) = [] →
    field "normal_high" (j_monthly_stat st) = Some JNull
    ∧ field "normal_low" (j_monthly_stat st) = Some JNull
    ∧ field "record_high" (j_monthly_stat st) = Some JNull
    ∧ field "record_low" (j_monthly_stat st) = Some JNull
    ∧ field "record_high_year" (j_monthly_stat st) = Some JNull
    ∧ field "record_low_year" (j_monthly_stat st) = Some JNull.

(** Two worlds with the same provider responses. *)
Definition same_responses (w1 w2 : World) : Prop :=
  (∀ y, fetch_year w1 y = fetch_year w2 y)
  ∧ fetch_current w1 = fetch_current w2.

(** The document of a run, [generated_at] left out; [None] if the run
    aborts. *)
Definition stable_part (w : World) : option json :=
  without_field "generated_at" ∘ document <$> main w.

(** The responses alone fix the document up to [generated_at]. *)
Definition responses_fix_document : Prop :=
  ∀ w1 w2 : World, same_responses w1 w2 → stable_part w1 = stable_part w2.

(* ================================================================== *)
(** * [fetch_year]: one request with retries *)
(* ================================================================== *)

Module Fetch.

(** The ["daily"] object of a response body; each of its keys may be
    missing. *)
Record Daily := {
  time : option (list string);
  temperature_2m_max : option (list (option Q));
  temperature_2m_min : option (list (option Q))
}.

(** The body of a response, as [resp.json()] returns it; ["daily"] may be
    missing. *)
Record Body := { daily : option Daily }.

(** What one call of [requests.get] does: it returns a response, or raises
    a [RequestException]. *)
Inductive outcome :=
| Response (status_code : Z) (body : Body)
| RequestException.

(** What a call of [fetch_year] does to the outside, in order. *)
Inductive event :=
| Get
| Sleep (seconds : Z).

(** The dict returned on status 200: [data.get("daily", {})], then the
    three [daily.get(key, [])]. *)
Definition year_data (body : Body) : YearData :=
  let daily :=
    default {| time := None; temperature_2m_max := None;
               temperature_2m_min := None |} (daily body) in
  {| dates := default [] (time daily);
     high := default [] (temperature_2m_max daily);
     low := default [] (temperature_2m_min daily) |}.

(** The [time.sleep(2)] of the two failure branches, under
    [if attempt < 2]. *)
Definition retry_pause (attempt : Z) : list event :=
  if (attempt <? 2)%Z then [Sleep 2] else [].

(** The loop [for attempt in range(3)]: [todo] are the attempts left,
    [net k] is what the call number [k] of [requests.get] does, [trace] the
    events so far. *)
Fixpoint attempts (net : nat → outcome) (todo : list Z) (k : nat)
    (trace : list event) : option YearData * list event :=
  match todo with
  | [] => (None, trace)
  | attempt :: rest =>
      match net k with
      | Response status_code body =>
          if (status_code =? 200)%Z
          then (Some (year_data body), trace ++ [Get])
          else if ((status_code =? 429) || (status_code =? 503))%Z
          then attempts net rest (S k)
                 (trace ++ [Get; Sleep ((attempt + 1) * 5)])
          else attempts net rest (S k)
                 (trace ++ Get :: retry_pause attempt)
      | RequestException =>
          attempts net rest (S k) (trace ++ Get :: retry_pause attempt)
      end
  end.

(** [fetch_year(year, end_date)]; the request it sends is fixed by its
    arguments, [net] is what the provider answers to it. *)
Definition fetch_year (net : nat → outcome) : option YearData * list event :=
  attempts net (Py.range 0 3) 0 [].

(** The number of requests and the seconds slept in a trace. *)
Definition requests (trace : list event) : nat :=
  length (List.filter (λ e, match e with Get => true | Sleep _ => false end)
            trace).

Definition slept (trace : list event) : Z :=
  foldr (λ e acc, match e with Get => acc | Sleep s => (s + acc)%Z end) 0%Z
    trace.

(** The call number [k] answers with status 200. *)
Definition succeeds (net : nat → outcome) (k : nat) : Prop :=
  ∃ body, net k = Response 200 body.

(** The call number [k] answers with a rate-limit status. *)
Definition rate_limited (net : nat → outcome) (k : nat) : Prop :=
  ∃ body, net k = Response 429 body ∨ net k = Response 503 body.

(** A sample provider: rate limit, then a network error, then the data. *)
Definition sample_net (k : nat) : outcome :=
  match k with
  | 0%nat => Response 429 {| daily := None |}
  | 1%nat => RequestException
  | _ =>
      Response 200
        {| daily :=
             Some {| time := Some ["2020-01-01"];
                     temperature_2m_max := Some [Some 40%Q];
                     temperature_2m_min := None |} |}
  end.

End Fetch.

(* ================================================================== *)
(** * Notions for the further properties *)
(* ================================================================== *)

(** The three lists of a response have the same length, and every date
    has a month that [int(date_str[5:7])] reads. *)
Definition well_formed (data : YearData) : Prop :=
  length (high data) = length (dates data)
  ∧ length (low data) = length (dates data)
  ∧ Forall (λ d, is_Some (month_num d)) (dates data).

(** A day with both values. *)
Definition is_valid (r : Row) : bool :=
  match r with
  | (_, Some _, Some _) => true
  | _ => false
  end.

(** The normal high of the day of [date_str], if the normals have its
    key. *)
Definition normal_of (n : Series) (date_str : string) : option Q :=
  i ← Py.list_index (md_key date_str) (s_dates n); s_high n !! i.

(** The values that are present, each with the date at its position. *)
Definition dated (ds : list string) (values : list (option Q))
  : list (string * Q) :=
  omap (λ p : string * option Q, pair p.1 <$> p.2) (zip ds values).

(** A provider whose answer for 2020 has a date and a high but no low. *)
Definition ragged_world : World :=
  {| fetch_year := λ y,
       if (y =? 2020)%Z then (Fetch.fetch_year Fetch.sample_net).1 else None;
     fetch_current := Some {| dates := []; high := []; low := [] |};
     CURRENT_YEAR := 2026;
     now := "2026-01-06T08:00:00" |}.

(** No valid day of the year has its low above its high. *)
Definition ordered_days (data : YearData) : Prop :=
  Forall (λ r : Row,
      match r with
      | (_, Some h, Some l) => (l <= h)%Q
      | _ => True
      end) (days data).

(** The values of the days of month [m] that [select] keeps, in processing
    order. *)
Definition month_pool (select : Row → option Q) (m : Z)
    (years : list (string * YearData)) : list Q :=
  (month_values select m years).*2.

(** The months of [range(1, 13)] that have a departure of the high, with
    what the anomalies keep of each. *)
Definition anomaly_rows (out : Output) : list (string * Q * option Q) :=
  omap (λ m,
      name ← Py.index MONTH_NAMES (m - 1);
      st ← month_entry out m;
      dh ← departure_high st;
      Some (Py.str_take 3 name, dh, departure_low st))
    (Py.range 1 13).

(** A date as the provider writes it: the year, the month and the day on
    two digits each. *)
Definition iso_date (y : string) (m d : Z) : string :=
  y +:+ "-" +:+ Py.pad2 m +:+ "-" +:+ Py.pad2 d.

(** Whether the key of every day of a leap year is on the axis. *)
Definition axis_covers_calendar : bool :=
  forallb (λ m,
      forallb (λ d,
          bool_decide (Py.pad2 m +:+ "-" +:+ Py.pad2 d ∈ base_dates))
        (seqZ 1 (Py.days_in_month 2024 m)))
    (seqZ 1 12).

(** Whether [is_leap_day] and [month_num] read the month and the day of
    every date off the part behind the year. *)
Definition date_parts_read : bool :=
  forallb (λ m,
      forallb (λ d,
          let md := Py.pad2 m +:+ "-" +:+ Py.pad2 d in
          bool_decide (Py.int_str (Py.str_take 2 md) = Some m)
          && Bool.eqb (bool_decide (md = "02-29"))
               ((m =? 2) && (d =? 29))%Z)
        (seqZ 1 31))
    (seqZ 1 12).

(** A provider whose answer for 2020 has a date without a month. *)
Definition bad_date_world : World :=
  {| fetch_year := λ y,
       if (y =? 2020)%Z
       then Some {| dates := ["2020"]; high := [None]; low := [None] |}
       else None;
     fetch_current := Some {| dates := []; high := []; low := [] |};
     CURRENT_YEAR := 2026;
     now := "2026-01-06T08:00:00" |}.

(* ================================================================== *)
(** * Facts about the primitives *)
(* ================================================================== *)

(** ** Rounding and comparisons *)

Section numbers.
Local Open Scope Q_scope.

Ltac compare_facts :=
  repeat match goal with
    | H : (_ ?= _) = Eq |- _ => apply Qeq_alt in H
    | H : (_ ?= _) = Lt |- _ => apply Qlt_alt in H
    | H : (_ ?= _) = Gt |- _ => apply Qgt_alt in H
    end.

Lemma round_half_even_mono (x y : Q) :
  x <= y → (Py.round_half_even x <= Py.round_half_even y)%Z.
Proof.
  intros Hxy. unfold Py.round_half_even.
  pose proof (Qfloor_resp_le _ _ Hxy) as Hf.
  pose proof (Qfloor_le x) as Hx1. pose proof (Qlt_floor x) as Hx2.
  pose proof (Qfloor_le y) as Hy1. pose proof (Qlt_floor y) as Hy2.
  destruct (Z.eq_dec (Qfloor x) (Qfloor y)) as [He | Hne].
  - rewrite <- He in *.
    destruct (x - inject_Z (Qfloor x) ?= 1 # 2) eqn:Ex;
      destruct (y - inject_Z (Qfloor x) ?= 1 # 2) eqn:Ey;
      compare_facts;
      try (destruct (Z.even (Qfloor x))); try lia; exfalso; lra.
  - destruct (x - inject_Z (Qfloor x) ?= 1 # 2);
      destruct (y - inject_Z (Qfloor y) ?= 1 # 2);
      try (destruct (Z.even (Qfloor x))); try (destruct (Z.even (Qfloor y)));
      lia.
Qed.

Lemma round1_mono (x y : Q) : x <= y → Py.round1 x <= Py.round1 y.
Proof.
  intros Hxy. unfold Py.round1, Qle. simpl.
  assert (x * 10 <= y * 10) as H by lra.
  apply round_half_even_mono in H. lia.
Qed.

Lemma round1_proper (x y : Q) : x == y → Py.round1 x = Py.round1 y.
Proof.
  intros Hxy. unfold Py.round1, Py.round_half_even.
  assert (x * 10 == y * 10) as H by (rewrite Hxy; reflexivity).
  assert (Qfloor (x * 10) = Qfloor (y * 10)) as Hf by (rewrite H; reflexivity).
  rewrite Hf.
  assert ((x * 10 - inject_Z (Qfloor (y * 10)) ?= 1 # 2)
          = (y * 10 - inject_Z (Qfloor (y * 10)) ?= 1 # 2)) as Hc
    by (rewrite H; reflexivity).
  rewrite Hc. reflexivity.
Qed.

(** A reading with one decimal, as the provider sends it, is emitted
    unchanged. *)
Lemma round1_tenths (z : Z) : Py.round1 (z # 10) = z # 10.
Proof.
  unfold Py.round1, Py.round_half_even.
  assert (Qfloor ((z # 10) * 10) = z) as Hf.
  { unfold Qfloor, Qmult. cbn [Qnum Qden].
    change (Z.pos (10 * 1)) with 10%Z. apply Z.div_mul. lia. }
  rewrite Hf.
  assert ((z # 10) * 10 - inject_Z z < 1 # 2) as Hlt.
  { unfold Qlt, Qminus, Qplus, Qmult, Qopp, inject_Z. simpl. lia. }
  rewrite (proj1 (Qlt_alt _ _) Hlt). reflexivity.
Qed.

Lemma int_nonneg (x : Q) : 0 <= x → Py.int x = Qfloor x.
Proof.
  destruct x as [n d]. unfold Qle, Py.int. simpl. intros H.
  apply Z.quot_div_nonneg; lia.
Qed.

Lemma le_true (a b : Q) : Py.le a b = true ↔ a <= b.
Proof. apply Qle_bool_iff. Qed.

Lemma le_false (a b : Q) : Py.le a b = false ↔ b < a.
Proof.
  unfold Py.le. split; intros H.
  - apply Qnot_le_lt. intros Hle. apply Qle_bool_iff in Hle. congruence.
  - destruct (Qle_bool a b) eqn:E; [| done].
    apply Qle_bool_iff in E. lra.
Qed.

Lemma gt_true (a b : Q) : Py.gt a b = true ↔ b < a.
Proof. unfold Py.gt. rewrite negb_true_iff. apply (le_false a b). Qed.

Lemma gt_false (a b : Q) : Py.gt a b = false ↔ a <= b.
Proof. unfold Py.gt. rewrite negb_false_iff. apply Qle_bool_iff. Qed.

Lemma lt_true (a b : Q) : Py.lt a b = true ↔ a < b.
Proof. unfold Py.lt. rewrite negb_true_iff. apply (le_false b a). Qed.

Lemma lt_false (a b : Q) : Py.lt a b = false ↔ b <= a.
Proof. unfold Py.lt. rewrite negb_false_iff. apply Qle_bool_iff. Qed.

Lemma ge_true (a b : Q) : Py.ge a b = true ↔ b <= a.
Proof. apply Qle_bool_iff. Qed.

(** ** Sorting *)

Lemma insert_sorted_perm (x : Q) (l : list Q) : Py.insert_sorted x l ≡ₚ x :: l.
Proof.
  induction l as [| y t IH]; simpl; [done |].
  destruct (Py.le x y); [done |].
  rewrite IH. apply Permutation_swap.
Qed.

Lemma sorted_perm (xs : list Q) : Py.sorted xs ≡ₚ xs.
Proof.
  induction xs as [| x t IH]; simpl; [done |].
  rewrite insert_sorted_perm. by rewrite IH.
Qed.

Lemma sorted_length (xs : list Q) : length (Py.sorted xs) = length xs.
Proof. by rewrite (sorted_perm xs). Qed.

Lemma sorted_len (xs : list Q) : Py.len (Py.sorted xs) = Py.len xs.
Proof. unfold Py.len. by rewrite sorted_length. Qed.

Lemma insert_sorted_ordered (x : Q) (l : list Q) :
  StronglySorted Qle l → StronglySorted Qle (Py.insert_sorted x l).
Proof.
  induction 1 as [| y t Hs IH Hall]; simpl.
  - repeat constructor.
  - destruct (Py.le x y) eqn:E.
    + apply le_true in E. constructor; [by constructor |].
      constructor; [done |].
      eapply Forall_impl; [exact Hall |]. intros z Hz. simpl in Hz. lra.
    + apply le_false in E. constructor; [done |].
      rewrite (insert_sorted_perm x t). constructor; [lra | done].
Qed.

Lemma sorted_ordered (xs : list Q) : StronglySorted Qle (Py.sorted xs).
Proof.
  induction xs as [| x t IH]; simpl; [constructor |].
  by apply insert_sorted_ordered.
Qed.

Lemma ordered_lookup (l : list Q) (i j : nat) (a b : Q) :
  StronglySorted Qle l → (i ≤ j)%nat →
  l !! i = Some a → l !! j = Some b → a <= b.
Proof.
  intros Hs. revert i j. induction Hs as [| y t Hs IH Hall]; intros i j Hij Hi Hj.
  - done.
  - destruct i as [| i], j as [| j]; simpl in *; simplify_eq.
    + lra.
    + rewrite Forall_forall in Hall. apply Hall.
      by eapply list_elem_of_lookup_2.
    + lia.
    + eapply IH; [| done..]. lia.
Qed.

(** ** Extremes *)

Lemma max_loop_spec (t : list Q) (x : Q) :
  let m := fold_left (λ m y, if Py.gt y m then y else m) t x in
  m ∈ x :: t ∧ Forall (λ y, y <= m) (x :: t).
Proof.
  revert x. induction t as [| y t IH]; intros x; simpl.
  - split; [left | repeat constructor; lra].
  - destruct (Py.gt y x) eqn:E.
    + apply gt_true in E. destruct (IH y) as [Hin Hall]. split.
      * right. exact Hin.
      * inversion Hall as [| ? ? Hy Ht]; subst.
        constructor; [lra |]. by constructor.
    + apply gt_false in E. destruct (IH x) as [Hin Hall]. split.
      * apply elem_of_cons in Hin as [-> | Hin]; [left | right; by right].
      * inversion Hall as [| ? ? Hx Ht]; subst.
        constructor; [done |]. constructor; [lra | done].
Qed.

Lemma max_spec (xs : list Q) (m : Q) :
  Py.max xs = Some m → m ∈ xs ∧ Forall (λ y, y <= m) xs.
Proof.
  destruct xs as [| x t]; simpl; [done |]. intros [= <-]. apply max_loop_spec.
Qed.

Lemma min_loop_spec (t : list Q) (x : Q) :
  let m := fold_left (λ m y, if Py.lt y m then y else m) t x in
  m ∈ x :: t ∧ Forall (λ y, m <= y) (x :: t).
Proof.
  revert x. induction t as [| y t IH]; intros x; simpl.
  - split; [left | repeat constructor; lra].
  - destruct (Py.lt y x) eqn:E.
    + apply lt_true in E. destruct (IH y) as [Hin Hall]. split.
      * right. exact Hin.
      * inversion Hall as [| ? ? Hy Ht]; subst.
        constructor; [lra |]. by constructor.
    + apply lt_false in E. destruct (IH x) as [Hin Hall]. split.
      * apply elem_of_cons in Hin as [-> | Hin]; [left | right; by right].
      * inversion Hall as [| ? ? Hx Ht]; subst.
        constructor; [done |]. constructor; [lra | done].
Qed.

Lemma min_spec (xs : list Q) (m : Q) :
  Py.min xs = Some m → m ∈ xs ∧ Forall (λ y, m <= y) xs.
Proof.
  destruct xs as [| x t]; simpl; [done |]. intros [= <-]. apply min_loop_spec.
Qed.

Lemma max_is_Some (xs : list Q) : xs ≠ [] → is_Some (Py.max xs).
Proof. destruct xs; [done | by eexists]. Qed.

Lemma min_is_Some (xs : list Q) : xs ≠ [] → is_Some (Py.min xs).
Proof. destruct xs; [done | by eexists]. Qed.
End numbers.

(** ** Percentile indices *)

Section indices.
Local Open Scope Q_scope.

Lemma inject_Z_pos (n : Z) : (1 ≤ n)%Z → 0 < inject_Z n.
Proof. intros Hn. unfold Qlt. simpl. lia. Qed.

Lemma floor_rank_bounds (n : Z) (p : Q) :
  (1 ≤ n)%Z → 0 <= p → p < 1 →
  (0 ≤ Qfloor (inject_Z n * p) ≤ n - 1)%Z.
Proof.
  intros Hn Hp0 Hp1.
  pose proof (inject_Z_pos n Hn) as Hn'.
  assert (0 <= inject_Z n * p) as H0 by nra.
  assert (inject_Z n * p < inject_Z n) as H1 by nra.
  split.
  - change 0%Z with (Qfloor 0). by apply Qfloor_resp_le.
  - pose proof (Qfloor_le (inject_Z n * p)) as Hf.
    assert (inject_Z (Qfloor (inject_Z n * p)) < inject_Z n) as Hlt by lra.
    rewrite <- Zlt_Qlt in Hlt. lia.
Qed.

Lemma lower_index_floor (n : Z) (p : Q) :
  (1 ≤ n)%Z → 0 <= p → p < 1 → lower_index n p = Qfloor (inject_Z n * p).
Proof.
  intros Hn Hp0 Hp1. pose proof (floor_rank_bounds n p Hn Hp0 Hp1) as Hb.
  unfold lower_index. rewrite int_nonneg; [lia |].
  pose proof (inject_Z_pos n Hn) as Hn'. nra.
Qed.

Lemma upper_index_floor (n : Z) (p : Q) :
  (1 ≤ n)%Z → 0 <= p → p < 1 → upper_index n p = Qfloor (inject_Z n * p).
Proof.
  intros Hn Hp0 Hp1. pose proof (floor_rank_bounds n p Hn Hp0 Hp1) as Hb.
  unfold upper_index. rewrite int_nonneg; [lia |].
  pose proof (inject_Z_pos n Hn) as Hn'. nra.
Qed.

Lemma nearest_rank_floor (n : Z) (p : Q) :
  (1 ≤ n)%Z → 0 <= p → p < 1 → nearest_rank n p = Qfloor (inject_Z n * p).
Proof.
  intros Hn Hp0 Hp1. pose proof (floor_rank_bounds n p Hn Hp0 Hp1) as Hb.
  unfold nearest_rank, clamp. lia.
Qed.

Lemma nearest_rank_mono (n : Z) (p q : Q) :
  (1 ≤ n)%Z → p <= q → (nearest_rank n p ≤ nearest_rank n q)%Z.
Proof.
  intros Hn Hpq. unfold nearest_rank, clamp.
  pose proof (inject_Z_pos n Hn) as Hn'.
  assert (inject_Z n * p <= inject_Z n * q) as H by nra.
  apply Qfloor_resp_le in H. lia.
Qed.

Lemma nearest_rank_range (n : Z) (p : Q) :
  (1 ≤ n)%Z → (0 ≤ nearest_rank n p ≤ n - 1)%Z.
Proof. intros Hn. unfold nearest_rank, clamp. lia. Qed.

Lemma index_nonneg {A} (xs : list A) (i : Z) :
  (0 ≤ i)%Z → Py.index xs i = xs !! Z.to_nat i.
Proof. intros Hi. unfold Py.index. case_match; [done |]. lia. Qed.

Lemma index_in_range {A} (xs : list A) (i : Z) :
  (0 ≤ i < Py.len xs)%Z → is_Some (Py.index xs i).
Proof.
  intros Hi. rewrite index_nonneg by lia. apply lookup_lt_is_Some.
  unfold Py.len in Hi. lia.
Qed.

End indices.

(** On binary64 the index expressions of step 5 take the values of the
    model, for every sample size below 1000 (thirty years give at most a
    few dozen values per day). *)
Lemma float_indices_agree :
  forallb float_index_agrees (seqZ 0 1000) = true.
Proof. vm_compute. reflexivity. Qed.

(** ** The envelope *)

Lemma fraction_ok :
  (0 <= 0.1 ∧ 0.1 < 1)%Q ∧ (0 <= 0.25 ∧ 0.25 < 1)%Q
  ∧ (0 <= 0.75 ∧ 0.75 < 1)%Q ∧ (0 <= 0.9 ∧ 0.9 < 1)%Q.
Proof. repeat split; lra. Qed.

Lemma lower_index_rank (n : Z) (p : Q) :
  (1 ≤ n)%Z → (0 <= p ∧ p < 1)%Q → lower_index n p = nearest_rank n p.
Proof.
  intros Hn [H0 H1]. by rewrite lower_index_floor, nearest_rank_floor.
Qed.

Lemma upper_index_rank (n : Z) (p : Q) :
  (1 ≤ n)%Z → (0 <= p ∧ p < 1)%Q → upper_index n p = nearest_rank n p.
Proof.
  intros Hn [H0 H1]. by rewrite upper_index_floor, nearest_rank_floor.
Qed.

Lemma index_rank (xs : list Q) (p : Q) :
  (1 ≤ Py.len xs)%Z →
  Py.index xs (nearest_rank (Py.len xs) p)
  = xs !! Z.to_nat (nearest_rank (Py.len xs) p).
Proof.
  intros Hn. apply index_nonneg.
  pose proof (nearest_rank_range (Py.len xs) p Hn). lia.
Qed.

Lemma index_rank_is_Some (xs : list Q) (p : Q) :
  (1 ≤ Py.len xs)%Z →
  is_Some (xs !! Z.to_nat (nearest_rank (Py.len xs) p)).
Proof.
  intros Hn. apply lookup_lt_is_Some.
  pose proof (nearest_rank_range (Py.len xs) p Hn). unfold Py.len in *. lia.
Qed.

Lemma envelope_row_spec (md : string) (hs ls : list Q) (r : EnvRow) :
  (1 ≤ Py.len hs)%Z → (1 ≤ Py.len ls)%Z →
  envelope_row md hs ls = Some r →
  e_date r = md
  ∧ rank_value hs 0.1 = Some (e_p10_high r)
  ∧ rank_value hs 0.25 = Some (e_p25_high r)
  ∧ rank_value hs 0.75 = Some (e_p75_high r)
  ∧ rank_value hs 0.9 = Some (e_p90_high r)
  ∧ rank_value ls 0.1 = Some (e_p10_low r)
  ∧ rank_value ls 0.25 = Some (e_p25_low r)
  ∧ rank_value ls 0.75 = Some (e_p75_low r)
  ∧ rank_value ls 0.9 = Some (e_p90_low r)
  ∧ Py.round1 <$> Py.max hs = Some (e_record_high r)
  ∧ Py.round1 <$> Py.min ls = Some (e_record_low r).
Proof.
  intros Hh Hl. unfold envelope_row, rank_value.
  destruct fraction_ok as (F1 & F2 & F3 & F4).
  rewrite !lower_index_rank, !upper_index_rank by done.
  rewrite !index_rank by done.
  intros H. simplify_option_eq. done.
Qed.

Lemma envelope_row_total (md : string) (hs ls : list Q) :
  (1 ≤ Py.len hs)%Z → (1 ≤ Py.len ls)%Z → is_Some (envelope_row md hs ls).
Proof.
  intros Hh Hl. unfold envelope_row.
  destruct fraction_ok as (F1 & F2 & F3 & F4).
  rewrite !lower_index_rank, !upper_index_rank by done.
  rewrite !index_rank by done.
  destruct (index_rank_is_Some hs 0.1 Hh) as [? ->].
  destruct (index_rank_is_Some hs 0.25 Hh) as [? ->].
  destruct (index_rank_is_Some hs 0.75 Hh) as [? ->].
  destruct (index_rank_is_Some hs 0.9 Hh) as [? ->].
  destruct (index_rank_is_Some ls 0.1 Hl) as [? ->].
  destruct (index_rank_is_Some ls 0.25 Hl) as [? ->].
  destruct (index_rank_is_Some ls 0.75 Hl) as [? ->].
  destruct (index_rank_is_Some ls 0.9 Hl) as [? ->].
  destruct hs as [| h hs]; [unfold Py.len in Hh; simpl in Hh; lia |].
  destruct ls as [| l ls]; [unfold Py.len in Hl; simpl in Hl; lia |].
  simpl. by eexists.
Qed.

(* ================================================================== *)
(** * Facts about the pipeline *)
(* ================================================================== *)

(** The axis is a constant; proofs never unfold it. *)
#[global] Opaque base_dates.

Lemma main_inv (w : World) (out : Output) :
  main w = Some out →
  ∃ historical all_daily current_data trailing_daily envelope monthly_hist
    monthly_records cur_rows current_monthly monthly anomalies summary,
    fetch_historical (fetch_year w)
      (Py.range HIST_START_YEAR (HIST_END_YEAR + 1)) [] ∅
    = Some (historical, all_daily)
    ∧ fetch_current w = Some current_data
    ∧ pool_trailing historical
        (Py.range (HIST_END_YEAR - TRAILING_YEARS + 1) (HIST_END_YEAR + 1)) ∅
      = Some trailing_daily
    ∧ envelope_rows all_daily base_dates = Some envelope
    ∧ foldl_opt pool_month_year historical.*2 ∅ = Some monthly_hist
    ∧ foldl_opt record_year historical ∅ = Some monthly_records
    ∧ rows current_data = Some cur_rows
    ∧ foldl_opt pool_month_row cur_rows ∅ = Some current_monthly
    ∧ build_monthly monthly_hist current_monthly monthly_records = Some monthly
    ∧ build_anomalies monthly = Some anomalies
    ∧ build_summary current_data cur_rows
        (daily_means all_daily base_dates) = Some summary
    ∧ out = {| generated_at := now w;
               year := CURRENT_YEAR w;
               current_year := rounded current_data;
               trailing_avg := daily_means trailing_daily base_dates;
               normals := daily_means all_daily base_dates;
               historical_envelope := envelope_of envelope;
               historical_years := prod_map id rounded <$> historical;
               monthly := monthly;
               anomalies := anomalies;
               summary := summary |}.
Proof.
  unfold main. intros H.
  apply bind_Some in H as ([historical all_daily] & E1 & H).
  apply bind_Some in H as (current_data & E2 & H).
  apply bind_Some in H as (trailing_daily & E3 & H).
  apply bind_Some in H as (envelope & E4 & H).
  apply bind_Some in H as (monthly_hist & E5 & H).
  apply bind_Some in H as (monthly_records & E6 & H).
  apply bind_Some in H as (cur_rows & E7 & H).
  apply bind_Some in H as (current_monthly & E8 & H).
  apply bind_Some in H as (monthly & E9 & H).
  apply bind_Some in H as (anomalies & E10 & H).
  apply bind_Some in H as (summary & E11 & H).
  injection H as <-.
  exists historical, all_daily, current_data, trailing_daily, envelope,
    monthly_hist, monthly_records, cur_rows, current_monthly, monthly,
    anomalies, summary.
  repeat split; assumption.
Qed.

(** ** The calendar axis *)

Lemma base_dates_loop_more (k fuel : nat) (d : Py.date) (acc r : list string) :
  base_dates_loop fuel d acc = Some r →
  base_dates_loop (fuel + k) d acc = Some r.
Proof.
  revert d acc. induction fuel as [| fuel IH]; intros d acc; simpl; [done |].
  destruct (Py.date_le d _); [apply IH | done].
Qed.

Lemma build_base_dates_366 : build_base_dates 366 = Some base_dates.
Proof. vm_compute. reflexivity. Qed.

Lemma build_base_dates_more (k : nat) :
  build_base_dates (366 + k) = Some base_dates.
Proof.
  pose proof build_base_dates_366 as H. unfold build_base_dates in *.
  apply bind_Some in H as (l & Hl & H).
  rewrite (base_dates_loop_more k _ _ _ _ Hl). exact H.
Qed.

Lemma base_dates_length : length base_dates = 366%nat.
Proof. vm_compute. reflexivity. Qed.

Lemma base_dates_NoDup : NoDup base_dates.
Proof. apply (bool_decide_unpack (NoDup base_dates)). vm_compute. exact I. Qed.

Lemma year_strings_NoDup :
  NoDup (Py.str <$> Py.range HIST_START_YEAR (HIST_END_YEAR + 1)).
Proof.
  apply (bool_decide_unpack
           (NoDup (Py.str <$> Py.range HIST_START_YEAR (HIST_END_YEAR + 1)))).
  vm_compute. exact I.
Qed.

Lemma trailing_range_incl (y : Z) :
  y ∈ Py.range (HIST_END_YEAR - TRAILING_YEARS + 1) (HIST_END_YEAR + 1) →
  y ∈ Py.range HIST_START_YEAR (HIST_END_YEAR + 1).
Proof.
  unfold Py.range, HIST_START_YEAR, HIST_END_YEAR, TRAILING_YEARS.
  rewrite !elem_of_seqZ. lia.
Qed.

(** ** Rows and pooling *)

Lemma enumerate_rows_zip (ds : list string) (data : YearData) (i : nat)
    (rs : list Row) :
  enumerate_rows i ds data = Some rs →
  rs = zip_with (λ d hl, (d, hl.1, hl.2)) ds
         (zip (drop i (high data)) (drop i (low data))).
Proof.
  revert i rs. induction ds as [| d ds IH]; intros i rs; simpl.
  - by intros [= <-].
  - intros H.
    apply bind_Some in H as (h & Hh & H).
    apply bind_Some in H as (l & Hl & H).
    apply bind_Some in H as (rest & Hrest & H).
    injection H as <-.
    rewrite (drop_S _ _ _ Hh), (drop_S _ _ _ Hl). simpl.
    f_equal. by apply IH.
Qed.

Lemma rows_days (data : YearData) (rs : list Row) :
  rows data = Some rs → rs = days data.
Proof. intros H. by apply enumerate_rows_zip in H. Qed.

Lemma pooled_eta (p : Pooled) : {| highs := highs p; lows := lows p |} = p.
Proof. by destruct p. Qed.

Lemma dd_get_empty `{Countable K} (key : K) : dd_get (∅ : gmap K Pooled) key = empty_pooled.
Proof. unfold dd_get. by rewrite lookup_empty. Qed.

Lemma dd_get_append `{Countable K} (daily : gmap K Pooled) (k k' : K)
    (h l : Q) :
  dd_get (dd_append daily k h l) k'
  = if decide (k = k')
    then {| highs := highs (dd_get daily k) ++ [h];
            lows := lows (dd_get daily k) ++ [l] |}
    else dd_get daily k'.
Proof.
  unfold dd_append, dd_get at 1. rewrite lookup_insert.
  by case_decide.
Qed.

Lemma pool_rows_spec (rs : list Row) (daily : gmap string Pooled)
    (key : string) :
  dd_get (pool_rows daily rs) key
  = {| highs := highs (dd_get daily key) ++ key_highs key rs;
       lows := lows (dd_get daily key) ++ key_lows key rs |}.
Proof.
  revert daily. induction rs as [| [[d h] l] rs IH]; intros daily; simpl.
  - by rewrite !app_nil_r, pooled_eta.
  - unfold pool_rows in *. simpl. rewrite IH.
    destruct h as [h |], l as [l |]; simpl; try done.
    rewrite dd_get_append.
    case_decide as Hk; case_bool_decide; try done; subst; simpl.
    by rewrite <- !app_assoc.
Qed.

Lemma pool_rows_lengths (rs : list Row) (key : string) :
  length (key_highs key rs) = length (key_lows key rs).
Proof.
  induction rs as [| [[d h] l] rs IH]; simpl; [done |].
  destruct h, l; simpl; try done. case_bool_decide; simpl; by rewrite ?IH.
Qed.

(** ** The [historical] dict *)

Lemma dict_set_fresh {V} (k : string) (v : V) (d : list (string * V)) :
  k ∉ d.*1 → dict_set k v d = d ++ [(k, v)].
Proof.
  induction d as [| [k' v'] d IH]; simpl; [done |].
  rewrite not_elem_of_cons. intros [Hne Hnin].
  case_bool_decide; [congruence |]. by rewrite IH.
Qed.

Lemma dict_get_None {V} (k : string) (d : list (string * V)) :
  k ∉ d.*1 → dict_get k d = None.
Proof.
  induction d as [| [k' v'] d IH]; simpl; [done |].
  rewrite not_elem_of_cons. intros [Hne Hnin].
  case_bool_decide; [congruence |]. by apply IH.
Qed.

Lemma fetched_of_keys (f : Z → option YearData) (years : list Z) (k : string) :
  k ∈ (fetched_of f years).*1 → k ∈ Py.str <$> years.
Proof.
  induction years as [| y years IH]; simpl; [done |].
  unfold fetched_of in *. simpl.
  destruct (f y) as [data |]; simpl.
  - rewrite !elem_of_cons. intros [-> | Hin]; [by left | right; by apply IH].
  - intros Hin. right. by apply IH.
Qed.

Lemma dict_get_fetched (f : Z → option YearData) (years : list Z) (y : Z) :
  NoDup (Py.str <$> years) → y ∈ years →
  dict_get (Py.str y) (fetched_of f years) = f y.
Proof.
  induction years as [| y0 years IH]; simpl; [by rewrite elem_of_nil |].
  rewrite NoDup_cons, elem_of_cons. intros [Hnin Hnd] Hy.
  unfold fetched_of in *. simpl.
  destruct Hy as [-> | Hy].
  - destruct (f y0) as [data |] eqn:E; simpl.
    + by rewrite bool_decide_true.
    + apply dict_get_None. intros Hin. apply Hnin.
      by apply (fetched_of_keys f).
  - assert (Py.str y0 ≠ Py.str y) as Hne.
    { intros Heq. apply Hnin. rewrite Heq. by apply list_elem_of_fmap_2. }
    destruct (f y0) as [data |] eqn:E; simpl.
    + rewrite bool_decide_false by done. by apply IH.
    + by apply IH.
Qed.

Lemma pooled_highs_app (xs ys : list (string * YearData)) (key : string) :
  pooled_highs (xs ++ ys) key = pooled_highs xs key ++ pooled_highs ys key.
Proof. unfold pooled_highs. by rewrite bind_app. Qed.

Lemma pooled_lows_app (xs ys : list (string * YearData)) (key : string) :
  pooled_lows (xs ++ ys) key = pooled_lows xs key ++ pooled_lows ys key.
Proof. unfold pooled_lows. by rewrite bind_app. Qed.

Lemma fetch_historical_spec (f : Z → option YearData) (years : list Z)
    (hist0 hist : list (string * YearData))
    (all0 all : gmap string Pooled) :
  NoDup (Py.str <$> years) →
  (∀ y, y ∈ years → Py.str y ∉ hist0.*1) →
  fetch_historical f years hist0 all0 = Some (hist, all) →
  hist = hist0 ++ fetched_of f years
  ∧ (∀ key, dd_get all key
            = {| highs := highs (dd_get all0 key)
                          ++ pooled_highs (fetched_of f years) key;
                 lows := lows (dd_get all0 key)
                         ++ pooled_lows (fetched_of f years) key |})
  ∧ Forall (λ item, rows item.2 = Some (days item.2)) (fetched_of f years).
Proof.
  revert hist0 all0.
  induction years as [| y years IH]; intros hist0 all0 Hnd Hfresh; simpl.
  - intros [= <- <-]. split; [by rewrite app_nil_r |]. split; [| done].
    intros key. unfold pooled_highs, pooled_lows. simpl.
    by rewrite !app_nil_r, pooled_eta.
  - apply NoDup_cons in Hnd as [Hnin Hnd].
    unfold fetched_of. simpl. fold (fetched_of f years).
    destruct (f y) as [data |] eqn:E; simpl.
    + intros H. apply bind_Some in H as (rs & Hrs & H).
      apply IH in H as (-> & Hall & Hrows); [| done |].
      * pose proof (rows_days _ _ Hrs) as ->.
        rewrite dict_set_fresh by (apply Hfresh; by left).
        split; [by rewrite <- app_assoc |]. split.
        -- intros key. rewrite Hall, pool_rows_spec. simpl.
           unfold pooled_highs, pooled_lows. simpl.
           by rewrite <- !app_assoc.
        -- constructor; [done | done].
      * intros y' Hy'. rewrite dict_set_fresh by (apply Hfresh; by left).
        rewrite fmap_app, elem_of_app. simpl. intros [Hin | Hin].
        -- revert Hin. apply Hfresh. by right.
        -- apply list_elem_of_singleton in Hin. apply Hnin. rewrite <- Hin.
           by apply list_elem_of_fmap_2.
    + intros H. apply IH in H; [done | done |].
      intros y' Hy'. apply Hfresh. by right.
Qed.

Lemma pool_trailing_spec (f : Z → option YearData)
    (hist : list (string * YearData)) (years : list Z)
    (t0 t : gmap string Pooled) :
  (∀ y, y ∈ years → dict_get (Py.str y) hist = f y) →
  pool_trailing hist years t0 = Some t →
  ∀ key, dd_get t key
         = {| highs := highs (dd_get t0 key)
                       ++ pooled_highs (fetched_of f years) key;
              lows := lows (dd_get t0 key)
                      ++ pooled_lows (fetched_of f years) key |}.
Proof.
  revert t0. induction years as [| y years IH]; intros t0 Hget; simpl.
  - intros [= <-] key. unfold pooled_highs, pooled_lows. simpl.
    by rewrite !app_nil_r, pooled_eta.
  - rewrite (Hget y) by by left.
    unfold fetched_of. simpl. fold (fetched_of f years).
    destruct (f y) as [data |] eqn:E; simpl.
    + intros H. apply bind_Some in H as (rs & Hrs & H). intros key.
      rewrite (IH _ (λ y' Hy', Hget y' (proj2 (elem_of_cons _ _ _) (or_intror Hy'))) H).
      pose proof (rows_days _ _ Hrs) as ->.
      rewrite pool_rows_spec. simpl.
      unfold pooled_highs, pooled_lows. simpl. by rewrite <- !app_assoc.
    + intros H. apply IH; [| done]. intros y' Hy'. apply Hget. by right.
Qed.

(** ** What a successful run has computed *)

Lemma main_pools (w : World) (historical : list (string * YearData))
    (all_daily trailing_daily : gmap string Pooled) :
  fetch_historical (fetch_year w)
    (Py.range HIST_START_YEAR (HIST_END_YEAR + 1)) [] ∅
  = Some (historical, all_daily) →
  pool_trailing historical
    (Py.range (HIST_END_YEAR - TRAILING_YEARS + 1) (HIST_END_YEAR + 1)) ∅
  = Some trailing_daily →
  historical = all_years w
  ∧ Forall (λ item, rows item.2 = Some (days item.2)) (all_years w)
  ∧ (∀ key, dd_get all_daily key
            = {| highs := pooled_highs (all_years w) key;
                 lows := pooled_lows (all_years w) key |})
  ∧ (∀ key, dd_get trailing_daily key
            = {| highs := pooled_highs (trailing_years w) key;
                 lows := pooled_lows (trailing_years w) key |}).
Proof.
  unfold all_years, trailing_years, fetched.
  pose proof year_strings_NoDup as Hnd.
  pose proof trailing_range_incl as Hincl.
  revert Hnd Hincl.
  generalize (Py.range HIST_START_YEAR (HIST_END_YEAR + 1)).
  generalize
    (Py.range (HIST_END_YEAR - TRAILING_YEARS + 1) (HIST_END_YEAR + 1)).
  intros recent years Hnd Hincl H1 H4.
  apply fetch_historical_spec in H1 as (Hh & Hall & Hrows);
    [| exact Hnd | intros y _; apply not_elem_of_nil].
  rewrite app_nil_l in Hh. subst historical.
  split; [done |]. split; [done |]. split.
  - intros key. rewrite Hall, dd_get_empty. done.
  - intros key.
    rewrite (pool_trailing_spec (fetch_year w) _ _ _ _ (λ y Hy,
      dict_get_fetched (fetch_year w) _ y Hnd (Hincl y Hy)) H4 key).
    by rewrite dd_get_empty.
Qed.

(** ** Means *)

Lemma sum_foldr (xs : list Q) (a : Q) :
  (fold_left Qplus xs a == a + foldr Qplus 0 xs)%Q.
Proof.
  revert a. induction xs as [| x xs IH]; intros a; simpl.
  - ring.
  - rewrite IH. ring.
Qed.

Lemma mean_arith (xs : list Q) : (Py.mean xs == arith_mean xs)%Q.
Proof.
  unfold Py.mean, arith_mean, Py.sum, Py.len.
  rewrite sum_foldr. apply Qdiv_comp; [ring | reflexivity].
Qed.

Lemma round1_mean (xs : list Q) :
  Py.round1 (Py.mean xs) = Py.round1 (arith_mean xs).
Proof. apply round1_proper, mean_arith. Qed.


Lemma truthy_false {A} (l : list A) : truthy l = false ↔ l = [].
Proof. by destruct l. Qed.

(** ** The series of steps 3 and 4 *)

Lemma mean_rows_sublist (daily : gmap string Pooled) (mds : list string) :
  s_dates (daily_means daily mds) `sublist_of` mds.
Proof.
  unfold daily_means, mean_rows. simpl.
  induction mds as [| md mds IH]; simpl; [done |].
  unfold mean_row at 1.
  destruct (truthy _ && truthy _); simpl.
  - by apply sublist_skip.
  - by apply sublist_cons.
Qed.

Lemma series_lengths (daily : gmap string Pooled) (mds : list string) :
  length (s_high (daily_means daily mds))
  = length (s_dates (daily_means daily mds))
  ∧ length (s_low (daily_means daily mds))
    = length (s_dates (daily_means daily mds)).
Proof. unfold daily_means. simpl. by rewrite !length_fmap. Qed.





Lemma sublist_of_base_dates (ds : list string) :
  ds `sublist_of` base_dates →
  (length ds ≤ 366)%nat ∧ (∀ key, key ∈ ds → key ∈ base_dates).
Proof.
  intros Hsub. split.
  - rewrite <- base_dates_length. by apply sublist_length.
  - intros key Hkey. by eapply elem_of_sublist.
Qed.

(** ** The rows of the envelope *)

Lemma envelope_rows_spec (all_daily : gmap string Pooled) (mds : list string)
    (rs : list EnvRow) :
  envelope_rows all_daily mds = Some rs →
  e_date <$> rs `sublist_of` mds
  ∧ Forall (λ r,
      let hs := Py.sorted (highs (dd_get all_daily (e_date r))) in
      let ls := Py.sorted (lows (dd_get all_daily (e_date r))) in
      (5 ≤ Py.len hs)%Z ∧ (5 ≤ Py.len ls)%Z
      ∧ envelope_row (e_date r) hs ls = Some r) rs.
Proof.
  revert rs. induction mds as [| md mds IH]; intros rs; simpl.
  - intros [= <-]. split; [done | constructor].
  - destruct (_ || _)%Z eqn:E.
    + intros H. destruct (IH _ H) as [Hsub Hall].
      split; [by apply sublist_cons | done].
    + intros H. apply bind_Some in H as (r & Hr & H).
      apply bind_Some in H as (rest & Hrest & H). injection H as <-.
      destruct (IH _ Hrest) as [Hsub Hall].
      apply orb_false_iff in E as [Eh El].
      apply Z.ltb_ge in Eh, El.
      assert (e_date r = md) as Hd.
      { eapply proj1, envelope_row_spec; [| | exact Hr]; lia. }
      simpl. rewrite Hd. split; [by apply sublist_skip |].
      constructor; [| done]. simpl. rewrite Hd. done.
Qed.

Lemma envelope_rows_total (all_daily : gmap string Pooled)
    (mds : list string) : is_Some (envelope_rows all_daily mds).
Proof.
  induction mds as [| md mds [rs IH]]; simpl; [by eexists |].
  destruct (_ || _)%Z eqn:E; [by eexists |].
  apply orb_false_iff in E as [Eh El]. apply Z.ltb_ge in Eh, El.
  edestruct (envelope_row_total md) as [r ->]; [| | rewrite IH; by eexists];
    lia.
Qed.

Lemma env_at_envelope_of (rs : list EnvRow) (i : nat) :
  env_at (envelope_of rs) i = rs !! i.
Proof.
  unfold env_at, envelope_of. simpl. rewrite !list_lookup_fmap.
  destruct (rs !! i) as [[]|]; done.
Qed.

Lemma rank_value_inv (xs : list Q) (p a : Q) :
  rank_value xs p = Some a →
  ∃ x, xs !! Z.to_nat (nearest_rank (Py.len xs) p) = Some x
       ∧ a = Py.round1 x.
Proof.
  unfold rank_value. intros H. apply fmap_Some in H as (x & Hx & ->). eauto.
Qed.

Lemma rank_value_mono (xs : list Q) (p q a b : Q) :
  StronglySorted Qle xs → (1 ≤ Py.len xs)%Z → (p <= q)%Q →
  rank_value xs p = Some a → rank_value xs q = Some b → (a <= b)%Q.
Proof.
  intros Hs Hn Hpq Ha Hb.
  apply rank_value_inv in Ha as (x & Hx & ->).
  apply rank_value_inv in Hb as (y & Hy & ->).
  apply round1_mono. eapply ordered_lookup; [done | | done..].
  pose proof (nearest_rank_mono (Py.len xs) p q Hn Hpq).
  pose proof (nearest_rank_range (Py.len xs) p Hn). lia.
Qed.

Lemma rank_value_le_max (xs : list Q) (p a m : Q) :
  rank_value xs p = Some a → Py.max xs = Some m →
  (a <= Py.round1 m)%Q.
Proof.
  intros Ha Hm. apply rank_value_inv in Ha as (x & Hx & ->).
  apply max_spec in Hm as [_ Hall]. apply round1_mono.
  rewrite Forall_forall in Hall. apply Hall.
  by eapply list_elem_of_lookup_2.
Qed.

Lemma min_le_rank_value (xs : list Q) (p a m : Q) :
  rank_value xs p = Some a → Py.min xs = Some m →
  (Py.round1 m <= a)%Q.
Proof.
  intros Ha Hm. apply rank_value_inv in Ha as (x & Hx & ->).
  apply min_spec in Hm as [_ Hall]. apply round1_mono.
  rewrite Forall_forall in Hall. apply Hall.
  by eapply list_elem_of_lookup_2.
Qed.

(** At the last index the percentile is the maximum. *)
Lemma rank_value_last (xs : list Q) (p : Q) :
  StronglySorted Qle xs →
  nearest_rank (Py.len xs) p = (Py.len xs - 1)%Z → (1 ≤ Py.len xs)%Z →
  rank_value xs p = Py.round1 <$> Py.max xs.
Proof.
  intros Hs Hidx Hn. unfold rank_value. rewrite Hidx.
  destruct (max_is_Some xs) as [m Hm].
  { intros ->. unfold Py.len in Hn. simpl in Hn. lia. }
  rewrite Hm. simpl.
  destruct (lookup_lt_is_Some_2 xs (Z.to_nat (Py.len xs - 1))) as [x Hx].
  { unfold Py.len in *. lia. }
  rewrite Hx. simpl. f_equal. apply round1_proper.
  pose proof (max_spec _ _ Hm) as [Hin Hall].
  apply Qle_antisym.
  - rewrite Forall_forall in Hall. apply Hall.
    by eapply list_elem_of_lookup_2.
  - apply list_elem_of_lookup in Hin as [j Hj].
    eapply ordered_lookup; [done | | done..].
    apply lookup_lt_Some in Hj. unfold Py.len in *. lia.
Qed.

Lemma envelope_row_ordered (md : string) (hs ls : list Q) (r : EnvRow) :
  StronglySorted Qle hs → StronglySorted Qle ls →
  (1 ≤ Py.len hs)%Z → (1 ≤ Py.len ls)%Z →
  envelope_row md hs ls = Some r →
  (e_p10_high r <= e_p25_high r ∧ e_p25_high r <= e_p75_high r
   ∧ e_p75_high r <= e_p90_high r ∧ e_p90_high r <= e_record_high r)%Q
  ∧ (e_record_low r <= e_p10_low r ∧ e_p10_low r <= e_p25_low r
     ∧ e_p25_low r <= e_p75_low r ∧ e_p75_low r <= e_p90_low r)%Q.
Proof.
  intros Hsh Hsl Hh Hl Hr.
  destruct (envelope_row_spec _ _ _ _ Hh Hl Hr)
    as (_ & H1 & H2 & H3 & H4 & L1 & L2 & L3 & L4 & Hmax & Hmin).
  apply fmap_Some in Hmax as (mx & Hmx & Emx).
  apply fmap_Some in Hmin as (mn & Hmn & Emn).
  assert (0.1 <= 0.25 ∧ 0.25 <= 0.75 ∧ 0.75 <= 0.9)%Q as (F1 & F2 & F3)
    by (repeat split; lra).
  repeat split.
  - by eapply (rank_value_mono hs 0.1 0.25).
  - by eapply (rank_value_mono hs 0.25 0.75).
  - by eapply (rank_value_mono hs 0.75 0.9).
  - rewrite Emx. by eapply rank_value_le_max.
  - rewrite Emn. by eapply min_le_rank_value.
  - by eapply (rank_value_mono ls 0.1 0.25).
  - by eapply (rank_value_mono ls 0.25 0.75).
  - by eapply (rank_value_mono ls 0.75 0.9).
Qed.

(** ** Balance of the poolings *)

Lemma pool_rows_balanced (rs : list Row) (daily : gmap string Pooled) :
  balanced daily → balanced (pool_rows daily rs).
Proof.
  intros Hb key. rewrite pool_rows_spec. simpl.
  rewrite !length_app, (Hb key), pool_rows_lengths. done.
Qed.

Lemma empty_balanced : balanced ∅.
Proof. intros key. by rewrite dd_get_empty. Qed.

Lemma fetch_historical_balanced (f : Z → option YearData) (years : list Z)
    (hist0 hist : list (string * YearData)) (all0 all : gmap string Pooled) :
  balanced all0 →
  fetch_historical f years hist0 all0 = Some (hist, all) → balanced all.
Proof.
  revert hist0 all0. induction years as [| y years IH]; intros hist0 all0 Hb;
    simpl.
  - by intros [= _ <-].
  - destruct (f y) as [data |]; [| by apply IH].
    intros H. apply bind_Some in H as (rs & _ & H).
    eapply IH; [| exact H]. by apply pool_rows_balanced.
Qed.

Lemma pool_trailing_balanced (hist : list (string * YearData))
    (years : list Z) (t0 t : gmap string Pooled) :
  balanced t0 → pool_trailing hist years t0 = Some t → balanced t.
Proof.
  revert t0. induction years as [| y years IH]; intros t0 Hb; simpl.
  - by intros [= <-].
  - destruct (dict_get _ _) as [data |]; [| by apply IH].
    intros H. apply bind_Some in H as (rs & _ & H).
    eapply IH; [| exact H]. by apply pool_rows_balanced.
Qed.

(** ** Monthly pooling *)

Lemma month_values_cons (select : Row → option Q) (m : Z)
    (item : string * YearData) (years : list (string * YearData)) :
  month_values select m (item :: years)
  = omap (month_row select m item.1) (days item.2)
    ++ month_values select m years.
Proof. done. Qed.

Lemma month_row_valid_lengths (m : Z) (yr : string) (rs : list Row) :
  length (omap (month_row valid_high m yr) rs)
  = length (omap (month_row valid_low m yr) rs).
Proof.
  induction rs as [| [[d h] l] rs IH]; [done |].
  cbn [omap list_omap].
  destruct (month_row valid_high m yr (d, h, l)) eqn:Eh;
    destruct (month_row valid_low m yr (d, h, l)) eqn:El;
    unfold month_row in Eh, El; simpl in Eh, El;
    case_bool_decide; destruct h, l; simplify_eq; simpl; by rewrite ?IH.
Qed.

Lemma month_valid_lengths (m : Z) (years : list (string * YearData)) :
  length (month_values valid_high m years)
  = length (month_values valid_low m years).
Proof.
  induction years as [| item years IH]; [done |].
  by rewrite !month_values_cons, !length_app, IH, month_row_valid_lengths.
Qed.

Lemma pool_month_row_spec (yr : string) (monthly monthly' : gmap Z Pooled)
    (r : Row) (m : Z) :
  pool_month_row monthly r = Some monthly' →
  dd_get monthly' m
  = {| highs := highs (dd_get monthly m)
                ++ (omap (month_row valid_high m yr) [r]).*2;
       lows := lows (dd_get monthly m)
               ++ (omap (month_row valid_low m yr) [r]).*2 |}.
Proof.
  destruct r as [[d h] l]. unfold pool_month_row, month_row. simpl.
  destruct h as [h |], l as [l |]; simpl;
    try (intros [= <-]; case_bool_decide; simpl;
         by rewrite !app_nil_r, pooled_eta).
  intros H. apply bind_Some in H as (m0 & Hm0 & [= <-]).
  rewrite dd_get_append, Hm0.
  case_decide as Hk; case_bool_decide; simplify_eq; simpl.
  - done.
  - by rewrite !app_nil_r, pooled_eta.
Qed.

Lemma pool_month_rows_spec (yr : string) (rs : list Row)
    (monthly monthly' : gmap Z Pooled) (m : Z) :
  foldl_opt pool_month_row rs monthly = Some monthly' →
  dd_get monthly' m
  = {| highs := highs (dd_get monthly m)
                ++ (omap (month_row valid_high m yr) rs).*2;
       lows := lows (dd_get monthly m)
               ++ (omap (month_row valid_low m yr) rs).*2 |}.
Proof.
  revert monthly. induction rs as [| r rs IH]; intros monthly; simpl.
  - intros [= <-]. by rewrite !app_nil_r, pooled_eta.
  - intros H. apply bind_Some in H as (mid & Hmid & H).
    rewrite (IH _ H), (pool_month_row_spec yr _ _ _ m Hmid). simpl.
    rewrite <- !app_assoc. f_equal; f_equal;
      destruct (month_row _ m yr r); done.
Qed.

Lemma pool_month_years_spec (years : list (string * YearData))
    (monthly monthly' : gmap Z Pooled) (m : Z) :
  foldl_opt pool_month_year years.*2 monthly = Some monthly' →
  dd_get monthly' m
  = {| highs := highs (dd_get monthly m)
                ++ (month_values valid_high m years).*2;
       lows := lows (dd_get monthly m)
               ++ (month_values valid_low m years).*2 |}.
Proof.
  revert monthly. induction years as [| [yr data] years IH]; intros monthly.
  - simpl. intros [= <-]. by rewrite !app_nil_r, pooled_eta.
  - rewrite fmap_cons. cbn [foldl_opt snd]. intros H.
    apply bind_Some in H as (mid & Hmid & H).
    unfold pool_month_year in Hmid.
    apply bind_Some in Hmid as (rs & Hrs & Hmid).
    pose proof (rows_days _ _ Hrs) as ->.
    rewrite (IH _ H), (pool_month_rows_spec yr _ _ _ m Hmid).
    rewrite !month_values_cons, !fmap_app. cbn [fst snd highs lows].
    by rewrite <- !app_assoc.
Qed.

(** ** The record loop *)

Lemma mr_get_insert (records : gmap Z MonthRecord) (k m : Z)
    (v : MonthRecord) :
  mr_get (<[k := v]> records) m
  = if decide (k = m) then v else mr_get records m.
Proof. unfold mr_get. rewrite lookup_insert. by case_decide. Qed.

Lemma record_row_spec (yr : string) (records records' : gmap Z MonthRecord)
    (r : Row) (m : Z) :
  record_row yr records r = Some records' →
  high_part (mr_get records' m)
  = fold_left (best_step Py.gt) (omap (month_row any_high m yr) [r])
      (high_part (mr_get records m))
  ∧ low_part (mr_get records' m)
    = fold_left (best_step Py.lt) (omap (month_row any_low m yr) [r])
        (low_part (mr_get records m)).
Proof.
  destruct r as [[d h] l]. unfold record_row, month_row, any_high, any_low.
  simpl. intros H. apply bind_Some in H as (m0 & Hm0 & [= <-]).
  rewrite Hm0. unfold high_part, low_part, best_step.
  destruct h as [h |], l as [l |]; simpl;
    repeat (case_match; simpl);
    rewrite ?mr_get_insert in *;
    repeat (case_decide; simplify_eq; simpl in * );
    rewrite ?mr_get_insert in *;
    repeat (case_decide; simplify_eq; simpl in * );
    try done; try congruence.
Qed.

Lemma omap_cons_app {A B} (f : A → option B) (x : A) (l : list A) :
  omap f (x :: l) = omap f [x] ++ omap f l.
Proof. simpl. by destruct (f x). Qed.

Lemma record_rows_spec (yr : string) (rs : list Row)
    (records records' : gmap Z MonthRecord) (m : Z) :
  foldl_opt (record_row yr) rs records = Some records' →
  high_part (mr_get records' m)
  = fold_left (best_step Py.gt) (omap (month_row any_high m yr) rs)
      (high_part (mr_get records m))
  ∧ low_part (mr_get records' m)
    = fold_left (best_step Py.lt) (omap (month_row any_low m yr) rs)
        (low_part (mr_get records m)).
Proof.
  revert records. induction rs as [| r rs IH]; intros records.
  - simpl. by intros [= <-].
  - cbn [foldl_opt]. intros H. apply bind_Some in H as (mid & Hmid & H).
    destruct (IH _ H) as [Hh Hl].
    destruct (record_row_spec yr _ _ _ m Hmid) as [Hh1 Hl1].
    rewrite (omap_cons_app (month_row any_high m yr)),
      (omap_cons_app (month_row any_low m yr)), !fold_left_app.
    by rewrite Hh, Hl, Hh1, Hl1.
Qed.

Lemma record_years_spec (years : list (string * YearData))
    (records records' : gmap Z MonthRecord) (m : Z) :
  foldl_opt record_year years records = Some records' →
  high_part (mr_get records' m)
  = fold_left (best_step Py.gt) (month_values any_high m years)
      (high_part (mr_get records m))
  ∧ low_part (mr_get records' m)
    = fold_left (best_step Py.lt) (month_values any_low m years)
        (low_part (mr_get records m)).
Proof.
  revert records. induction years as [| [yr data] years IH]; intros records.
  - simpl. by intros [= <-].
  - cbn [foldl_opt]. intros H. apply bind_Some in H as (mid & Hmid & H).
    unfold record_year in Hmid. cbn [fst snd] in Hmid.
    apply bind_Some in Hmid as (rs & Hrs & Hmid).
    pose proof (rows_days _ _ Hrs) as ->.
    destruct (IH _ H) as [Hh Hl].
    destruct (record_rows_spec yr _ _ _ m Hmid) as [Hh1 Hl1].
    rewrite !month_values_cons, !fold_left_app. cbn [fst snd].
    by rewrite Hh, Hl, Hh1, Hl1.
Qed.

(** The running maximum: either nothing beat the start value, or the result
    is the first greatest entry. *)
Lemma best_gt_spec (l : list (string * Q)) (t0 : Q) (y0 : string) :
  (Forall (λ p, (p.2 <= t0)%Q) l
   ∧ fold_left (best_step Py.gt) l (t0, y0) = (t0, y0))
  ∨ (∃ t y, fold_left (best_step Py.gt) l (t0, y0) = (t, y)
            ∧ (t0 < t)%Q ∧ first_max l y t).
Proof.
  revert t0 y0. induction l as [| [yp v] l IH]; intros t0 y0.
  - left. by split.
  - cbn [fold_left].
    assert (best_step Py.gt (t0, y0) (yp, v)
            = if Py.gt v t0 then (v, yp) else (t0, y0)) as -> by done.
    destruct (Py.gt v t0) eqn:E.
    + apply gt_true in E. right.
      destruct (IH v yp) as [[Hall Heq] | (t & y & Heq & Hlt & l1 & l2 & -> & H1 & H2)].
      * exists v, yp. split; [done |]. split; [done |].
        exists [], l. by repeat split.
      * exists t, y. split; [done |]. split; [lra |].
        exists ((yp, v) :: l1), l2. split; [done |]. split; [| done].
        constructor; [done | done].
    + apply gt_false in E.
      destruct (IH t0 y0) as [[Hall Heq] | (t & y & Heq & Hlt & l1 & l2 & -> & H1 & H2)].
      * left. split; [by constructor | done].
      * right. exists t, y. split; [done |]. split; [done |].
        exists ((yp, v) :: l1), l2. split; [done |]. split; [| done].
        constructor; [simpl; lra | done].
Qed.

Lemma best_lt_spec (l : list (string * Q)) (t0 : Q) (y0 : string) :
  (Forall (λ p, (t0 <= p.2)%Q) l
   ∧ fold_left (best_step Py.lt) l (t0, y0) = (t0, y0))
  ∨ (∃ t y, fold_left (best_step Py.lt) l (t0, y0) = (t, y)
            ∧ (t < t0)%Q ∧ first_min l y t).
Proof.
  revert t0 y0. induction l as [| [yp v] l IH]; intros t0 y0.
  - left. by split.
  - cbn [fold_left].
    assert (best_step Py.lt (t0, y0) (yp, v)
            = if Py.lt v t0 then (v, yp) else (t0, y0)) as -> by done.
    destruct (Py.lt v t0) eqn:E.
    + apply lt_true in E. right.
      destruct (IH v yp) as [[Hall Heq] | (t & y & Heq & Hlt & l1 & l2 & -> & H1 & H2)].
      * exists v, yp. split; [done |]. split; [done |].
        exists [], l. by repeat split.
      * exists t, y. split; [done |]. split; [lra |].
        exists ((yp, v) :: l1), l2. split; [done |]. split; [| done].
        constructor; [done | done].
    + apply lt_false in E.
      destruct (IH t0 y0) as [[Hall Heq] | (t & y & Heq & Hlt & l1 & l2 & -> & H1 & H2)].
      * left. split; [by constructor | done].
      * right. exists t, y. split; [done |]. split; [done |].
        exists ((yp, v) :: l1), l2. split; [done |]. split; [| done].
        constructor; [simpl; lra | done].
Qed.

Lemma first_max_elem (l : list (string * Q)) (y : string) (v : Q) :
  first_max l y v → (y, v) ∈ l.
Proof. intros (l1 & l2 & -> & _). set_solver. Qed.

Lemma first_min_elem (l : list (string * Q)) (y : string) (v : Q) :
  first_min l y v → (y, v) ∈ l.
Proof. intros (l1 & l2 & -> & _). set_solver. Qed.

(** ** The [monthly] dict *)

Lemma monthly_entries (g : Z → MonthlyStat)
    (monthly : list (string * MonthlyStat)) (m : Z) :
  foldl_opt (λ monthly m,
      name ← Py.index MONTH_NAMES (m - 1);
      Some (dict_set name (g m) monthly)) (Py.range 1 13) [] = Some monthly →
  (1 ≤ m ≤ 12)%Z →
  (name ← Py.index MONTH_NAMES (m - 1); dict_get name monthly) = Some (g m).
Proof.
  intros H Hm. vm_compute in H. injection H as <-.
  assert (m = 1 ∨ m = 2 ∨ m = 3 ∨ m = 4 ∨ m = 5 ∨ m = 6 ∨ m = 7 ∨ m = 8
          ∨ m = 9 ∨ m = 10 ∨ m = 11 ∨ m = 12)%Z as Hcases by lia.
  repeat (destruct Hcases as [-> | Hcases]; [reflexivity |]).
  subst m. reflexivity.
Qed.

Lemma main_month_entry (w : World) (out : Output) (m : Z) :
  main w = Some out → (1 ≤ m ≤ 12)%Z →
  ∃ monthly_hist current_monthly monthly_records,
    foldl_opt pool_month_year (all_years w).*2 ∅ = Some monthly_hist
    ∧ foldl_opt record_year (all_years w) ∅ = Some monthly_records
    ∧ month_entry out m
      = Some (monthly_stat monthly_hist current_monthly monthly_records m).
Proof.
  intros Hmain Hm.
  apply main_inv in Hmain
    as (historical & all_daily & current_data & trailing_daily & envelope
        & monthly_hist & monthly_records & cur_rows & current_monthly
        & mly & anoms & summ & E1 & E2 & E3 & E4 & E5 & E6 & E7
        & E8 & E9 & E10 & E11 & ->).
  destruct (main_pools w _ _ _ E1 E3) as (-> & _).
  exists monthly_hist, current_monthly, monthly_records.
  split; [done |]. split; [done |].
  unfold month_entry. cbn [monthly].
  by apply (monthly_entries
              (monthly_stat monthly_hist current_monthly monthly_records)).
Qed.

(** ** Counting *)

Lemma sum_ones {A} (l : list A) (acc : Z) :
  fold_left Z.add ((λ _, 1%Z) <$> l) acc = (acc + Z.of_nat (length l))%Z.
Proof.
  revert acc. induction l as [| x l IH]; intros acc; simpl; [lia |].
  rewrite IH. lia.
Qed.

Lemma count_if_spec (test : Q → bool) (P : Q → Prop) `{∀ x, Decision (P x)}
    (xs : list (option Q)) :
  (∀ x, test x = true ↔ P x) →
  count_if test xs = Z.of_nat (length (filter (present_and P) xs)).
Proof.
  intros Htest. unfold count_if. rewrite sum_ones, Z.add_0_l. f_equal.
  induction xs as [| v xs IH]; [done |].
  rewrite filter_cons. cbn [List.filter].
  destruct v as [x |].
  - destruct (test x) eqn:E.
    + rewrite decide_True by (exists x; split; [done | by apply Htest]).
      simpl. by rewrite IH.
    + rewrite decide_False; [done |].
      intros (y & [= <-] & Hy). apply Htest in Hy. congruence.
  - rewrite decide_False; [done |]. by intros (y & [=] & _).
Qed.

Lemma build_summary_counts (current_data : YearData) (cur_rows : list Row)
    (nrm : Series) (s : Summary) :
  build_summary current_data cur_rows nrm = Some s →
  days_below_freezing s = count_if (λ l, Py.le l 32) (low current_data)
  ∧ days_above_90 s = count_if (λ h, Py.ge h 90) (high current_data).
Proof.
  unfold build_summary. destruct (latest_valid _) as [[th tl] td].
  intros H.
  apply bind_Some in H as (ytd & _ & H).
  apply bind_Some in H as (hot & _ & H).
  apply bind_Some in H as (cold & _ & H).
  injection H as <-. done.
Qed.

(* ================================================================== *)
(** * The claims *)
(* ================================================================== *)

(** C7.  The calendar axis is a constant: the loop of step 3 ends (any fuel
    from 366 on gives the same list), the list has exactly 366 entries, and
    it is the 365 keys of a year that is not a leap year, in calendar order,
    with "02-29" put right after "02-28". *)
Theorem calendar_axis :
  (∀ k : nat, build_base_dates (366 + k) = Some base_dates)
  ∧ length base_dates = 366%nat
  ∧ length year_keys = 365%nat
  ∧ ∃ before after,
      year_keys = before ++ "02-28" :: after
      ∧ base_dates = before ++ "02-28" :: "02-29" :: after.
Proof.
  split; [apply build_base_dates_more |].
  split; [apply base_dates_length |].
  split; [vm_compute; reflexivity |].
  exists (take 58 year_keys), (drop 59 year_keys).
  split; vm_compute; reflexivity.
Qed.

(** C6.  In the summary, [days_below_freezing] counts the current-year lows
    that are present and at most 32, [days_above_90] the highs that are
    present and at least 90; for the lows [20, 32, 33, None, 31] the count
    is 3. *)
Theorem summary_counts (w : World) (out : Output) (cur : YearData) :
  main w = Some out → fetch_current w = Some cur →
  days_below_freezing (summary out)
  = Z.of_nat (length (filter (present_and (λ l, (l <= 32)%Q)) (low cur)))
  ∧ days_above_90 (summary out)
    = Z.of_nat (length (filter (present_and (λ h, (90 <= h)%Q)) (high cur)))
  ∧ (low cur = [Some 20%Q; Some 32%Q; Some 33%Q; None; Some 31%Q] →
     days_below_freezing (summary out) = 3%Z).
Proof.
  intros Hmain Hcur.
  apply main_inv in Hmain
    as (historical & all_daily & current_data & trailing_daily & envelope
        & monthly_hist & monthly_records & cur_rows & current_monthly
        & mly & anoms & summ & E1 & E2 & E3 & E4 & E5 & E6 & E7
        & E8 & E9 & E10 & E11 & ->).
  rewrite Hcur in E2. injection E2 as <-.
  apply build_summary_counts in E11 as [Hlow Hhigh]. cbn [summary].
  assert (days_below_freezing summ
          = Z.of_nat (length (filter (present_and (λ l, (l <= 32)%Q))
                                (low cur)))) as Hcount.
  { rewrite Hlow. apply count_if_spec. intros x. apply le_true. }
  split; [exact Hcount |]. split.
  - rewrite Hhigh. apply count_if_spec. intros x. apply ge_true.
  - intros Hlows. rewrite Hlow, Hlows. reflexivity.
Qed.

Lemma summary_counts_witness :
  days_below_freezing (summary sample_out) = 3%Z
  ∧ days_above_90 (summary sample_out) = 2%Z.
Proof.
  destruct (summary_counts sample_world sample_out sample_current)
    as (Hlow & Hhigh & Hscenario).
  - vm_compute. reflexivity.
  - reflexivity.
  - split; [apply Hscenario; reflexivity |].
    rewrite Hhigh. vm_compute. reflexivity.
Defined.

(** C10.  In the pooling over all historical years and in the pooling over
    the trailing window, every key has as many highs as lows.  So the test
    of the envelope on either list is a test on the highs alone, and so is
    the test of the normals; five highs with four lows do not occur. *)
Theorem pooled_lists_balanced (fetch : Z → option YearData)
    (years recent : list Z) (historical : list (string * YearData))
    (all_daily trailing_daily : gmap string Pooled) (key : string) :
  fetch_historical fetch years [] ∅ = Some (historical, all_daily) →
  pool_trailing historical recent ∅ = Some trailing_daily →
  let a := dd_get all_daily key in
  let t := dd_get trailing_daily key in
  length (highs a) = length (lows a)
  ∧ length (highs t) = length (lows t)
  ∧ ((Py.len (Py.sorted (highs a)) <? 5)
     || (Py.len (Py.sorted (lows a)) <? 5))%Z
    = (Py.len (highs a) <? 5)%Z
  ∧ truthy (highs a) && truthy (lows a) = truthy (highs a)
  ∧ truthy (highs t) && truthy (lows t) = truthy (highs t)
  ∧ ¬ (length (highs a) = 5%nat ∧ length (lows a) = 4%nat).
Proof.
  intros H1 H4.
  pose proof (fetch_historical_balanced _ _ _ _ _ _ empty_balanced H1 key)
    as Ha.
  pose proof (pool_trailing_balanced _ _ _ _ empty_balanced H4 key) as Ht.
  cbv zeta. split; [exact Ha |]. split; [exact Ht |]. split.
  - rewrite !sorted_len. unfold Py.len. rewrite Ha.
    by destruct (_ <? 5)%Z.
  - split; [| split].
    + destruct (highs (dd_get all_daily key)),
        (lows (dd_get all_daily key)); done.
    + destruct (highs (dd_get trailing_daily key)),
        (lows (dd_get trailing_daily key)); done.
    + lia.
Qed.

Lemma pooled_lists_balanced_witness :
  length (highs (dd_get sample_all_daily "01-01")) = 10%nat
  ∧ length (lows (dd_get sample_all_daily "01-01")) = 10%nat
  ∧ length (highs (dd_get sample_trailing_daily "01-01"))
    = length (lows (dd_get sample_trailing_daily "01-01")).
Proof.
  assert (fetch_historical (fetch_year sample_world)
            (Py.range HIST_START_YEAR (HIST_END_YEAR + 1)) [] ∅
          = Some (sample_historical, sample_all_daily)) as E1
    by (vm_compute; reflexivity).
  assert (pool_trailing sample_historical
            (Py.range (HIST_END_YEAR - TRAILING_YEARS + 1)
               (HIST_END_YEAR + 1)) ∅
          = Some sample_trailing_daily) as E4
    by (vm_compute; reflexivity).
  destruct (pooled_lists_balanced _ _ _ _ _ _ "01-01" E1 E4)
    as (Ha & Ht & _).
  split; [vm_compute; reflexivity |]. split; [| exact Ht].
  rewrite <- Ha. vm_compute. reflexivity.
Defined.

Lemma within_axis_sublist (ds : list string) :
  ds `sublist_of` base_dates → within_axis ds.
Proof.
  intros Hsub. split; [done |]. by apply sublist_of_base_dates.
Qed.

(** C8.  The dates of the normals, of the trailing average and of the
    envelope are keys of the calendar axis, in the order of the axis, and
    there are at most 366 of them, whatever the data. *)
Theorem series_within_axis (w : World) (out : Output) :
  main w = Some out →
  within_axis (s_dates (normals out))
  ∧ within_axis (s_dates (trailing_avg out))
  ∧ within_axis (env_dates (historical_envelope out)).
Proof.
  intros Hmain.
  apply main_inv in Hmain
    as (historical & all_daily & current_data & trailing_daily & envelope
        & monthly_hist & monthly_records & cur_rows & current_monthly
        & mly & anoms & summ & E1 & E2 & E3 & E4 & E5 & E6 & E7
        & E8 & E9 & E10 & E11 & ->).
  cbn [normals trailing_avg historical_envelope].
  split; [apply within_axis_sublist, mean_rows_sublist |].
  split; [apply within_axis_sublist, mean_rows_sublist |].
  apply within_axis_sublist.
  by destruct (envelope_rows_spec _ _ _ E4) as [Hsub _].
Qed.

Lemma series_within_axis_witness :
  within_axis (s_dates (normals sample_out))
  ∧ within_axis (s_dates (trailing_avg sample_out))
  ∧ within_axis (env_dates (historical_envelope sample_out)).
Proof.
  apply (series_within_axis sample_world sample_out).
  vm_compute. reflexivity.
Defined.



(** ** Reading the envelope by index *)

Lemma envelope_lookup (w : World) (out : Output) (i : nat) (md : string) :
  main w = Some out →
  env_dates (historical_envelope out) !! i = Some md →
  ∃ r : EnvRow,
    env_at (historical_envelope out) i = Some r
    ∧ e_date r = md
    ∧ (5 ≤ Py.len (Py.sorted (pooled_highs (all_years w) md)))%Z
    ∧ (5 ≤ Py.len (Py.sorted (pooled_lows (all_years w) md)))%Z
    ∧ envelope_row md (Py.sorted (pooled_highs (all_years w) md))
        (Py.sorted (pooled_lows (all_years w) md)) = Some r.
Proof.
  intros Hmain Hi.
  apply main_inv in Hmain
    as (historical & all_daily & current_data & trailing_daily & envelope
        & monthly_hist & monthly_records & cur_rows & current_monthly
        & mly & anoms & summ & E1 & E2 & E3 & E4 & E5 & E6 & E7
        & E8 & E9 & E10 & E11 & ->).
  destruct (main_pools w _ _ _ E1 E3) as (_ & _ & Hall & _).
  cbn [historical_envelope] in *.
  destruct (envelope_rows_spec _ _ _ E4) as [_ Hrows].
  unfold envelope_of in Hi. cbn [env_dates] in Hi.
  rewrite list_lookup_fmap in Hi.
  destruct (envelope !! i) as [r |] eqn:Hr; [| done].
  injection Hi as Hd.
  rewrite Forall_lookup in Hrows. specialize (Hrows i r Hr).
  cbv zeta in Hrows. rewrite Hd, Hall in Hrows. cbn [highs lows] in Hrows.
  destruct Hrows as (H5h & H5l & Hrow).
  exists r. rewrite env_at_envelope_of.
  split; [exact Hr |]. split; [exact Hd |].
  split; [exact H5h |]. split; [exact H5l | exact Hrow].
Qed.

Lemma env_at_columns (e : Envelope) (i : nat) (r : EnvRow) :
  env_at e i = Some r →
  p10_high e !! i = Some (e_p10_high r)
  ∧ p25_high e !! i = Some (e_p25_high r)
  ∧ p75_high e !! i = Some (e_p75_high r)
  ∧ p90_high e !! i = Some (e_p90_high r)
  ∧ p10_low e !! i = Some (e_p10_low r)
  ∧ p25_low e !! i = Some (e_p25_low r)
  ∧ p75_low e !! i = Some (e_p75_low r)
  ∧ p90_low e !! i = Some (e_p90_low r)
  ∧ record_high e !! i = Some (e_record_high r)
  ∧ record_low e !! i = Some (e_record_low r).
Proof.
  unfold env_at. intros H.
  apply bind_Some in H as (md & _ & H).
  apply bind_Some in H as (a & -> & H).
  apply bind_Some in H as (b & -> & H).
  apply bind_Some in H as (c & -> & H).
  apply bind_Some in H as (d & -> & H).
  apply bind_Some in H as (a' & -> & H).
  apply bind_Some in H as (b' & -> & H).
  apply bind_Some in H as (c' & -> & H).
  apply bind_Some in H as (d' & -> & H).
  apply bind_Some in H as (rh & -> & H).
  apply bind_Some in H as (rl & -> & H).
  injection H as <-. done.
Qed.

(** C1.  For every emitted day of the envelope and each of the fractions
    0.10, 0.25, 0.75 and 0.90, the emitted percentile is the element of the
    sorted pooled sample at the nearest-rank index
    [clamp(floor(n * p), 0, n - 1)] (emitted, as every output, rounded to
    one decimal); for a sample of length 10 the index of the 90th
    percentile is 9 and the 90th percentile is the record high. *)
Theorem percentile_nearest_rank (w : World) (out : Output) (i : nat)
    (md : string) :
  main w = Some out →
  env_dates (historical_envelope out) !! i = Some md →
  let hs := Py.sorted (pooled_highs (all_years w) md) in
  let ls := Py.sorted (pooled_lows (all_years w) md) in
  let e := historical_envelope out in
  p10_high e !! i = rank_value hs 0.1
  ∧ p25_high e !! i = rank_value hs 0.25
  ∧ p75_high e !! i = rank_value hs 0.75
  ∧ p90_high e !! i = rank_value hs 0.9
  ∧ p10_low e !! i = rank_value ls 0.1
  ∧ p25_low e !! i = rank_value ls 0.25
  ∧ p75_low e !! i = rank_value ls 0.75
  ∧ p90_low e !! i = rank_value ls 0.9
  ∧ is_Some (p90_high e !! i)
  ∧ nearest_rank 10 0.9 = 9%Z
  ∧ (Py.len hs = 10%Z → p90_high e !! i = record_high e !! i).
Proof.
  intros Hmain Hi. cbv zeta.
  destruct (envelope_lookup w out i md Hmain Hi)
    as (r & Hat & Hd & Hh & Hl & Hrow).
  destruct (env_at_columns _ _ _ Hat)
    as (C1 & C2 & C3 & C4 & C5 & C6 & C7 & C8 & C9 & C10).
  assert (1 ≤ Py.len (Py.sorted (pooled_highs (all_years w) md)))%Z
    as Hh1 by lia.
  assert (1 ≤ Py.len (Py.sorted (pooled_lows (all_years w) md)))%Z
    as Hl1 by lia.
  destruct (envelope_row_spec _ _ _ _ Hh1 Hl1 Hrow)
    as (_ & H1 & H2 & H3 & H4 & L1 & L2 & L3 & L4 & Hmax & Hmin).
  rewrite C1, C2, C3, C4, C5, C6, C7, C8, C9.
  split; [symmetry; exact H1 |]. split; [symmetry; exact H2 |].
  split; [symmetry; exact H3 |]. split; [symmetry; exact H4 |].
  split; [symmetry; exact L1 |]. split; [symmetry; exact L2 |].
  split; [symmetry; exact L3 |]. split; [symmetry; exact L4 |].
  split; [by eexists |]. split; [vm_compute; reflexivity |].
  intros Hn. rewrite <- H4, <- Hmax. apply rank_value_last.
  - apply sorted_ordered.
  - rewrite Hn. reflexivity.
  - lia.
Qed.

Lemma percentile_nearest_rank_witness :
  p90_high (historical_envelope sample_out) !! 0%nat = Some 43.5%Q
  ∧ record_high (historical_envelope sample_out) !! 0%nat = Some 43.5%Q
  ∧ p10_high (historical_envelope sample_out) !! 0%nat
    = rank_value (Py.sorted (pooled_highs (all_years sample_world) "01-01"))
        0.1.
Proof.
  assert (main sample_world = Some sample_out) as Hmain
    by (vm_compute; reflexivity).
  assert (env_dates (historical_envelope sample_out) !! 0%nat = Some "01-01")
    as Hi by reflexivity.
  destruct (percentile_nearest_rank sample_world sample_out 0 "01-01"
              Hmain Hi) as (H10 & _ & _ & _ & _ & _ & _ & _ & _ & _ & Hten).
  split; [reflexivity |]. split; [| exact H10].
  rewrite <- Hten; [reflexivity |]. vm_compute. reflexivity.
Defined.

Lemma envelope_skips (w : World) (out : Output) (md : string) :
  main w = Some out →
  md ∈ env_dates (historical_envelope out) →
  (5 ≤ length (pooled_highs (all_years w) md))%nat
  ∧ (5 ≤ length (pooled_lows (all_years w) md))%nat.
Proof.
  intros Hmain Hin. apply list_elem_of_lookup in Hin as [i Hi].
  destruct (envelope_lookup w out i md Hmain Hi)
    as (r & _ & _ & Hh & Hl & _).
  rewrite sorted_len in Hh, Hl. unfold Py.len in Hh, Hl. lia.
Qed.

(** C2.  For every emitted day of the envelope the rounded statistics are
    ordered, [p10 <= p25 <= p75 <= p90 <= record_high] for the highs and
    [record_low <= p10 <= p25 <= p75 <= p90] for the lows, [record_high]
    being the (rounded) greatest pooled high and [record_low] the (rounded)
    smallest pooled low; and a key with fewer than 5 pooled highs or fewer
    than 5 pooled lows is not in the envelope. *)
Theorem envelope_ordered (w : World) (out : Output) :
  main w = Some out →
  (∀ (i : nat) (md : string),
     env_dates (historical_envelope out) !! i = Some md →
     ∃ (r : EnvRow) (mx mn : Q),
       env_at (historical_envelope out) i = Some r
       ∧ (e_p10_high r <= e_p25_high r ∧ e_p25_high r <= e_p75_high r
          ∧ e_p75_high r <= e_p90_high r
          ∧ e_p90_high r <= e_record_high r)%Q
       ∧ (e_record_low r <= e_p10_low r ∧ e_p10_low r <= e_p25_low r
          ∧ e_p25_low r <= e_p75_low r ∧ e_p75_low r <= e_p90_low r)%Q
       ∧ e_record_high r = Py.round1 mx
       ∧ mx ∈ pooled_highs (all_years w) md
       ∧ Forall (λ x, (x <= mx)%Q) (pooled_highs (all_years w) md)
       ∧ e_record_low r = Py.round1 mn
       ∧ mn ∈ pooled_lows (all_years w) md
       ∧ Forall (λ x, (mn <= x)%Q) (pooled_lows (all_years w) md))
  ∧ (∀ md : string,
       (length (pooled_highs (all_years w) md) < 5
        ∨ length (pooled_lows (all_years w) md) < 5)%nat →
       md ∉ env_dates (historical_envelope out)).
Proof.
  intros Hmain. split.
  - intros i md Hi.
    destruct (envelope_lookup w out i md Hmain Hi)
      as (r & Hat & Hd & Hh & Hl & Hrow).
    assert (1 ≤ Py.len (Py.sorted (pooled_highs (all_years w) md)))%Z
      as Hh1 by lia.
    assert (1 ≤ Py.len (Py.sorted (pooled_lows (all_years w) md)))%Z
      as Hl1 by lia.
    destruct (envelope_row_ordered _ _ _ _ (sorted_ordered _)
                (sorted_ordered _) Hh1 Hl1 Hrow) as [Hhigh Hlow].
    destruct (envelope_row_spec _ _ _ _ Hh1 Hl1 Hrow)
      as (_ & _ & _ & _ & _ & _ & _ & _ & _ & Hmax & Hmin).
    apply fmap_Some in Hmax as (mx & Hmx & Emx).
    apply fmap_Some in Hmin as (mn & Hmn & Emn).
    apply max_spec in Hmx as [Hmx_in Hmx_all].
    apply min_spec in Hmn as [Hmn_in Hmn_all].
    rewrite (sorted_perm (pooled_highs (all_years w) md))
      in Hmx_in, Hmx_all.
    rewrite (sorted_perm (pooled_lows (all_years w) md))
      in Hmn_in, Hmn_all.
    exists r, mx, mn.
    split; [exact Hat |]. split; [exact Hhigh |]. split; [exact Hlow |].
    split; [exact Emx |]. split; [exact Hmx_in |]. split; [exact Hmx_all |].
    split; [exact Emn |]. split; [exact Hmn_in | exact Hmn_all].
  - intros md Hfew Hin.
    destruct (envelope_skips w out md Hmain Hin) as [Hh Hl]. lia.
Qed.

Lemma envelope_ordered_witness :
  ∃ r : EnvRow,
    env_at (historical_envelope sample_out) 0 = Some r
    ∧ (e_p10_high r <= e_p25_high r ∧ e_p25_high r <= e_p75_high r
       ∧ e_p75_high r <= e_p90_high r ∧ e_p90_high r <= e_record_high r)%Q
    ∧ "07-04" ∉ env_dates (historical_envelope sample_out).
Proof.
  assert (main sample_world = Some sample_out) as Hmain
    by (vm_compute; reflexivity).
  destruct (envelope_ordered sample_world sample_out Hmain) as [Hrows Hskip].
  destruct (Hrows 0%nat "01-01" eq_refl)
    as (r & mx & mn & Hat & Hhigh & _).
  exists r. split; [exact Hat |]. split; [exact Hhigh |].
  apply Hskip. left. vm_compute. lia.
Defined.

(** ** Records of a month *)

Lemma mr_get_empty (m : Z) : mr_get ∅ m = default_record.
Proof. unfold mr_get. by rewrite lookup_empty. Qed.

Lemma record_high_cases (years : list (string * YearData))
    (records : gmap Z MonthRecord) (m : Z) :
  foldl_opt record_year years ∅ = Some records →
  (Forall (λ p, (p.2 <= -999)%Q) (month_values any_high m years)
   ∧ mr_record_high (mr_get records m) = (-999)%Q
   ∧ mr_record_high_year (mr_get records m) = "")
  ∨ ((-999 < mr_record_high (mr_get records m))%Q
     ∧ first_max (month_values any_high m years)
         (mr_record_high_year (mr_get records m))
         (mr_record_high (mr_get records m))).
Proof.
  intros H. destruct (record_years_spec _ _ _ m H) as [Hh _].
  rewrite mr_get_empty in Hh. unfold high_part in Hh. cbn in Hh.
  destruct (best_gt_spec (month_values any_high m years) (-999) "")
    as [[Hall Heq] | (t & y & Heq & Hlt & Hfirst)];
    rewrite Heq in Hh; injection Hh as -> ->.
  - left. by repeat split.
  - right. by split.
Qed.

Lemma record_low_cases (years : list (string * YearData))
    (records : gmap Z MonthRecord) (m : Z) :
  foldl_opt record_year years ∅ = Some records →
  (Forall (λ p, (999 <= p.2)%Q) (month_values any_low m years)
   ∧ mr_record_low (mr_get records m) = 999%Q
   ∧ mr_record_low_year (mr_get records m) = "")
  ∨ ((mr_record_low (mr_get records m) < 999)%Q
     ∧ first_min (month_values any_low m years)
         (mr_record_low_year (mr_get records m))
         (mr_record_low (mr_get records m))).
Proof.
  intros H. destruct (record_years_spec _ _ _ m H) as [_ Hl].
  rewrite mr_get_empty in Hl. unfold low_part in Hl. cbn in Hl.
  destruct (best_lt_spec (month_values any_low m years) 999 "")
    as [[Hall Heq] | (t & y & Heq & Hlt & Hfirst)];
    rewrite Heq in Hl; injection Hl as -> ->.
  - left. by repeat split.
  - right. by split.
Qed.

Lemma Exists_not_Forall_le (l : list (string * Q)) (b : Q) :
  Exists (λ p, (b < p.2)%Q) l → Forall (λ p, (p.2 <= b)%Q) l → False.
Proof.
  rewrite Exists_exists, Forall_forall. intros (p & Hin & Hp) Hall.
  specialize (Hall p Hin). simpl in *. lra.
Qed.

Lemma Exists_not_Forall_ge (l : list (string * Q)) (b : Q) :
  Exists (λ p, (p.2 < b)%Q) l → Forall (λ p, (b <= p.2)%Q) l → False.
Proof.
  rewrite Exists_exists, Forall_forall. intros (p & Hin & Hp) Hall.
  specialize (Hall p Hin). simpl in *. lra.
Qed.

(** C3 (as the code has it).  For every calendar month, [record_high] is
    the greatest of the historical highs of the month that are present,
    whether or not the low of the day is present (one of them being above
    the start value -999), and [record_high_year] is the year of its first
    occurrence in processing order, years ascending; [record_low] and
    [record_low_year] are the same for the smallest low that is present
    (one of them being below 999). *)
Theorem monthly_records_extremes (w : World) (out : Output) (m : Z) :
  main w = Some out → (1 ≤ m ≤ 12)%Z →
  ∃ st : MonthlyStat,
    month_entry out m = Some st
    ∧ (Exists (λ p, (-999 < p.2)%Q) (month_values any_high m (all_years w)) →
       ∃ h, ms_record_high st = Some h
            ∧ first_max (month_values any_high m (all_years w))
                (ms_record_high_year st) h)
    ∧ (Exists (λ p, (p.2 < 999)%Q) (month_values any_low m (all_years w)) →
       ∃ l, ms_record_low st = Some l
            ∧ first_min (month_values any_low m (all_years w))
                (ms_record_low_year st) l).
Proof.
  intros Hmain Hm.
  destruct (main_month_entry w out m Hmain Hm)
    as (monthly_hist & current_monthly & monthly_records & E5 & E6 & Hst).
  eexists. split; [exact Hst |]. cbn [monthly_stat ms_record_high
    ms_record_high_year ms_record_low ms_record_low_year]. split.
  - intros Hex.
    destruct (record_high_cases _ _ m E6) as [(Hall & _) | (Hlt & Hfirst)].
    + destruct (Exists_not_Forall_le _ _ Hex Hall).
    + eexists. split; [| exact Hfirst].
      apply gt_true in Hlt. by rewrite Hlt.
  - intros Hex.
    destruct (record_low_cases _ _ m E6) as [(Hall & _) | (Hlt & Hfirst)].
    + destruct (Exists_not_Forall_ge _ _ Hex Hall).
    + eexists. split; [| exact Hfirst].
      apply lt_true in Hlt. by rewrite Hlt.
Qed.

Lemma monthly_records_extremes_witness :
  ∃ (st : MonthlyStat) (h : Q),
    month_entry invalid_day_out 1 = Some st
    ∧ ms_record_high st = Some h
    ∧ first_max (month_values any_high 1 (all_years invalid_day_world))
        (ms_record_high_year st) h.
Proof.
  assert (main invalid_day_world = Some invalid_day_out) as Hmain
    by (vm_compute; reflexivity).
  assert (month_values any_high 1 (all_years invalid_day_world)
          = [("1996", 50%Q); ("1996", 60%Q)]) as Hvals
    by (vm_compute; reflexivity).
  assert (1 ≤ 1 ≤ 12)%Z as Hm by lia.
  destruct (monthly_records_extremes invalid_day_world invalid_day_out 1
              Hmain Hm) as (st & Hst & Hhigh & _).
  destruct Hhigh as (h & Hh & Hfirst).
  { rewrite Hvals. apply Exists_cons_tl, Exists_cons_hd. reflexivity. }
  exists st, h. split; [exact Hst |]. split; [exact Hh | exact Hfirst].
Defined.

(** C3 (as the specification words it) fails.  In [invalid_day_world] the
    run succeeds, the only valid January day has high 50, and the record of
    January is the 60 of the day whose low is missing. *)
Lemma records_over_valid_days_fails :
  (main invalid_day_world = Some invalid_day_out
   ∧ month_values valid_high 1 (all_years invalid_day_world)
     = [("1996", 50%Q)]
   ∧ ms_record_high <$> month_entry invalid_day_out 1 = Some (Some 60%Q))
  ∧ ¬ records_over_valid_days.
Proof.
  assert (main invalid_day_world = Some invalid_day_out) as Hmain
    by (vm_compute; reflexivity).
  assert (month_values valid_high 1 (all_years invalid_day_world)
          = [("1996", 50%Q)]) as Hvals by (vm_compute; reflexivity).
  split; [split; [exact Hmain |]; split; [exact Hvals | reflexivity] |].
  unfold records_over_valid_days. intros H.
  assert (1 ≤ 1 ≤ 12)%Z as Hm by lia.
  destruct (H invalid_day_world invalid_day_out 1%Z _ Hmain Hm eq_refl)
    as [Hhigh _].
  rewrite Hvals in Hhigh.
  destruct Hhigh as (h & Hh & l1 & l2 & Heq & _); [done |].
  injection Hh as <-.
  destruct l1 as [| p l1]; [| destruct l1; discriminate].
  discriminate.
Qed.

(** ** Fields of a monthly entry *)

Lemma monthly_fields (st : MonthlyStat) :
  field "normal_high" (j_monthly_stat st) = Some (j_opt (normal_high st))
  ∧ field "normal_low" (j_monthly_stat st) = Some (j_opt (normal_low st))
  ∧ field "record_high" (j_monthly_stat st)
    = Some (j_opt (ms_record_high st))
  ∧ field "record_high_year" (j_monthly_stat st)
    = Some (JStr (ms_record_high_year st))
  ∧ field "record_low" (j_monthly_stat st) = Some (j_opt (ms_record_low st))
  ∧ field "record_low_year" (j_monthly_stat st)
    = Some (JStr (ms_record_low_year st)).
Proof. repeat split; reflexivity. Qed.

Lemma first_max_nil (y : string) (v : Q) : ¬ first_max [] y v.
Proof. intros (l1 & l2 & Heq & _). by destruct l1. Qed.

Lemma first_min_nil (y : string) (v : Q) : ¬ first_min [] y v.
Proof. intros (l1 & l2 & Heq & _). by destruct l1. Qed.

(** C5 (as the code has it).  For a calendar month without valid
    historical days, [normal_high] and [normal_low] are null; if no
    historical day of the month has a high, [record_high] is null and
    [record_high_year] is the empty string, and likewise [record_low] and
    [record_low_year] if none has a low. *)
Theorem empty_month_nulls (w : World) (out : Output) (m : Z) :
  main w = Some out → (1 ≤ m ≤ 12)%Z →
  month_values valid_high m (all_years w) = [] →
  ∃ st : MonthlyStat,
    month_entry out m = Some st
    ∧ field "normal_high" (j_monthly_stat st) = Some JNull
    ∧ field "normal_low" (j_monthly_stat st) = Some JNull
    ∧ (month_values any_high m (all_years w) = [] →
       field "record_high" (j_monthly_stat st) = Some JNull
       ∧ field "record_high_year" (j_monthly_stat st) = Some (JStr ""))
    ∧ (month_values any_low m (all_years w) = [] →
       field "record_low" (j_monthly_stat st) = Some JNull
       ∧ field "record_low_year" (j_monthly_stat st) = Some (JStr "")).
Proof.
  intros Hmain Hm Hvalid.
  destruct (main_month_entry w out m Hmain Hm)
    as (monthly_hist & current_monthly & monthly_records & E5 & E6 & Hst).
  eexists. split; [exact Hst |].
  destruct (monthly_fields
              (monthly_stat monthly_hist current_monthly monthly_records m))
    as (-> & -> & -> & -> & -> & ->).
  pose proof (pool_month_years_spec _ _ _ m E5) as Hpool.
  rewrite dd_get_empty in Hpool. cbn [highs lows empty_pooled] in Hpool.
  assert (month_values valid_low m (all_years w) = []) as Hvalid_low.
  { apply length_zero_iff_nil. rewrite <- month_valid_lengths.
    by rewrite Hvalid. }
  rewrite Hvalid, Hvalid_low in Hpool.
  cbn [monthly_stat normal_high normal_low ms_record_high
         ms_record_high_year ms_record_low ms_record_low_year].
  rewrite Hpool. cbn [highs lows fmap list_fmap app mean_or_none truthy j_opt].
  split; [reflexivity |]. split; [reflexivity |]. split.
  - intros Hnone.
    destruct (record_high_cases _ _ m E6) as [(_ & Hv & Hy) | (_ & Hfirst)].
    + rewrite Hv, Hy. split; reflexivity.
    + rewrite Hnone in Hfirst. destruct (first_max_nil _ _ Hfirst).
  - intros Hnone.
    destruct (record_low_cases _ _ m E6) as [(_ & Hv & Hy) | (_ & Hfirst)].
    + rewrite Hv, Hy. split; reflexivity.
    + rewrite Hnone in Hfirst. destruct (first_min_nil _ _ Hfirst).
Qed.

Lemma empty_month_nulls_witness :
  ∃ st : MonthlyStat,
    month_entry sample_out 2 = Some st
    ∧ field "normal_high" (j_monthly_stat st) = Some JNull
    ∧ field "record_high_year" (j_monthly_stat st) = Some (JStr "").
Proof.
  assert (main sample_world = Some sample_out) as Hmain
    by (vm_compute; reflexivity).
  assert (month_values valid_high 2 (all_years sample_world) = []) as Hvalid
    by (vm_compute; reflexivity).
  assert (month_values any_high 2 (all_years sample_world) = []) as Hany
    by (vm_compute; reflexivity).
  assert (1 ≤ 2 ≤ 12)%Z as Hm by lia.
  destruct (empty_month_nulls sample_world sample_out 2 Hmain Hm Hvalid)
    as (st & Hst & Hnh & _ & Hhigh & _).
  exists st. split; [exact Hst |]. split; [exact Hnh |].
  exact (proj2 (Hhigh Hany)).
Defined.

(** C5 (as the specification words it) fails.  Without any historical
    year the run succeeds, and the record years of January are the empty
    string, not null. *)
Lemma empty_month_all_null_fails :
  (main no_history_world = Some no_history_out
   ∧ (month_entry no_history_out 1
      ≫= λ st, field "record_high_year" (j_monthly_stat st))
     = Some (JStr ""))
  ∧ ¬ empty_month_all_null.
Proof.
  assert (main no_history_world = Some no_history_out) as Hmain
    by (vm_compute; reflexivity).
  split; [split; [exact Hmain | reflexivity] |].
  unfold empty_month_all_null. intros H.
  assert (month_values valid_high 1 (all_years no_history_world) = [])
    as Hvalid by (vm_compute; reflexivity).
  assert (1 ≤ 1 ≤ 12)%Z as Hm by lia.
  destruct (H no_history_world no_history_out 1%Z _ Hmain Hm eq_refl Hvalid)
    as (_ & _ & _ & _ & Hyear & _).
  discriminate Hyear.
Qed.

(** ** What a run depends on *)

Lemma fetch_historical_ext (f g : Z → option YearData) (years : list Z)
    (historical : list (string * YearData)) (all_daily : gmap string Pooled) :
  (∀ y, f y = g y) →
  fetch_historical f years historical all_daily
  = fetch_historical g years historical all_daily.
Proof.
  intros Hfg. revert historical all_daily.
  induction years as [| y years IH]; intros historical all_daily; [done |].
  cbn [fetch_historical]. rewrite <- (Hfg y).
  destruct (f y) as [data |]; [| apply IH].
  destruct (rows data) as [rs |]; [| done]. cbn. apply IH.
Qed.

Lemma bind_Some_intro {A B} (f : A → option B) (mx : option A) (x : A)
    (y : B) :
  mx = Some x → f x = Some y → mx ≫= f = Some y.
Proof. intros -> Hy. exact Hy. Qed.

(** A run that succeeds in one world succeeds in every world with the same
    responses, with the same output up to the clock. *)
Lemma main_transfer (w1 w2 : World) (out1 : Output) :
  same_responses w1 w2 → main w1 = Some out1 →
  main w2 = Some {| generated_at := now w2;
                    year := CURRENT_YEAR w2;
                    current_year := current_year out1;
                    trailing_avg := trailing_avg out1;
                    normals := normals out1;
                    historical_envelope := historical_envelope out1;
                    historical_years := historical_years out1;
                    monthly := monthly out1;
                    anomalies := anomalies out1;
                    summary := summary out1 |}.
Proof.
  intros [Hfetch Hcur] Hmain.
  apply main_inv in Hmain
    as (historical & all_daily & current_data & trailing_daily & envelope
        & monthly_hist & monthly_records & cur_rows & current_monthly
        & mly & anoms & summ & E1 & E2 & E3 & E4 & E5 & E6 & E7
        & E8 & E9 & E10 & E11 & ->).
  assert (fetch_historical (fetch_year w2)
            (Py.range HIST_START_YEAR (HIST_END_YEAR + 1)) [] ∅
          = Some (historical, all_daily)) as E1'.
  { rewrite <- E1. symmetry. by apply fetch_historical_ext. }
  rewrite Hcur in E2.
  unfold main.
  eapply bind_Some_intro; [exact E1' |]. cbv beta iota.
  eapply bind_Some_intro; [exact E2 |]. cbv beta.
  eapply bind_Some_intro; [exact E3 |]. cbv beta.
  eapply bind_Some_intro; [exact E4 |]. cbv beta.
  eapply bind_Some_intro; [exact E5 |]. cbv beta.
  eapply bind_Some_intro; [exact E6 |]. cbv beta.
  eapply bind_Some_intro; [exact E7 |]. cbv beta.
  eapply bind_Some_intro; [exact E8 |]. cbv beta.
  eapply bind_Some_intro; [exact E9 |]. cbv beta.
  eapply bind_Some_intro; [exact E10 |]. cbv beta.
  eapply bind_Some_intro; [exact E11 |]. cbv beta.
  reflexivity.
Qed.

Lemma same_responses_sym (w1 w2 : World) :
  same_responses w1 w2 → same_responses w2 w1.
Proof. intros [Hfetch Hcur]. split; [intros y; by rewrite Hfetch | done]. Qed.

Lemma document_stable (out : Output) (stamp : string) :
  without_field "generated_at"
    (document {| generated_at := stamp;
                 year := year out;
                 current_year := current_year out;
                 trailing_avg := trailing_avg out;
                 normals := normals out;
                 historical_envelope := historical_envelope out;
                 historical_years := historical_years out;
                 monthly := monthly out;
                 anomalies := anomalies out;
                 summary := summary out |})
  = without_field "generated_at" (document out).
Proof. reflexivity. Qed.

(** C9 (as the code has it).  Two runs with the same provider responses in
    the same calendar year ([CURRENT_YEAR], which the program reads from
    the clock and writes to the field [year]) either both abort or write
    documents that are equal but for the field [generated_at]. *)
Theorem same_year_fixes_document (w1 w2 : World) :
  same_responses w1 w2 → CURRENT_YEAR w1 = CURRENT_YEAR w2 →
  stable_part w1 = stable_part w2.
Proof.
  intros Hsame Hyear. unfold stable_part.
  destruct (main w1) as [out1 |] eqn:H1.
  - rewrite (main_transfer w1 w2 out1 Hsame H1).
    cbn [fmap option_fmap option_map compose].
    f_equal. rewrite <- Hyear.
    assert (CURRENT_YEAR w1 = year out1) as ->.
    { apply main_inv in H1
        as (? & ? & ? & ? & ? & ? & ? & ? & ? & ? & ? & ? & _ & _ & _ & _
            & _ & _ & _ & _ & _ & _ & _ & ->). reflexivity. }
    symmetry. apply document_stable.
  - destruct (main w2) as [out2 |] eqn:H2; [| reflexivity].
    rewrite (main_transfer w2 w1 out2 (same_responses_sym _ _ Hsame) H2)
      in H1.
    discriminate H1.
Qed.

Lemma same_year_fixes_document_witness :
  stable_part sample_world
  = stable_part {| fetch_year := fetch_year sample_world;
                   fetch_current := fetch_current sample_world;
                   CURRENT_YEAR := 2026;
                   now := "2026-02-01T09:30:00" |}.
Proof.
  apply same_year_fixes_document.
  - split; reflexivity.
  - reflexivity.
Defined.

(** C9 (as the specification words it) fails.  The same responses read on
    either side of a new year give documents whose [year] differs. *)
Lemma responses_fix_document_fails :
  (same_responses sample_world sample_world_next_year
   ∧ stable_part sample_world ≫= field "year" = Some (JNum (2026 # 1))
   ∧ stable_part sample_world_next_year ≫= field "year"
     = Some (JNum (2027 # 1)))
  ∧ ¬ responses_fix_document.
Proof.
  assert (same_responses sample_world sample_world_next_year) as Hsame
    by (split; reflexivity).
  assert (stable_part sample_world ≫= field "year" = Some (JNum (2026 # 1)))
    as H1 by (vm_compute; reflexivity).
  assert (stable_part sample_world_next_year ≫= field "year"
          = Some (JNum (2027 # 1))) as H2 by (vm_compute; reflexivity).
  split; [split; [exact Hsame |]; split; [exact H1 | exact H2] |].
  unfold responses_fix_document. intros H.
  rewrite (H _ _ Hsame), H2 in H1. discriminate H1.
Qed.

(* ================================================================== *)
(** * Further properties of the code *)
(* ================================================================== *)

(** ** [fetch_year] *)

Lemma succeeds_dec (net : nat → Fetch.outcome) (k : nat) :
  Fetch.succeeds net k ∨ ¬ Fetch.succeeds net k.
Proof.
  unfold Fetch.succeeds. destruct (net k) as [code body |].
  - destruct (Z.eq_dec code 200%Z) as [-> | Hne].
    + left. by exists body.
    + right. intros (b & [= ? ?]). done.
  - right. by intros (b & [=]).
Qed.

Lemma attempts_result (net : nat → Fetch.outcome) (todo : list Z) (k : nat)
    (trace : list Fetch.event) (data : YearData) :
  (Fetch.attempts net todo k trace).1 = Some data
  ↔ ∃ (i : nat) (body : Fetch.Body),
      (i < length todo)%nat
      ∧ net (k + i)%nat = Fetch.Response 200 body
      ∧ data = Fetch.year_data body
      ∧ ∀ j, (j < i)%nat → ¬ Fetch.succeeds net (k + j)%nat.
Proof.
  revert k trace. induction todo as [| attempt rest IH]; intros k trace.
  - simpl. split; [done |]. intros (i & body & Hi & _). simpl in Hi. lia.
  - cbn [Fetch.attempts].
    assert (∀ trace',
      (Fetch.attempts net rest (S k) trace').1 = Some data
      ↔ ∃ (i : nat) (body : Fetch.Body),
          (S i < length (attempt :: rest))%nat
          ∧ net (k + S i)%nat = Fetch.Response 200 body
          ∧ data = Fetch.year_data body
          ∧ ∀ j, (j < i)%nat → ¬ Fetch.succeeds net (k + S j)%nat) as Hrest.
    { intros trace'. rewrite IH.
      assert (∀ n, (S k + n = k + S n)%nat) as Hadd by (intros; lia).
      split; intros (i & body & Hi & Hnet & Hd & Hbefore); exists i, body.
      - split; [simpl; lia |]. rewrite <- Hadd. split; [done |].
        split; [done |]. intros j Hj. rewrite <- Hadd. by apply Hbefore.
      - split; [simpl in Hi; lia |]. rewrite Hadd. split; [done |].
        split; [done |]. intros j Hj. rewrite Hadd. by apply Hbefore. }
    assert (¬ Fetch.succeeds net k →
      (∃ (i : nat) (body : Fetch.Body),
          (S i < length (attempt :: rest))%nat
          ∧ net (k + S i)%nat = Fetch.Response 200 body
          ∧ data = Fetch.year_data body
          ∧ ∀ j, (j < i)%nat → ¬ Fetch.succeeds net (k + S j)%nat)
      ↔ ∃ (i : nat) (body : Fetch.Body),
          (i < length (attempt :: rest))%nat
          ∧ net (k + i)%nat = Fetch.Response 200 body
          ∧ data = Fetch.year_data body
          ∧ ∀ j, (j < i)%nat → ¬ Fetch.succeeds net (k + j)%nat) as Hshift.
    { intros Hfail. split.
      - intros (i & body & Hi & Hnet & Hd & Hbefore). exists (S i), body.
        split; [done |]. split; [done |]. split; [done |].
        intros [| j] Hj; [by rewrite Nat.add_0_r |]. apply Hbefore. lia.
      - intros (i & body & Hi & Hnet & Hd & Hbefore).
        destruct i as [| i].
        { destruct Hfail. rewrite Nat.add_0_r in Hnet. by exists body. }
        exists i, body. split; [done |]. split; [done |]. split; [done |].
        intros j Hj. apply (Hbefore (S j)). lia. }
    destruct (net k) as [code body |] eqn:Hk.
    + destruct (Z.eqb_spec code 200%Z) as [-> | Hne].
      * simpl. split.
        -- intros [= <-]. exists 0%nat, body. rewrite Nat.add_0_r.
           split; [simpl; lia |]. split; [done |]. split; [done |]. lia.
        -- intros (i & body' & Hi & Hnet & -> & Hbefore).
           destruct i as [| i].
           ++ rewrite Nat.add_0_r, Hk in Hnet. by injection Hnet as <-.
           ++ destruct (Hbefore 0%nat); [lia |].
              rewrite Nat.add_0_r. by exists body.
      * assert (¬ Fetch.succeeds net k) as Hfail.
        { intros (b & Hb). rewrite Hk in Hb. by injection Hb. }
        destruct (_ || _)%Z; rewrite Hrest; by apply Hshift.
    + assert (¬ Fetch.succeeds net k) as Hfail.
      { intros (b & Hb). by rewrite Hk in Hb. }
      rewrite Hrest. by apply Hshift.
Qed.

Lemma fetch_some_iff (net : nat → Fetch.outcome) (data : YearData) :
  (Fetch.fetch_year net).1 = Some data
  ↔ ∃ (k : nat) (body : Fetch.Body),
      (k < 3)%nat
      ∧ net k = Fetch.Response 200 body
      ∧ data = Fetch.year_data body
      ∧ ∀ j, (j < k)%nat → ¬ Fetch.succeeds net j.
Proof. unfold Fetch.fetch_year. by rewrite attempts_result. Qed.

Lemma fetch_none_iff (net : nat → Fetch.outcome) :
  (Fetch.fetch_year net).1 = None
  ↔ ∀ k, (k < 3)%nat → ¬ Fetch.succeeds net k.
Proof.
  split.
  - intros Hnone k Hk Hs.
    assert (∃ k, (k < 3)%nat ∧ Fetch.succeeds net k
                 ∧ ∀ j, (j < k)%nat → ¬ Fetch.succeeds net j)
      as (k0 & Hk0 & (body & Hbody) & Hfirst).
    { clear Hnone.
      destruct (succeeds_dec net 0) as [H0 | H0];
        [exists 0%nat; repeat split; [lia | done | lia] |].
      destruct (succeeds_dec net 1) as [H1 | H1].
      { exists 1%nat. split; [lia |]. split; [done |].
        intros j Hj. by replace j with 0%nat by lia. }
      exists 2%nat. split; [lia |].
      assert (k = 2)%nat as <-.
      { destruct k as [| [| [| k]]]; [done | done | done | lia]. }
      split; [done |]. intros j Hj.
      destruct j as [| [| j]]; [done | done | lia]. }
    assert ((Fetch.fetch_year net).1 = Some (Fetch.year_data body)) as Hsome.
    { apply fetch_some_iff. by exists k0, body. }
    congruence.
  - intros Hnone. destruct (Fetch.fetch_year net).1 as [data |] eqn:E;
      [| done].
    apply fetch_some_iff in E as (k & body & Hk & Hnet & _).
    destruct (Hnone k Hk). by exists body.
Qed.

(** X1.  [fetch_year] returns the data of the first response with status
    200 among its first three requests, read with the defaults of
    [dict.get]; it returns [None] exactly when none of the three is
    answered with status 200. *)
Theorem fetch_year_first_success (net : nat → Fetch.outcome) :
  (∀ data : YearData,
     (Fetch.fetch_year net).1 = Some data
     ↔ ∃ (k : nat) (body : Fetch.Body),
         (k < 3)%nat
         ∧ net k = Fetch.Response 200 body
         ∧ data = Fetch.year_data body
         ∧ ∀ j, (j < k)%nat → ¬ Fetch.succeeds net j)
  ∧ ((Fetch.fetch_year net).1 = None
     ↔ ∀ k, (k < 3)%nat → ¬ Fetch.succeeds net k).
Proof. split; [apply fetch_some_iff | apply fetch_none_iff]. Qed.

Lemma requests_app (t1 t2 : list Fetch.event) :
  Fetch.requests (t1 ++ t2) = (Fetch.requests t1 + Fetch.requests t2)%nat.
Proof. unfold Fetch.requests. by rewrite List.filter_app, length_app. Qed.

Lemma requests_retry (attempt : Z) :
  Fetch.requests (Fetch.Get :: Fetch.retry_pause attempt) = 1%nat.
Proof. unfold Fetch.retry_pause. by destruct (attempt <? 2)%Z. Qed.

Lemma attempts_step_failed (net : nat → Fetch.outcome) (attempt : Z)
    (rest : list Z) (k : nat) (trace : list Fetch.event) :
  ¬ Fetch.succeeds net k →
  ∃ pause, Fetch.requests pause = 1%nat
    ∧ Fetch.attempts net (attempt :: rest) k trace
      = Fetch.attempts net rest (S k) (trace ++ pause).
Proof.
  intros Hfail. cbn [Fetch.attempts].
  destruct (net k) as [code body |] eqn:Hk.
  - destruct (Z.eqb_spec code 200) as [-> | Hne].
    + destruct Hfail. by exists body.
    + destruct (_ || _)%Z.
      * by exists [Fetch.Get; Fetch.Sleep ((attempt + 1) * 5)].
      * exists (Fetch.Get :: Fetch.retry_pause attempt).
        split; [apply requests_retry | done].
  - exists (Fetch.Get :: Fetch.retry_pause attempt).
    split; [apply requests_retry | done].
Qed.

Lemma attempts_requests_none (net : nat → Fetch.outcome) (todo : list Z)
    (k : nat) (trace : list Fetch.event) :
  (∀ j, (j < length todo)%nat → ¬ Fetch.succeeds net (k + j)%nat) →
  Fetch.requests (Fetch.attempts net todo k trace).2
  = (Fetch.requests trace + length todo)%nat.
Proof.
  revert k trace. induction todo as [| attempt rest IH]; intros k trace Hnone.
  - simpl. lia.
  - destruct (attempts_step_failed net attempt rest k trace)
      as (pause & Hpause & ->).
    { specialize (Hnone 0%nat). rewrite Nat.add_0_r in Hnone.
      apply Hnone. simpl. lia. }
    rewrite IH.
    + rewrite requests_app, Hpause. simpl. lia.
    + intros j Hj. replace (S k + j)%nat with (k + S j)%nat by lia.
      apply Hnone. simpl. lia.
Qed.

Lemma attempts_requests_some (net : nat → Fetch.outcome) (todo : list Z)
    (k i : nat) (trace : list Fetch.event) :
  (i < length todo)%nat → Fetch.succeeds net (k + i)%nat →
  (∀ j, (j < i)%nat → ¬ Fetch.succeeds net (k + j)%nat) →
  Fetch.requests (Fetch.attempts net todo k trace).2
  = (Fetch.requests trace + S i)%nat.
Proof.
  revert k i trace.
  induction todo as [| attempt rest IH]; intros k i trace Hi Hs Hbefore.
  - simpl in Hi. lia.
  - destruct i as [| i].
    + rewrite Nat.add_0_r in Hs. destruct Hs as (body & Hk).
      cbn [Fetch.attempts]. rewrite Hk. cbn [Z.eqb Pos.eqb snd].
      rewrite requests_app. change (Fetch.requests [Fetch.Get]) with 1%nat.
      lia.
    + destruct (attempts_step_failed net attempt rest k trace)
        as (pause & Hpause & ->).
      { specialize (Hbefore 0%nat). rewrite Nat.add_0_r in Hbefore.
        apply Hbefore. lia. }
      rewrite (IH (S k) i).
      * rewrite requests_app, Hpause. lia.
      * simpl in Hi. lia.
      * by replace (S k + i)%nat with (k + S i)%nat by lia.
      * intros j Hj. replace (S k + j)%nat with (k + S j)%nat by lia.
        apply Hbefore. lia.
Qed.

(** X2.  [fetch_year] stops asking at the first response with status 200:
    it has then sent as many requests as that response's rank; without
    such a response it sends exactly three. *)
Theorem fetch_year_requests (net : nat → Fetch.outcome) :
  (∀ k, (k < 3)%nat → Fetch.succeeds net k →
        (∀ j, (j < k)%nat → ¬ Fetch.succeeds net j) →
        Fetch.requests (Fetch.fetch_year net).2 = S k)
  ∧ ((Fetch.fetch_year net).1 = None →
     Fetch.requests (Fetch.fetch_year net).2 = 3%nat).
Proof.
  split.
  - intros k Hk Hs Hbefore. unfold Fetch.fetch_year.
    by rewrite (attempts_requests_some net _ 0 k).
  - intros Hnone. pose proof (proj1 (fetch_none_iff net) Hnone) as Hall.
    unfold Fetch.fetch_year. by rewrite attempts_requests_none.
Qed.

Lemma rate_limited_iff (net : nat → Fetch.outcome) (k : nat) (code : Z)
    (body : Fetch.Body) :
  net k = Fetch.Response code body →
  Fetch.rate_limited net k ↔ ((code =? 429) || (code =? 503))%Z = true.
Proof.
  intros Hk. unfold Fetch.rate_limited. rewrite Hk, orb_true_iff, !Z.eqb_eq.
  split.
  - intros (b & [[= -> _] | [= -> _]]); [by left | by right].
  - intros [-> | ->]; exists body; [by left | by right].
Qed.

Lemma rate_limited_raised (net : nat → Fetch.outcome) (k : nat) :
  net k = Fetch.RequestException → ¬ Fetch.rate_limited net k.
Proof. intros Hk (b & [H | H]); by rewrite Hk in H. Qed.

(** X3.  The waiting of [fetch_year]: at most 30 seconds in all; three
    rate-limit answers (429 or 503) cost 5, 10 and 15 seconds, the last wait
    coming after the last request, before [None] is returned; without a
    rate-limit answer it waits 2 seconds before a retry only, 4 at most, and
    ends on a request. *)
Theorem fetch_year_waits (net : nat → Fetch.outcome) :
  (0 ≤ Fetch.slept (Fetch.fetch_year net).2 ≤ 30)%Z
  ∧ ((∀ k, (k < 3)%nat → Fetch.rate_limited net k) →
     Fetch.fetch_year net
     = (None, [Fetch.Get; Fetch.Sleep 5; Fetch.Get; Fetch.Sleep 10;
               Fetch.Get; Fetch.Sleep 15]))
  ∧ ((∀ k, (k < 3)%nat → ¬ Fetch.rate_limited net k) →
     (Fetch.slept (Fetch.fetch_year net).2 ≤ 4)%Z
     ∧ last (Fetch.fetch_year net).2 = Some Fetch.Get).
Proof.
  assert (0 < 3 ∧ 1 < 3 ∧ 2 < 3)%nat as (L0 & L1 & L2) by lia.
  unfold Fetch.fetch_year. change (Py.range 0 3) with [0; 1; 2]%Z.
  cbn [Fetch.attempts].
  destruct (net 0%nat) as [c0 b0 |] eqn:E0;
    destruct (net 1%nat) as [c1 b1 |] eqn:E1;
    destruct (net 2%nat) as [c2 b2 |] eqn:E2;
    repeat match goal with
      | |- context [(?c =? 200)%Z] => destruct (Z.eqb_spec c 200)
      | |- context [((?c =? 429) || (?c =? 503))%Z] =>
          destruct ((c =? 429) || (c =? 503))%Z eqn:?
      end;
    (split; [unfold Fetch.slept, Fetch.retry_pause; simpl; lia |]); split.
  all: intros Hall.
  all: try (pose proof (Hall 0%nat L0) as R0;
            pose proof (Hall 1%nat L1) as R1;
            pose proof (Hall 2%nat L2) as R2;
            first [ apply (rate_limited_iff _ _ _ _ E0) in R0
                  | destruct (rate_limited_raised _ _ E0 R0) ];
            first [ apply (rate_limited_iff _ _ _ _ E1) in R1
                  | destruct (rate_limited_raised _ _ E1 R1) ];
            first [ apply (rate_limited_iff _ _ _ _ E2) in R2
                  | destruct (rate_limited_raised _ _ E2 R2) ];
            subst; first [ discriminate | congruence | reflexivity ]).
  all: first
    [ split; [unfold Fetch.slept, Fetch.retry_pause; simpl; lia
             | reflexivity]
    | exfalso;
      first [ apply (Hall 0%nat L0), (rate_limited_iff _ _ _ _ E0);
              assumption
            | apply (Hall 1%nat L1), (rate_limited_iff _ _ _ _ E1);
              assumption
            | apply (Hall 2%nat L2), (rate_limited_iff _ _ _ _ E2);
              assumption ] ].
Qed.

(** ** When a run completes *)

Lemma enumerate_rows_is_Some (ds : list string) (data : YearData) (i : nat) :
  is_Some (enumerate_rows i ds data)
  ↔ (i + length ds ≤ length (high data)
     ∧ i + length ds ≤ length (low data))%nat ∨ ds = [].
Proof.
  revert i. induction ds as [| d ds IH]; intros i.
  - simpl. split; [by right | by eexists].
  - cbn [enumerate_rows]. split.
    + intros [rs H].
      apply bind_Some in H as (h & Hh & H).
      apply bind_Some in H as (l & Hl & H).
      apply bind_Some in H as (rest & Hrest & _).
      apply lookup_lt_Some in Hh, Hl. left.
      destruct (proj1 (IH (S i)) (mk_is_Some _ _ Hrest)) as [[? ?] | ->];
        simpl in *; lia.
    + intros [[Hh Hl] | [=]]. simpl in Hh, Hl.
      destruct (lookup_lt_is_Some_2 (high data) i) as [h ->]; [lia |].
      destruct (lookup_lt_is_Some_2 (low data) i) as [l ->]; [lia |].
      destruct (proj2 (IH (S i))) as [rest ->].
      { destruct ds; [by right | left; simpl in *; lia]. }
      by eexists.
Qed.

Lemma rows_None_iff (data : YearData) :
  rows data = None
  ↔ (length (high data) < length (dates data)
     ∨ length (low data) < length (dates data))%nat.
Proof.
  pose proof (enumerate_rows_is_Some (dates data) data 0) as Hiff.
  fold (rows data) in Hiff. simpl in Hiff.
  rewrite eq_None_not_Some, Hiff. split.
  - intros Hnot. destruct (dates data); [destruct Hnot; by right |].
    simpl in *. lia.
  - intros Hshort [[? ?] | Hnil]; [lia |].
    rewrite Hnil in Hshort. simpl in Hshort. lia.
Qed.

Lemma rows_in_range (data : YearData) :
  (length (dates data) ≤ length (high data))%nat →
  (length (dates data) ≤ length (low data))%nat →
  rows data = Some (days data)
  ∧ length (days data) = length (dates data).
Proof.
  intros Hh Hl.
  destruct (rows data) as [rs |] eqn:Hrs.
  - pose proof (rows_days _ _ Hrs) as ->. split; [done |].
    unfold days. rewrite length_zip_with, length_zip. lia.
  - apply rows_None_iff in Hrs. lia.
Qed.

(** X4.  Reading the rows of a year raises [IndexError] exactly when the
    list of highs or the list of lows is shorter than the list of dates;
    otherwise the rows are the three lists side by side, cut at the number
    of dates (values beyond the last date are not read). *)
Theorem rows_index_error (data : YearData) :
  (rows data = None
   ↔ (length (high data) < length (dates data)
      ∨ length (low data) < length (dates data))%nat)
  ∧ ((length (dates data) ≤ length (high data)
      ∧ length (dates data) ≤ length (low data))%nat →
     rows data = Some (days data)
     ∧ length (days data) = length (dates data)).
Proof.
  split; [apply rows_None_iff |]. intros [Hh Hl]. by apply rows_in_range.
Qed.

Lemma rows_index_error_witness :
  rows sample_current = Some (days sample_current)
  ∧ length (days sample_current) = 5%nat.
Proof.
  apply (proj2 (rows_index_error sample_current)). simpl. lia.
Defined.

Lemma well_formed_rows (data : YearData) :
  well_formed data →
  rows data = Some (days data)
  ∧ Forall (λ r : Row, is_Some (month_num r.1.1)) (days data).
Proof.
  intros (Hh & Hl & Hdates). split.
  - apply rows_in_range; lia.
  - unfold days. clear Hh Hl. revert Hdates.
    generalize (zip (high data) (low data)).
    induction (dates data) as [| d ds IH]; intros hl Hdates.
    { apply Forall_nil_2. }
    destruct hl as [| x hl]; [apply Forall_nil_2 |].
    apply Forall_cons in Hdates as [Hd Hds].
    apply Forall_cons_2; [exact Hd | by apply IH].
Qed.

Lemma fetch_historical_total (f : Z → option YearData) (years : list Z)
    (historical : list (string * YearData)) (all_daily : gmap string Pooled) :
  Forall (λ item, is_Some (rows item.2)) (fetched_of f years) →
  is_Some (fetch_historical f years historical all_daily).
Proof.
  revert historical all_daily.
  induction years as [| y years IH]; intros historical all_daily Hrows.
  - by eexists.
  - cbn [fetch_historical]. unfold fetched_of in Hrows.
    cbn [omap list_omap] in Hrows. fold (fetched_of f years) in Hrows.
    destruct (f y) as [data |]; cbn in Hrows.
    + apply Forall_cons in Hrows as [[rs Hrs] Hrest]. cbn in Hrs.
      rewrite Hrs. cbn. by apply IH.
    + by apply IH.
Qed.

Lemma dict_get_elem {V} (k : string) (d : list (string * V)) (v : V) :
  dict_get k d = Some v → (k, v) ∈ d.
Proof.
  induction d as [| [k' v'] d IH]; [done |]. cbn [dict_get].
  case_bool_decide as Hk.
  - intros [= ->]. subst. by left.
  - intros H. right. by apply IH.
Qed.

Lemma pool_trailing_total (historical : list (string * YearData))
    (years : list Z) (trailing_daily : gmap string Pooled) :
  Forall (λ item, is_Some (rows item.2)) historical →
  is_Some (pool_trailing historical years trailing_daily).
Proof.
  intros Hrows. revert trailing_daily.
  induction years as [| y years IH]; intros trailing_daily; [by eexists |].
  cbn [pool_trailing].
  destruct (dict_get _ _) as [data |] eqn:Hget; [| apply IH].
  apply dict_get_elem in Hget. rewrite Forall_forall in Hrows.
  destruct (Hrows _ Hget) as [rs Hrs]. cbn in Hrs. rewrite Hrs. cbn.
  apply IH.
Qed.

Lemma pool_month_rows_total (rs : list Row) (monthly : gmap Z Pooled) :
  Forall (λ r : Row, is_Some (month_num r.1.1)) rs →
  is_Some (foldl_opt pool_month_row rs monthly).
Proof.
  intros Hrs. revert monthly.
  induction Hrs as [| [[d h] l] rs [m Hm] _ IH]; intros monthly;
    [by eexists |].
  cbn [foldl_opt pool_month_row]. cbn in Hm.
  destruct h as [h |], l as [l |]; cbn; rewrite ?Hm; cbn; apply IH.
Qed.

Lemma pool_month_years_total (datas : list YearData)
    (monthly : gmap Z Pooled) :
  Forall well_formed datas →
  is_Some (foldl_opt pool_month_year datas monthly).
Proof.
  intros Hwf. revert monthly.
  induction Hwf as [| data datas Hdata _ IH]; intros monthly; [by eexists |].
  cbn [foldl_opt].
  change (pool_month_year monthly data)
    with (rs ← rows data; foldl_opt pool_month_row rs monthly).
  destruct (well_formed_rows data Hdata) as [-> Hmonths]. cbn.
  destruct (pool_month_rows_total _ monthly Hmonths) as [mid ->]. cbn.
  apply IH.
Qed.

Lemma record_rows_total (yr : string) (rs : list Row)
    (records : gmap Z MonthRecord) :
  Forall (λ r : Row, is_Some (month_num r.1.1)) rs →
  is_Some (foldl_opt (record_row yr) rs records).
Proof.
  intros Hrs. revert records.
  induction Hrs as [| [[d h] l] rs [m Hm] _ IH]; intros records;
    [by eexists |].
  cbn [foldl_opt]. cbn in Hm.
  destruct (record_row yr records (d, h, l)) as [mid |] eqn:E.
  - cbn. apply IH.
  - unfold record_row in E. rewrite Hm in E. discriminate E.
Qed.

Lemma record_years_total (years : list (string * YearData))
    (records : gmap Z MonthRecord) :
  Forall (λ item, well_formed item.2) years →
  is_Some (foldl_opt record_year years records).
Proof.
  intros Hwf. revert records.
  induction Hwf as [| [yr data] years Hdata _ IH]; intros records;
    [by eexists |].
  cbn [foldl_opt]. cbn [fst snd] in Hdata.
  change (record_year records (yr, data))
    with (rs ← rows data; foldl_opt (record_row yr) rs records).
  destruct (well_formed_rows data Hdata) as [-> Hmonths]. cbn.
  destruct (record_rows_total yr _ records Hmonths) as [mid ->]. cbn.
  apply IH.
Qed.

Lemma build_monthly_total (monthly_hist current_monthly : gmap Z Pooled)
    (monthly_records : gmap Z MonthRecord) :
  is_Some (build_monthly monthly_hist current_monthly monthly_records).
Proof.
  unfold build_monthly.
  generalize (monthly_stat monthly_hist current_monthly monthly_records).
  intros g. eexists. vm_compute. reflexivity.
Qed.

Lemma build_anomalies_total (g : Z → MonthlyStat)
    (mly : list (string * MonthlyStat)) :
  (∀ m, (1 ≤ m ≤ 12)%Z →
     (name ← Py.index MONTH_NAMES (m - 1); dict_get name mly)
     = Some (g m)) →
  is_Some (build_anomalies mly).
Proof.
  intros Hget. unfold build_anomalies.
  assert (∀ m, m ∈ Py.range 1 13 → (1 ≤ m ≤ 12)%Z) as Hrange.
  { intros m. unfold Py.range. rewrite elem_of_seqZ. lia. }
  revert Hrange. generalize (Py.range 1 13).
  generalize {| months := []; high_departure := []; low_departure := [] |}.
  intros acc ms. revert acc.
  induction ms as [| m ms IH]; intros acc Hrange; [by eexists |].
  cbn [foldl_opt].
  pose proof (Hget m (Hrange m ltac:(by left))) as Hm.
  apply bind_Some in Hm as (name & Hname & Hinfo).
  rewrite Hname. cbn [mbind option_bind].
  rewrite Hinfo. cbn [mbind option_bind].
  destruct (departure_high (g m)); apply IH;
    intros m' Hm'; apply Hrange; by right.
Qed.

(** ** The summary *)

Lemma list_index_elem (x : string) (l : list string) :
  x ∈ l → ∃ i, Py.list_index x l = Some i ∧ l !! i = Some x.
Proof.
  induction l as [| y l IH]; [by rewrite elem_of_nil |].
  cbn [Py.list_index]. case_bool_decide as Hy.
  - intros _. exists 0%nat. by subst.
  - rewrite elem_of_cons. intros [-> | Hin]; [done |].
    destruct (IH Hin) as (i & -> & Hi). by exists (S i).
Qed.

Lemma list_index_not_elem (x : string) (l : list string) :
  x ∉ l → Py.list_index x l = None.
Proof.
  induction l as [| y l IH]; [done |].
  rewrite not_elem_of_cons. intros [Hne Hnin]. cbn [Py.list_index].
  rewrite bool_decide_false by done. by rewrite IH.
Qed.

Lemma ytd_normal_highs_spec (n : Series) (ds : list string) :
  length (s_high n) = length (s_dates n) →
  ytd_normal_highs n ds = Some (omap (normal_of n) ds).
Proof.
  intros Hlen. unfold ytd_normal_highs.
  match goal with
  | |- foldl_opt ?f ds [] = _ =>
      enough (∀ acc, foldl_opt f ds acc
                     = Some (acc ++ omap (normal_of n) ds)) as H
        by exact (H [])
  end.
  induction ds as [| d ds IH]; intros acc.
  - simpl. by rewrite app_nil_r.
  - cbn [foldl_opt omap list_omap].
    destruct (decide (md_key d ∈ s_dates n)) as [Hin | Hin].
    + destruct (list_index_elem _ _ Hin) as (i & Hidx & Hi).
      destruct (lookup_lt_is_Some_2 (s_high n) i) as [v Hv].
      { apply lookup_lt_Some in Hi. lia. }
      assert (normal_of n d = Some v) as ->.
      { unfold normal_of. rewrite Hidx. exact Hv. }
      rewrite bool_decide_true by done. rewrite Hidx.
      cbn [fmap option_fmap option_map mbind option_bind].
      assert ((0 <=? Z.of_nat i)%Z = true) as -> by (apply Z.leb_le; lia).
      rewrite index_nonneg by lia. rewrite Nat2Z.id, Hv.
      cbn [mbind option_bind]. rewrite IH. by rewrite <- app_assoc.
    + assert (normal_of n d = None) as ->.
      { unfold normal_of. by rewrite (list_index_not_elem _ _ Hin). }
      rewrite bool_decide_false by done.
      cbn [mbind option_bind]. apply IH.
Qed.

Lemma latest_valid_none (rs : list Row) :
  Forall (λ r, is_valid r = false) rs →
  latest_valid rs = (None, None, None).
Proof.
  induction 1 as [| [[d h] l] rs Hr _ IH]; [done |].
  destruct h, l; try done; exact IH.
Qed.

Lemma latest_valid_last (rs post : list Row) (d : string) (h l : Q) :
  Forall (λ r, is_valid r = false) post →
  latest_valid (reverse (rs ++ (d, Some h, Some l) :: post))
  = (Some h, Some l, Some d).
Proof.
  intros Hpost. rewrite reverse_app, reverse_cons, <- app_assoc.
  assert (Forall (λ r, is_valid r = false) (reverse post)) as Hrev
    by by apply Forall_reverse.
  induction Hrev as [| [[d' h'] l'] rs' Hr _ IH]; [done |].
  simpl. destruct h', l'; try done; exact IH.
Qed.

Lemma dated_cons_Some (d : string) (ds : list string) (x : Q)
    (values : list (option Q)) :
  dated (d :: ds) (Some x :: values) = (d, x) :: dated ds values.
Proof. done. Qed.

Lemma dated_cons_None (d : string) (ds : list string)
    (values : list (option Q)) :
  dated (d :: ds) (None :: values) = dated ds values.
Proof. done. Qed.

Lemma drop_lookup_None {A} (l : list A) (i : nat) :
  l !! i = None → drop i l = [].
Proof. intros H. apply drop_ge. by apply lookup_ge_None. Qed.

Lemma hottest_loop_spec (values : list (option Q)) (ds : list string)
    (i : nat) (t0 : Q) (d0 : option string) (res : Q * option string) :
  extreme_loop Py.gt i values ds t0 d0 = Some res →
  (Forall (λ p, (p.2 <= t0)%Q) (dated (drop i ds) values) ∧ res = (t0, d0))
  ∨ ((t0 < res.1)%Q
     ∧ ∃ y, res.2 = Some y
            ∧ first_max (dated (drop i ds) values) y res.1).
Proof.
  revert i t0 d0. induction values as [| v values IH]; intros i t0 d0.
  - simpl. intros [= <-]. left. split; [| done].
    unfold dated. rewrite zip_with_nil_r. constructor.
  - cbn [extreme_loop].
    destruct (ds !! i) as [d |] eqn:Hd.
    + rewrite (drop_S _ _ _ Hd).
      destruct v as [x |].
      * rewrite dated_cons_Some. destruct (Py.gt x t0) eqn:E.
        -- cbn [mbind option_bind]. intros H. right.
           apply gt_true in E.
           destruct (IH _ _ _ H)
             as [[Hall ->] | (Hlt & y & Hy & l1 & l2 & Heq & H1 & H2)].
           ++ split; [done |]. exists d. split; [done |].
              exists [], (dated (drop (S i) ds) values).
              split; [done |]. split; [constructor | done].
           ++ split; [lra |]. exists y. split; [done |].
              exists ((d, x) :: l1), l2. rewrite Heq.
              split; [done |]. split; [| done]. by constructor.
        -- intros H. apply gt_false in E.
           destruct (IH _ _ _ H)
             as [[Hall ->] | (Hlt & y & Hy & l1 & l2 & Heq & H1 & H2)].
           ++ left. split; [by constructor | done].
           ++ right. split; [done |]. exists y. split; [done |].
              exists ((d, x) :: l1), l2. rewrite Heq.
              split; [done |]. split; [| done].
              constructor; [simpl; lra | done].
      * rewrite dated_cons_None. apply IH.
    + rewrite (drop_lookup_None _ _ Hd).
      assert (drop (S i) ds = []) as Hnil.
      { apply drop_ge. apply lookup_ge_None in Hd. lia. }
      assert (∀ vs, dated [] vs = []) as Hdated by done.
      rewrite Hdated.
      destruct v as [x |]; [destruct (Py.gt x t0); [done |] |];
        intros H; specialize (IH _ _ _ H); rewrite Hnil, Hdated in IH;
        exact IH.
Qed.

Lemma coldest_loop_spec (values : list (option Q)) (ds : list string)
    (i : nat) (t0 : Q) (d0 : option string) (res : Q * option string) :
  extreme_loop Py.lt i values ds t0 d0 = Some res →
  (Forall (λ p, (t0 <= p.2)%Q) (dated (drop i ds) values) ∧ res = (t0, d0))
  ∨ ((res.1 < t0)%Q
     ∧ ∃ y, res.2 = Some y
            ∧ first_min (dated (drop i ds) values) y res.1).
Proof.
  revert i t0 d0. induction values as [| v values IH]; intros i t0 d0.
  - simpl. intros [= <-]. left. split; [| done].
    unfold dated. rewrite zip_with_nil_r. constructor.
  - cbn [extreme_loop].
    destruct (ds !! i) as [d |] eqn:Hd.
    + rewrite (drop_S _ _ _ Hd).
      destruct v as [x |].
      * rewrite dated_cons_Some. destruct (Py.lt x t0) eqn:E.
        -- cbn [mbind option_bind]. intros H. right.
           apply lt_true in E.
           destruct (IH _ _ _ H)
             as [[Hall ->] | (Hlt & y & Hy & l1 & l2 & Heq & H1 & H2)].
           ++ split; [done |]. exists d. split; [done |].
              exists [], (dated (drop (S i) ds) values).
              split; [done |]. split; [constructor | done].
           ++ split; [lra |]. exists y. split; [done |].
              exists ((d, x) :: l1), l2. rewrite Heq.
              split; [done |]. split; [| done]. by constructor.
        -- intros H. apply lt_false in E.
           destruct (IH _ _ _ H)
             as [[Hall ->] | (Hlt & y & Hy & l1 & l2 & Heq & H1 & H2)].
           ++ left. split; [by constructor | done].
           ++ right. split; [done |]. exists y. split; [done |].
              exists ((d, x) :: l1), l2. rewrite Heq.
              split; [done |]. split; [| done].
              constructor; [simpl; lra | done].
      * rewrite dated_cons_None. apply IH.
    + rewrite (drop_lookup_None _ _ Hd).
      assert (drop (S i) ds = []) as Hnil.
      { apply drop_ge. apply lookup_ge_None in Hd. lia. }
      assert (∀ vs, dated [] vs = []) as Hdated by done.
      rewrite Hdated.
      destruct v as [x |]; [destruct (Py.lt x t0); [done |] |];
        intros H; specialize (IH _ _ _ H); rewrite Hnil, Hdated in IH;
        exact IH.
Qed.

Lemma extreme_loop_total (better : Q → Q → bool) (values : list (option Q))
    (ds : list string) (i : nat) (t0 : Q) (d0 : option string) :
  (i + length values ≤ length ds)%nat →
  is_Some (extreme_loop better i values ds t0 d0).
Proof.
  revert i t0 d0. induction values as [| v values IH]; intros i t0 d0 Hlen;
    [by eexists |].
  cbn [extreme_loop]. simpl in Hlen.
  destruct v as [x |]; [destruct (better x t0) |]; try (apply IH; lia).
  destruct (lookup_lt_is_Some_2 ds i) as [d ->]; [lia |].
  cbn. apply IH. lia.
Qed.

Lemma build_summary_total (current_data : YearData) (cur_rows : list Row)
    (daily : gmap string Pooled) (mds : list string) :
  (length (high current_data) ≤ length (dates current_data))%nat →
  (length (low current_data) ≤ length (dates current_data))%nat →
  is_Some (build_summary current_data cur_rows (daily_means daily mds)).
Proof.
  intros Hh Hl. unfold build_summary.
  destruct (latest_valid _) as [[th tl] td].
  rewrite ytd_normal_highs_spec by apply series_lengths.
  cbn [mbind option_bind].
  destruct (extreme_loop_total Py.gt (high current_data)
              (dates current_data) 0 (-999) None) as [hot ->]; [simpl; lia |].
  destruct (extreme_loop_total Py.lt (low current_data)
              (dates current_data) 0 999 None) as [cold ->]; [simpl; lia |].
  by eexists.
Qed.

Lemma main_historical (w : World) (historical : list (string * YearData))
    (all_daily : gmap string Pooled) :
  fetch_historical (fetch_year w)
    (Py.range HIST_START_YEAR (HIST_END_YEAR + 1)) [] ∅
  = Some (historical, all_daily) →
  historical = all_years w
  ∧ Forall (λ item, rows item.2 = Some (days item.2)) (all_years w).
Proof.
  intros E.
  apply fetch_historical_spec in E as (-> & _ & Hrows);
    [| apply year_strings_NoDup | intros y _; apply not_elem_of_nil].
  done.
Qed.

Lemma main_intro (w : World) (historical : list (string * YearData))
    (all_daily trailing_daily : gmap string Pooled)
    (current_data : YearData) (envelope : list EnvRow)
    (monthly_hist current_monthly : gmap Z Pooled)
    (monthly_records : gmap Z MonthRecord) (cur_rows : list Row)
    (mly : list (string * MonthlyStat)) (anoms : Anomalies)
    (summ : Summary) :
  fetch_historical (fetch_year w)
    (Py.range HIST_START_YEAR (HIST_END_YEAR + 1)) [] ∅
  = Some (historical, all_daily) →
  fetch_current w = Some current_data →
  pool_trailing historical
    (Py.range (HIST_END_YEAR - TRAILING_YEARS + 1) (HIST_END_YEAR + 1)) ∅
  = Some trailing_daily →
  envelope_rows all_daily base_dates = Some envelope →
  foldl_opt pool_month_year historical.*2 ∅ = Some monthly_hist →
  foldl_opt record_year historical ∅ = Some monthly_records →
  rows current_data = Some cur_rows →
  foldl_opt pool_month_row cur_rows ∅ = Some current_monthly →
  build_monthly monthly_hist current_monthly monthly_records = Some mly →
  build_anomalies mly = Some anoms →
  build_summary current_data cur_rows (daily_means all_daily base_dates)
  = Some summ →
  is_Some (main w).
Proof.
  intros E1 E2 E3 E4 E5 E6 E7 E8 E9 E10 E11.
  eexists. unfold main.
  eapply bind_Some_intro; [exact E1 |]. cbv beta iota.
  eapply bind_Some_intro; [exact E2 |]. cbv beta.
  eapply bind_Some_intro; [exact E3 |]. cbv beta.
  eapply bind_Some_intro; [exact E4 |]. cbv beta.
  eapply bind_Some_intro; [exact E5 |]. cbv beta.
  eapply bind_Some_intro; [exact E6 |]. cbv beta.
  eapply bind_Some_intro; [exact E7 |]. cbv beta.
  eapply bind_Some_intro; [exact E8 |]. cbv beta.
  eapply bind_Some_intro; [exact E9 |]. cbv beta.
  eapply bind_Some_intro; [exact E10 |]. cbv beta.
  eapply bind_Some_intro; [exact E11 |]. cbv beta.
  reflexivity.
Qed.

Lemma main_current (w : World) :
  is_Some (main w) → is_Some (fetch_current w).
Proof.
  intros [out H]. apply main_inv in H
    as (? & ? & cur & ? & ? & ? & ? & ? & ? & ? & ? & ? & _ & E & _).
  by exists cur.
Qed.

Lemma main_total (w : World) (current_data : YearData) :
  Forall (λ item, well_formed item.2) (all_years w) →
  fetch_current w = Some current_data → well_formed current_data →
  is_Some (main w).
Proof.
  intros Hwf E2 Hcur.
  assert (Forall (λ item : string * YearData, is_Some (rows item.2))
            (all_years w)) as Hrows.
  { eapply Forall_impl; [exact Hwf |]. intros item Hitem.
    apply well_formed_rows in Hitem as [-> _]. by eexists. }
  destruct (fetch_historical_total (fetch_year w)
              (Py.range HIST_START_YEAR (HIST_END_YEAR + 1)) [] ∅ Hrows)
    as [[historical all_daily] E1].
  destruct (main_historical _ _ _ E1) as [-> _].
  destruct (pool_trailing_total (all_years w)
              (Py.range (HIST_END_YEAR - TRAILING_YEARS + 1)
                 (HIST_END_YEAR + 1)) ∅ Hrows) as [trailing_daily E3].
  destruct (envelope_rows_total all_daily base_dates) as [envelope E4].
  destruct (pool_month_years_total (all_years w).*2 ∅) as [monthly_hist E5].
  { apply Forall_fmap. exact Hwf. }
  destruct (record_years_total (all_years w) ∅ Hwf) as [monthly_records E6].
  destruct (well_formed_rows _ Hcur) as [E7 Hmonths].
  destruct (pool_month_rows_total (days current_data) ∅ Hmonths)
    as [current_monthly E8].
  destruct (build_monthly_total monthly_hist current_monthly monthly_records)
    as [mly E9].
  destruct (build_anomalies_total
              (monthly_stat monthly_hist current_monthly monthly_records) mly)
    as [anoms E10].
  { intros m Hm. by apply monthly_entries. }
  destruct Hcur as (Hh & Hl & _).
  destruct (build_summary_total current_data (days current_data)
              all_daily base_dates) as [summ E11]; [lia | lia |].
  exact (main_intro _ _ _ _ _ _ _ _ _ _ _ _ _
           E1 E2 E3 E4 E5 E6 E7 E8 E9 E10 E11).
Qed.

(** X5.  When every year the provider returned is well formed (as many
    highs and as many lows as dates, each date with a month number at
    positions 5 and 6), a run writes its document exactly when the fetch of
    the current year succeeded: historical years that failed to load are
    skipped, a failed current year ends the run ([sys.exit(1)]). *)
Theorem main_completes (w : World) :
  Forall (λ item, well_formed item.2) (all_years w) →
  (∀ current_data, fetch_current w = Some current_data →
                   well_formed current_data) →
  (is_Some (main w) ↔ is_Some (fetch_current w))
  ∧ (fetch_current w = None → main w = None).
Proof.
  intros Hwf Hcur. split; [split |].
  - apply main_current.
  - intros [current_data E]. eapply main_total; eauto.
  - intros E. apply eq_None_not_Some. intros H.
    apply main_current in H. rewrite E in H. by destruct H.
Qed.

Lemma main_completes_witness :
  (is_Some (main sample_world) ↔ is_Some (fetch_current sample_world))
  ∧ (fetch_current sample_world = None → main sample_world = None).
Proof.
  apply (main_completes sample_world).
  - assert (all_years sample_world = sample_historical) as ->
      by (vm_compute; reflexivity).
    unfold sample_historical.
    repeat (apply Forall_cons_2;
            [split; [reflexivity | split; [reflexivity |]];
             repeat (apply Forall_cons_2; [by eexists |]);
             apply Forall_nil_2 |]).
    apply Forall_nil_2.
  - intros current_data [= <-].
    split; [reflexivity | split; [reflexivity |]].
    repeat (apply Forall_cons_2; [by eexists |]). apply Forall_nil_2.
Defined.

Lemma elem_of_range (a b y : Z) : y ∈ Py.range a b ↔ (a ≤ y < b)%Z.
Proof. unfold Py.range. rewrite elem_of_seqZ. lia. Qed.

Lemma elem_of_fetched_of (f : Z → option YearData) (years : list Z) (y : Z)
    (data : YearData) :
  y ∈ years → f y = Some data → (Py.str y, data) ∈ fetched_of f years.
Proof.
  intros Hy E. unfold fetched_of. apply list_elem_of_omap.
  exists y. split; [done |]. by rewrite E.
Qed.

Lemma main_rows (w : World) (out : Output) :
  main w = Some out →
  Forall (λ item, is_Some (rows item.2)) (all_years w)
  ∧ ∃ current_data, fetch_current w = Some current_data
                    ∧ is_Some (rows current_data).
Proof.
  intros H. apply main_inv in H
    as (historical & all_daily & current_data & ? & ? & ? & ? & cur_rows & ?
        & ? & ? & ? & E1 & E2 & _ & _ & _ & _ & E7 & _).
  apply main_historical in E1 as [_ Hrows]. split.
  - eapply Forall_impl; [exact Hrows |]. intros item ->. by eexists.
  - exists current_data. split; [done | by eexists].
Qed.

(** X6.  A response with fewer highs or fewer lows than dates ends the run
    with an [IndexError], whether it is the response for a historical year
    or for the current year: no document is written. *)
Theorem main_index_error (w : World) (y : Z) (data : YearData) :
  ((HIST_START_YEAR ≤ y ≤ HIST_END_YEAR)%Z ∧ fetch_year w y = Some data)
  ∨ fetch_current w = Some data →
  (length (high data) < length (dates data)
   ∨ length (low data) < length (dates data))%nat →
  main w = None.
Proof.
  intros Hdata Hshort. apply rows_None_iff in Hshort.
  destruct (main w) as [out |] eqn:Hmain; [exfalso | done].
  apply main_rows in Hmain as (Hrows & current_data & Hcur & Hsome).
  destruct Hdata as [[Hy E] | E].
  - rewrite Forall_forall in Hrows.
    specialize (Hrows (Py.str y, data)). cbn [snd] in Hrows.
    rewrite Hshort in Hrows. apply is_Some_None in Hrows; [done |].
    apply elem_of_fetched_of; [| done]. apply elem_of_range.
    unfold HIST_START_YEAR, HIST_END_YEAR in *. lia.
  - rewrite E in Hcur. injection Hcur as <-.
    rewrite Hshort in Hsome. by apply is_Some_None in Hsome.
Qed.

Lemma main_index_error_witness : main ragged_world = None.
Proof.
  apply (main_index_error ragged_world 2020
           {| dates := ["2020-01-01"]; high := [Some 40%Q]; low := [] |}).
  - left. split; [unfold HIST_START_YEAR, HIST_END_YEAR; lia | reflexivity].
  - right. simpl. lia.
Defined.

(** X7.  What [fetch_year] makes of the body of a 200 response: a body
    without [daily] gives three empty lists, which the run accepts as a
    year without days; a body whose [daily] lacks one of the two
    temperature lists gives rows that raise [IndexError] exactly when it
    has a date. *)
Theorem year_data_defaults (body : Fetch.Body) :
  (Fetch.daily body = None →
   Fetch.year_data body = {| dates := []; high := []; low := [] |}
   ∧ rows (Fetch.year_data body) = Some [])
  ∧ (∀ daily, Fetch.daily body = Some daily →
       Fetch.temperature_2m_max daily = None
       ∨ Fetch.temperature_2m_min daily = None →
       (rows (Fetch.year_data body) = None
        ↔ ∃ d ds, Fetch.time daily = Some (d :: ds))).
Proof.
  split.
  - intros E. unfold Fetch.year_data. rewrite E. done.
  - intros daily E Hmissing. rewrite rows_None_iff.
    unfold Fetch.year_data. rewrite E. simpl.
    split.
    + destruct (Fetch.time daily) as [[| d ds] |];
        [| by exists d, ds |]; simpl; intros [? | ?]; lia.

    + intros (d & ds & ->). destruct Hmissing as [-> | ->]; simpl; lia.
Qed.

Lemma main_summary (w : World) (out : Output) (current_data : YearData) :
  main w = Some out → fetch_current w = Some current_data →
  build_summary current_data (days current_data) (normals out)
  = Some (summary out)
  ∧ ∃ all_daily,
      normals out = daily_means all_daily base_dates
      ∧ ∀ key, dd_get all_daily key
               = {| highs := pooled_highs (all_years w) key;
                    lows := pooled_lows (all_years w) key |}.
Proof.
  intros H Hcur. apply main_inv in H
    as (historical & all_daily & cur & trailing_daily & ? & ? & ? & cur_rows
        & ? & ? & ? & summ & E1 & E2 & E3 & _ & _ & _ & E7 & _ & _ & _ & E11
        & ->).
  rewrite Hcur in E2. injection E2 as <-.
  apply rows_days in E7 as ->.
  destruct (main_pools _ _ _ _ E1 E3) as (_ & _ & Hall & _).
  split; [exact E11 |]. by exists all_daily.
Qed.

Lemma build_summary_inv (current_data : YearData) (cur_rows : list Row)
    (nrm : Series) (s : Summary) :
  build_summary current_data cur_rows nrm = Some s →
  ∃ ytd_normal hottest coldest,
    ytd_normal_highs nrm (dates current_data) = Some ytd_normal
    ∧ extreme_loop Py.gt 0 (high current_data) (dates current_data)
        (-999) None = Some hottest
    ∧ extreme_loop Py.lt 0 (low current_data) (dates current_data)
        999 None = Some coldest
    ∧ (today_high s, today_low s, today_date s)
      = latest_valid (reverse cur_rows)
    ∧ ytd_avg_high s = mean_or_none (present (high current_data))
    ∧ ytd_normal_avg_high s = mean_or_none ytd_normal
    ∧ hottest_day s
      = (hottest.2, if Py.gt hottest.1 (-999) then Some hottest.1 else None)
    ∧ coldest_day s
      = (coldest.2, if Py.lt coldest.1 999 then Some coldest.1 else None).
Proof.
  unfold build_summary. destruct (latest_valid _) as [[th tl] td].
  intros H.
  apply bind_Some in H as (ytd_normal & E1 & H).
  apply bind_Some in H as (hottest & E2 & H).
  apply bind_Some in H as (coldest & E3 & H).
  injection H as <-. by exists ytd_normal, hottest, coldest.
Qed.

(** X8.  [today_date], [today_high] and [today_low] are those of the last
    day of the current year that has both values, as the provider sent
    them (not rounded); they are all null when no day has both. *)
Theorem summary_today (w : World) (out : Output) (current_data : YearData) :
  main w = Some out → fetch_current w = Some current_data →
  (Forall (λ r, is_valid r = false) (days current_data) →
   today_date (summary out) = None
   ∧ today_high (summary out) = None ∧ today_low (summary out) = None)
  ∧ (∀ before after date_str h l,
       days current_data = before ++ (date_str, Some h, Some l) :: after →
       Forall (λ r, is_valid r = false) after →
       today_date (summary out) = Some date_str
       ∧ today_high (summary out) = Some h
       ∧ today_low (summary out) = Some l).
Proof.
  intros H Hcur.
  destruct (main_summary _ _ _ H Hcur) as [Hs _].
  apply build_summary_inv in Hs
    as (? & ? & ? & _ & _ & _ & Htoday & _). split.
  - intros Hnone. rewrite latest_valid_none in Htoday
      by by apply Forall_reverse.
    by injection Htoday as -> -> ->.
  - intros before after date_str h l Hdays Hafter.
    rewrite Hdays, latest_valid_last in Htoday by done.
    by injection Htoday as -> -> ->.
Qed.

Lemma summary_today_witness :
  today_date (summary sample_out) = Some "2026-01-03"
  ∧ today_high (summary sample_out) = Some 90%Q
  ∧ today_low (summary sample_out) = Some 33%Q.
Proof.
  assert (main sample_world = Some sample_out) as Hmain
    by (vm_compute; reflexivity).
  assert (fetch_current sample_world = Some sample_current) as Hcur
    by reflexivity.
  apply (proj2 (summary_today sample_world sample_out sample_current
                  Hmain Hcur)
           [("2026-01-01", Some 45%Q, Some 20%Q);
            ("2026-01-02", Some 91%Q, Some 32%Q)]
           [("2026-01-04", Some 50%Q, None);
            ("2026-01-05", None, Some 31%Q)]).
  - reflexivity.
  - repeat constructor.
Defined.

(** X9.  [hottest_day] is the first day of the current year whose high is
    the greatest of the highs that are present, whether or not its low is
    present, provided that high is above -999; otherwise its date and its
    temperature are null.  [coldest_day] is the first day with the smallest
    low, provided it is below 999. *)
Theorem summary_extremes (w : World) (out : Output)
    (current_data : YearData) :
  main w = Some out → fetch_current w = Some current_data →
  let hs := dated (dates current_data) (high current_data) in
  let ls := dated (dates current_data) (low current_data) in
  ((hottest_day (summary out) = (None, None)
    ∧ Forall (λ p, (p.2 <= -999)%Q) hs)
   ∨ ∃ date_str t, hottest_day (summary out) = (Some date_str, Some t)
                   ∧ (-999 < t)%Q ∧ first_max hs date_str t)
  ∧ ((coldest_day (summary out) = (None, None)
      ∧ Forall (λ p, (999 <= p.2)%Q) ls)
     ∨ ∃ date_str t, coldest_day (summary out) = (Some date_str, Some t)
                     ∧ (t < 999)%Q ∧ first_min ls date_str t).
Proof.
  intros H Hcur hs ls.
  destruct (main_summary _ _ _ H Hcur) as [Hs _].
  apply build_summary_inv in Hs
    as (? & hottest & coldest & _ & Ehot & Ecold & _ & _ & _ & -> & ->).
  split.
  - apply hottest_loop_spec in Ehot
      as [[Hall ->] | (Hlt & y & Hy & Hmax)].
    + left. split; [| exact Hall]. cbn [fst snd].
      assert (Py.gt (-999) (-999) = false) as -> by reflexivity. done.
    + right. exists y, hottest.1. rewrite Hy.
      split; [| split; [exact Hlt | exact Hmax]].
      assert (Py.gt hottest.1 (-999) = true) as -> by by apply gt_true.
      done.
  - apply coldest_loop_spec in Ecold
      as [[Hall ->] | (Hlt & y & Hy & Hmin)].
    + left. split; [| exact Hall]. cbn [fst snd].
      assert (Py.lt 999 999 = false) as -> by reflexivity. done.
    + right. exists y, coldest.1. rewrite Hy.
      split; [| split; [exact Hlt | exact Hmin]].
      assert (Py.lt coldest.1 999 = true) as -> by by apply lt_true.
      done.
Qed.

Lemma summary_extremes_witness :
  ((hottest_day (summary sample_out) = (None, None)
    ∧ Forall (λ p, (p.2 <= -999)%Q)
        (dated (dates sample_current) (high sample_current)))
   ∨ ∃ date_str t,
       hottest_day (summary sample_out) = (Some date_str, Some t)
       ∧ (-999 < t)%Q
       ∧ first_max (dated (dates sample_current) (high sample_current))
           date_str t)
  ∧ ((coldest_day (summary sample_out) = (None, None)
      ∧ Forall (λ p, (999 <= p.2)%Q)
          (dated (dates sample_current) (low sample_current)))
     ∨ ∃ date_str t,
         coldest_day (summary sample_out) = (Some date_str, Some t)
         ∧ (t < 999)%Q
         ∧ first_min (dated (dates sample_current) (low sample_current))
             date_str t).
Proof.
  assert (main sample_world = Some sample_out) as Hmain
    by (vm_compute; reflexivity).
  assert (fetch_current sample_world = Some sample_current) as Hcur
    by reflexivity.
  exact (summary_extremes sample_world sample_out sample_current Hmain Hcur).
Defined.

Lemma pooled_lengths (years : list (string * YearData)) (key : string) :
  length (pooled_highs years key) = length (pooled_lows years key).
Proof.
  unfold pooled_highs, pooled_lows.
  induction years as [| item years IH]; [done |].
  cbn [mbind list_bind]. rewrite !length_app, IH.
  by rewrite pool_rows_lengths.
Qed.





(** ** The series side by side *)

Lemma all_years_split (w : World) :
  all_years w
  = fetched (fetch_year w) HIST_START_YEAR
      (HIST_END_YEAR - TRAILING_YEARS + 1)
    ++ trailing_years w.
Proof.
  unfold all_years, trailing_years, fetched, fetched_of.
  rewrite <- omap_app. f_equal.
Qed.

Lemma mean_row_Some (daily : gmap string Pooled) (md : string)
    (r : string * Q * Q) :
  mean_row daily md = Some r
  ↔ highs (dd_get daily md) ≠ [] ∧ lows (dd_get daily md) ≠ []
    ∧ r = (md, Py.round1 (Py.mean (highs (dd_get daily md))),
           Py.round1 (Py.mean (lows (dd_get daily md)))).
Proof.
  unfold mean_row.
  destruct (highs (dd_get daily md)) as [| h hs],
    (lows (dd_get daily md)) as [| l ls]; simpl; split;
    try (intros [= <-]); try (intros (? & ? & ->)); try done.
Qed.

Lemma daily_means_sublist (t a : gmap string Pooled) (mds : list string) :
  (∀ md, highs (dd_get t md) ≠ [] → highs (dd_get a md) ≠ []) →
  (∀ md, lows (dd_get t md) ≠ [] → lows (dd_get a md) ≠ []) →
  s_dates (daily_means t mds) `sublist_of` s_dates (daily_means a mds).
Proof.
  intros Hh Hl. unfold daily_means, mean_rows. cbn [s_dates series_of].
  induction mds as [| md mds IH]; [done |].
  cbn [omap list_omap].
  destruct (mean_row t md) as [rt |] eqn:Et.
  - apply mean_row_Some in Et as (Hth & Htl & ->).
    destruct (mean_row a md) as [ra |] eqn:Ea.
    + apply mean_row_Some in Ea as (_ & _ & ->). cbn [fmap list_fmap fst].
      by apply sublist_skip.
    + exfalso. apply eq_None_not_Some in Ea. apply Ea. eexists.
      apply mean_row_Some. split; [by apply Hh |]. split; [by apply Hl |].
      reflexivity.
  - destruct (mean_row a md) as [ra |]; [| exact IH].
    cbn [fmap list_fmap]. by apply sublist_cons.
Qed.

Lemma envelope_rows_sublist (a : gmap string Pooled) (mds : list string)
    (rs : list EnvRow) :
  envelope_rows a mds = Some rs →
  e_date <$> rs `sublist_of` s_dates (daily_means a mds).
Proof.
  unfold daily_means, mean_rows. cbn [s_dates series_of].
  revert rs. induction mds as [| md mds IH]; intros rs.
  - intros [= <-]. done.
  - cbn [envelope_rows omap list_omap].
    destruct (_ || _)%Z eqn:E.
    + intros H. specialize (IH _ H).
      destruct (mean_row a md); [| exact IH].
      cbn [fmap list_fmap]. by apply sublist_cons.
    + apply orb_false_iff in E as [Eh El]. apply Z.ltb_ge in Eh, El.
      rewrite sorted_len in Eh, El. unfold Py.len in Eh, El.
      intros H. apply bind_Some in H as (r & Er & H).
      apply bind_Some in H as (rs' & Ers & [= <-]).
      apply envelope_row_spec in Er as [Hdate _];
        [| rewrite sorted_len; unfold Py.len; lia
         | rewrite sorted_len; unfold Py.len; lia].
      destruct (mean_row a md) as [ra |] eqn:Ea.
      * apply mean_row_Some in Ea as (_ & _ & ->).
        cbn [fmap list_fmap fst]. rewrite Hdate.
        apply sublist_skip. by apply IH.
      * exfalso. apply eq_None_not_Some in Ea. apply Ea. eexists.
        apply mean_row_Some.
        split; [| split; [| reflexivity]];
          intros Hnil; rewrite Hnil in *; simpl in *; lia.
Qed.

(** X11.  The trailing average and the envelope only have days that the
    normals have: their dates are sublists of the dates of the normals
    (the ten trailing years are among the thirty, and a day of the
    envelope has five pooled values where the normals ask for one). *)
Theorem series_aligned (w : World) (out : Output) :
  main w = Some out →
  s_dates (trailing_avg out) `sublist_of` s_dates (normals out)
  ∧ env_dates (historical_envelope out) `sublist_of` s_dates (normals out).
Proof.
  intros H. apply main_inv in H
    as (historical & all_daily & ? & trailing_daily & envelope & ? & ? & ?
        & ? & ? & ? & ? & E1 & _ & E3 & E4 & _ & _ & _ & _ & _ & _ & _ & ->).
  cbn [trailing_avg normals historical_envelope env_dates envelope_of].
  destruct (main_pools _ _ _ _ E1 E3) as (_ & _ & Hall & Htr).
  split.
  - apply daily_means_sublist; intros md; rewrite Hall, Htr;
      cbn [highs lows]; rewrite all_years_split.
    + rewrite pooled_highs_app. intros Hne Happ.
      apply app_eq_nil in Happ as [_ Hnil]. by apply Hne.
    + rewrite pooled_lows_app. intros Hne Happ.
      apply app_eq_nil in Happ as [_ Hnil]. by apply Hne.
  - by apply envelope_rows_sublist.
Qed.

Lemma series_aligned_witness :
  s_dates (trailing_avg sample_out) `sublist_of` s_dates (normals sample_out)
  ∧ env_dates (historical_envelope sample_out)
      `sublist_of` s_dates (normals sample_out).
Proof.
  apply (series_aligned sample_world sample_out).
  vm_compute. reflexivity.
Defined.

Lemma foldr_Qplus_le (ls hs : list Q) :
  Forall2 Qle ls hs → (foldr Qplus 0 ls <= foldr Qplus 0 hs)%Q.
Proof.
  induction 1 as [| l h ls hs Hlh _ IH]; simpl; [lra |].
  apply Qplus_le_compat; assumption.
Qed.

Lemma arith_mean_le (ls hs : list Q) :
  Forall2 Qle ls hs → (arith_mean ls <= arith_mean hs)%Q.
Proof.
  intros H. unfold arith_mean.
  rewrite (Forall2_length _ _ _ H).
  destruct hs as [| h hs].
  - apply Forall2_nil_inv_r in H as ->. apply Qle_refl.
  - apply Qmult_le_compat_r; [by apply foldr_Qplus_le |].
    apply Qinv_le_0_compat. change 0%Q with (inject_Z 0).
    rewrite <- Zle_Qle. lia.
Qed.

Lemma key_values_le (key : string) (rs : list Row) :
  Forall (λ r : Row,
      match r with
      | (_, Some h, Some l) => (l <= h)%Q
      | _ => True
      end) rs →
  Forall2 Qle (key_lows key rs) (key_highs key rs).
Proof.
  induction 1 as [| [[d h] l] rs Hr _ IH]; [constructor |].
  cbn [key_lows key_highs omap list_omap].
  destruct h as [h |], l as [l |]; try exact IH.
  case_bool_decide; [by constructor | exact IH].
Qed.

Lemma pooled_values_le (years : list (string * YearData)) (key : string) :
  Forall (λ item, ordered_days item.2) years →
  Forall2 Qle (pooled_lows years key) (pooled_highs years key).
Proof.
  unfold pooled_lows, pooled_highs.
  induction 1 as [| item years Hitem _ IH]; [constructor |].
  cbn [mbind list_bind]. apply Forall2_app; [| exact IH].
  by apply key_values_le.
Qed.

Lemma daily_means_ordered (daily : gmap string Pooled)
    (years : list (string * YearData)) (mds : list string) (i : nat)
    (h l : Q) :
  (∀ key, dd_get daily key
          = {| highs := pooled_highs years key;
               lows := pooled_lows years key |}) →
  Forall (λ item, ordered_days item.2) years →
  s_high (daily_means daily mds) !! i = Some h →
  s_low (daily_means daily mds) !! i = Some l →
  (l <= h)%Q.
Proof.
  intros Hdaily Hord. unfold daily_means. cbn [s_high s_low series_of].
  rewrite !list_lookup_fmap.
  destruct (mean_rows daily mds !! i) as [r |] eqn:Hr; [| done].
  cbn [fmap option_fmap option_map]. intros [= <-] [= <-].
  apply list_elem_of_lookup_2 in Hr. unfold mean_rows in Hr.
  apply list_elem_of_omap in Hr as (md & _ & Hrow).
  apply mean_row_Some in Hrow as (_ & _ & ->). cbn [fst snd].
  rewrite !round1_mean. apply round1_mono. apply arith_mean_le.
  rewrite Hdaily. cbn [highs lows]. by apply pooled_values_le.
Qed.

(** X12.  If on every historical day with both values the low is not above
    the high, then on every day of the normals and of the trailing average
    the low is not above the high: averaging and rounding keep the order. *)
Theorem normals_ordered (w : World) (out : Output) :
  main w = Some out →
  Forall (λ item, ordered_days item.2) (all_years w) →
  (∀ i h l, s_high (normals out) !! i = Some h →
            s_low (normals out) !! i = Some l → (l <= h)%Q)
  ∧ (∀ i h l, s_high (trailing_avg out) !! i = Some h →
              s_low (trailing_avg out) !! i = Some l → (l <= h)%Q).
Proof.
  intros H Hord. apply main_inv in H
    as (historical & all_daily & ? & trailing_daily & envelope & ? & ? & ?
        & ? & ? & ? & ? & E1 & _ & E3 & _ & _ & _ & _ & _ & _ & _ & _ & ->).
  cbn [trailing_avg normals].
  destruct (main_pools _ _ _ _ E1 E3) as (_ & _ & Hall & Htr).
  split; intros i h l.
  - by apply (daily_means_ordered all_daily (all_years w)).
  - apply (daily_means_ordered trailing_daily (trailing_years w));
      [exact Htr |].
    rewrite all_years_split in Hord. by apply Forall_app in Hord as [_ ?].
Qed.

Lemma normals_ordered_witness :
  (∀ i h l, s_high (normals sample_out) !! i = Some h →
            s_low (normals sample_out) !! i = Some l → (l <= h)%Q)
  ∧ (∀ i h l, s_high (trailing_avg sample_out) !! i = Some h →
              s_low (trailing_avg sample_out) !! i = Some l → (l <= h)%Q).
Proof.
  apply (normals_ordered sample_world sample_out).
  - vm_compute. reflexivity.
  - assert (all_years sample_world = sample_historical) as ->
      by (vm_compute; reflexivity).
    unfold sample_historical, ordered_days.
    repeat (apply Forall_cons_2;
            [repeat (apply Forall_cons_2;
                     [first [exact I | unfold Qle; simpl; lia] |]);
             apply Forall_nil_2 |]).
    apply Forall_nil_2.
Defined.

(** ** Monthly statistics and anomalies *)

Lemma main_monthly (w : World) (out : Output) (current_data : YearData) :
  main w = Some out → fetch_current w = Some current_data →
  ∃ monthly_hist current_monthly monthly_records,
    foldl_opt pool_month_year (all_years w).*2 ∅ = Some monthly_hist
    ∧ foldl_opt pool_month_row (days current_data) ∅ = Some current_monthly
    ∧ build_anomalies (monthly out) = Some (anomalies out)
    ∧ ∀ m, (1 ≤ m ≤ 12)%Z →
        month_entry out m
        = Some (monthly_stat monthly_hist current_monthly monthly_records m).
Proof.
  intros H Hcur. apply main_inv in H
    as (historical & all_daily & cur & ? & ? & monthly_hist & monthly_records
        & cur_rows & current_monthly & mly & anoms & ? & E1 & E2 & _ & _
        & E5 & _ & E7 & E8 & E9 & E10 & _ & ->).
  rewrite Hcur in E2. injection E2 as <-.
  apply rows_days in E7 as ->.
  apply main_historical in E1 as [-> _].
  exists monthly_hist, current_monthly, monthly_records.
  split; [exact E5 |]. split; [exact E8 |]. split; [exact E10 |].
  intros m Hm. unfold month_entry. cbn [monthly].
  by apply (monthly_entries
              (monthly_stat monthly_hist current_monthly monthly_records)).
Qed.

Lemma month_values_one (select : Row → option Q) (m : Z) (yr : string)
    (data : YearData) :
  month_values select m [(yr, data)]
  = omap (month_row select m yr) (days data).
Proof. unfold month_values. simpl. apply app_nil_r. Qed.

Lemma mean_or_none_is_Some (xs : list Q) :
  is_Some (mean_or_none xs) ↔ (0 < length xs)%nat.
Proof.
  unfold mean_or_none. destruct xs; simpl; split;
    try lia; try (intros [? [=]]); by eexists.
Qed.

Lemma departure_is_Some (a b : option Q) :
  is_Some (departure a b) ↔ is_Some a ∧ is_Some b.
Proof.
  destruct a, b; simpl; split;
    try (intros [[? [=]] [? [=]]]); try (intros [? [=]]);
    try (split; by eexists); by eexists.
Qed.

Lemma main_month_pools (w : World) (out : Output)
    (current_data : YearData) :
  main w = Some out → fetch_current w = Some current_data →
  ∃ monthly_hist current_monthly monthly_records,
    build_anomalies (monthly out) = Some (anomalies out)
    ∧ (∀ m, (1 ≤ m ≤ 12)%Z →
         month_entry out m
         = Some (monthly_stat monthly_hist current_monthly monthly_records
                   m))
    ∧ (∀ m, dd_get monthly_hist m
            = {| highs := month_pool valid_high m (all_years w);
                 lows := month_pool valid_low m (all_years w) |})
    ∧ (∀ m, dd_get current_monthly m
            = {| highs := month_pool valid_high m
                            [(Py.str (CURRENT_YEAR w), current_data)];
                 lows := month_pool valid_low m
                           [(Py.str (CURRENT_YEAR w), current_data)] |}).
Proof.
  intros H Hcur.
  destruct (main_monthly _ _ _ H Hcur)
    as (monthly_hist & current_monthly & monthly_records & E5 & E8 & E10
        & Hentry).
  exists monthly_hist, current_monthly, monthly_records.
  split; [exact E10 |]. split; [exact Hentry |]. split; intros m.
  - rewrite (pool_month_years_spec _ _ _ m E5), dd_get_empty. reflexivity.
  - rewrite (pool_month_rows_spec (Py.str (CURRENT_YEAR w)) _ _ _ m E8).
    rewrite dd_get_empty, <- !month_values_one. reflexivity.
Qed.

Lemma month_pool_lengths (m : Z) (years : list (string * YearData)) :
  length (month_pool valid_high m years)
  = length (month_pool valid_low m years).
Proof. unfold month_pool. rewrite !length_fmap. apply month_valid_lengths. Qed.

Lemma departures_together (hist_h hist_l cur_h cur_l : list Q) :
  length hist_h = length hist_l → length cur_h = length cur_l →
  is_Some (departure (mean_or_none cur_h) (mean_or_none hist_h))
  ↔ is_Some (departure (mean_or_none cur_l) (mean_or_none hist_l)).
Proof.
  intros Hhist Hcur.
  rewrite !departure_is_Some, !mean_or_none_is_Some. lia.
Qed.



Lemma build_anomalies_rows (out : Output) (ms : list Z) (acc : Anomalies) :
  (∀ m, m ∈ ms → is_Some (month_entry out m)) →
  foldl_opt (λ anomalies m,
      name ← Py.index MONTH_NAMES (m - 1);
      info ← dict_get name (monthly out);
      match departure_high info with
      | Some dh =>
          Some {| months := months anomalies ++ [Py.str_take 3 name];
                  high_departure := high_departure anomalies ++ [dh];
                  low_departure :=
                    low_departure anomalies ++ [departure_low info] |}
      | None => Some anomalies
      end) ms acc
  = let rs := omap (λ m,
                  name ← Py.index MONTH_NAMES (m - 1);
                  st ← month_entry out m;
                  dh ← departure_high st;
                  Some (Py.str_take 3 name, dh, departure_low st)) ms in
    Some {| months := months acc ++ ((λ r, r.1.1) <$> rs);
            high_departure := high_departure acc ++ ((λ r, r.1.2) <$> rs);
            low_departure := low_departure acc ++ ((λ r, r.2) <$> rs) |}.
Proof.
  cbv zeta. revert acc. induction ms as [| m ms IH]; intros acc Hentry.
  - cbn [foldl_opt omap list_omap fmap list_fmap].
    rewrite !app_nil_r. by destruct acc.
  - cbn [foldl_opt omap list_omap].
    destruct (Hentry m) as [st Hst]; [by left |].
    rewrite Hst. unfold month_entry in Hst.
    apply bind_Some in Hst as (name & Hname & Hinfo).
    rewrite Hname. cbn [mbind option_bind]. rewrite Hinfo.
    cbn [mbind option_bind].
    destruct (departure_high st) as [dh |]; cbn [mbind option_bind].
    + rewrite IH by (intros m' Hm'; apply Hentry; by right).
      cbn [months high_departure low_departure fmap list_fmap fst snd].
      by rewrite <- !app_assoc.
    + apply IH. intros m' Hm'. apply Hentry. by right.
Qed.

(** X14.  The anomalies hold, in calendar order, the months whose entry has
    a departure of the high: the first three letters of the name, that
    departure, and the departure of the low of the same month, which is
    never null there; the three lists have one element per such month. *)
Theorem anomalies_rows (w : World) (out : Output) :
  main w = Some out →
  months (anomalies out) = (λ r, r.1.1) <$> anomaly_rows out
  ∧ high_departure (anomalies out) = (λ r, r.1.2) <$> anomaly_rows out
  ∧ low_departure (anomalies out) = (λ r, r.2) <$> anomaly_rows out
  ∧ Forall is_Some (low_departure (anomalies out)).
Proof.
  intros H.
  destruct (main_current w) as [current_data Hcur]; [by eexists |].
  destruct (main_month_pools _ _ _ H Hcur)
    as (monthly_hist & current_monthly & monthly_records & E10 & Hentry
        & Hhist & Hthis).
  unfold build_anomalies in E10.
  rewrite build_anomalies_rows in E10.
  2:{ intros m Hm. apply elem_of_range in Hm. rewrite Hentry by lia.
      by eexists. }
  cbv zeta in E10. fold (anomaly_rows out) in E10.
  apply (inj Some) in E10. rewrite <- E10.
  cbn [months high_departure low_departure app].
  repeat (split; [reflexivity |]).
  apply Forall_fmap, Forall_forall. intros [[name dh] dl] Hin.
  unfold anomaly_rows in Hin.
  apply list_elem_of_omap in Hin as (m & Hm & Hrow).
  apply elem_of_range in Hm.
  apply bind_Some in Hrow as (name' & _ & Hrow).
  apply bind_Some in Hrow as (st & Hst & Hrow).
  apply bind_Some in Hrow as (dh' & Hdh & [= _ _ <-]).
  rewrite Hentry in Hst by lia. injection Hst as <-.
  cbn [snd monthly_stat departure_low departure_high] in Hdh |- *.
  rewrite Hhist, Hthis in Hdh |- *. cbn [highs lows] in Hdh |- *.
  eapply departures_together; [| | by eexists];
    symmetry; apply month_pool_lengths.
Qed.

Lemma anomalies_rows_witness :
  months (anomalies sample_out) = (λ r, r.1.1) <$> anomaly_rows sample_out
  ∧ high_departure (anomalies sample_out)
    = (λ r, r.1.2) <$> anomaly_rows sample_out
  ∧ low_departure (anomalies sample_out)
    = (λ r, r.2) <$> anomaly_rows sample_out
  ∧ Forall is_Some (low_departure (anomalies sample_out)).
Proof.
  apply (anomalies_rows sample_world sample_out).
  vm_compute. reflexivity.
Defined.

(** ** Dates and years *)

Lemma dict_get_fmap {V W} (f : V → W) (k : string) (d : list (string * V)) :
  dict_get k (prod_map id f <$> d) = f <$> dict_get k d.
Proof.
  induction d as [| [k' v] d IH]; [done |].
  cbn [fmap list_fmap prod_map dict_get fst snd id].
  case_bool_decide; [done | exact IH].
Qed.

(** X15.  [historical_years] holds the historical years that were fetched,
    in ascending order under the key [str(year)], each with the dates as
    fetched and every value rounded to one decimal (a null stays null);
    a year whose fetch failed has no entry; [current_year] is the current
    year treated the same way. *)
Theorem historical_years_lookup (w : World) (out : Output)
    (current_data : YearData) :
  main w = Some out → fetch_current w = Some current_data →
  (∀ y, (HIST_START_YEAR ≤ y ≤ HIST_END_YEAR)%Z →
        dict_get (Py.str y) (historical_years out)
        = rounded <$> fetch_year w y)
  ∧ (historical_years out).*1
    = omap (λ y, (λ _, Py.str y) <$> fetch_year w y)
        (Py.range HIST_START_YEAR (HIST_END_YEAR + 1))
  ∧ current_year out = rounded current_data.
Proof.
  intros H Hcur. apply main_inv in H
    as (historical & all_daily & cur & ? & ? & ? & ? & ? & ? & ? & ? & ?
        & E1 & E2 & _ & _ & _ & _ & _ & _ & _ & _ & _ & ->).
  rewrite Hcur in E2. injection E2 as <-.
  apply main_historical in E1 as [-> _].
  cbn [historical_years current_year]. split; [| split; [| done]].
  - intros y Hy. rewrite dict_get_fmap. f_equal.
    apply dict_get_fetched; [apply year_strings_NoDup |].
    apply elem_of_range. lia.
  - unfold all_years, fetched, fetched_of.
    generalize (Py.range HIST_START_YEAR (HIST_END_YEAR + 1)).
    intros years. induction years as [| y years IH]; [done |].
    cbn [omap list_omap]. destruct (fetch_year w y); cbn; by rewrite ?IH.
Qed.

Lemma historical_years_lookup_witness :
  (∀ y, (HIST_START_YEAR ≤ y ≤ HIST_END_YEAR)%Z →
        dict_get (Py.str y) (historical_years sample_out)
        = rounded <$> fetch_year sample_world y)
  ∧ (historical_years sample_out).*1
    = omap (λ y, (λ _, Py.str y) <$> fetch_year sample_world y)
        (Py.range HIST_START_YEAR (HIST_END_YEAR + 1))
  ∧ current_year sample_out = rounded sample_current.
Proof.
  apply (historical_years_lookup sample_world sample_out sample_current).
  - vm_compute. reflexivity.
  - reflexivity.
Defined.

Lemma forallb_seqZ (f : Z → bool) (a n x : Z) :
  forallb f (seqZ a n) = true → (a ≤ x < a + n)%Z → f x = true.
Proof.
  intros Hall Hx. rewrite forallb_forall in Hall. apply Hall.
  apply list_elem_of_In, elem_of_seqZ. lia.
Qed.

Lemma axis_covers_calendar_true : axis_covers_calendar = true.
Proof. vm_compute. reflexivity. Qed.

Lemma date_parts_read_true : date_parts_read = true.
Proof. vm_compute. reflexivity. Qed.

Lemma str_drop_year (y rest : string) :
  String.length y = 4%nat → Py.str_drop 5 (y +:+ "-" +:+ rest) = rest.
Proof.
  destruct y as [| a [| b [| c [| d [| e y]]]]]; try done.
Qed.

(** X16.  A date of four year digits, a dash, the month and the day on two
    digits each: [md_key] is the part behind the year, whatever the year
    digits are, the month read by [int(date_str[5:7])] is its month,
    [is_leap_day] holds exactly on February 29, and the key of every day
    of a leap year is on the calendar axis. *)
Theorem iso_date_keys (y : string) (m d : Z) :
  String.length y = 4%nat → (1 ≤ m ≤ 12)%Z → (1 ≤ d ≤ 31)%Z →
  md_key (iso_date y m d) = Py.pad2 m +:+ "-" +:+ Py.pad2 d
  ∧ month_num (iso_date y m d) = Some m
  ∧ (is_leap_day (iso_date y m d) = true ↔ m = 2%Z ∧ d = 29%Z)
  ∧ ((d ≤ Py.days_in_month 2024 m)%Z →
     md_key (iso_date y m d) ∈ base_dates).
Proof.
  intros Hy Hm Hd.
  unfold md_key, month_num, is_leap_day, iso_date.
  rewrite (str_drop_year y _ Hy).
  assert (1 ≤ m < 1 + 12)%Z as Hm' by lia.
  assert (1 ≤ d < 1 + 31)%Z as Hd' by lia.
  pose proof date_parts_read_true as Hparts. unfold date_parts_read in Hparts.
  apply (λ H, forallb_seqZ _ _ _ m H Hm') in Hparts. cbv beta in Hparts.
  apply (λ H, forallb_seqZ _ _ _ d H Hd') in Hparts.
  cbv beta zeta in Hparts. apply andb_true_iff in Hparts as [Hmonth Hleap].
  apply bool_decide_eq_true in Hmonth. apply Bool.eqb_prop in Hleap.
  split; [reflexivity |]. split; [exact Hmonth |]. split.
  - rewrite Hleap, andb_true_iff, !Z.eqb_eq. reflexivity.
  - intros Hday.
    assert (1 ≤ d < 1 + Py.days_in_month 2024 m)%Z as Hday' by lia.
    pose proof axis_covers_calendar_true as Haxis.
    unfold axis_covers_calendar in Haxis.
    apply (λ H, forallb_seqZ _ _ _ m H Hm') in Haxis. cbv beta in Haxis.
    apply (λ H, forallb_seqZ _ _ _ d H Hday') in Haxis.
    exact (bool_decide_eq_true_1 _ Haxis).
Qed.

Lemma iso_date_keys_witness :
  md_key "2024-02-29" = "02-29"
  ∧ month_num "2024-02-29" = Some 2%Z
  ∧ (is_leap_day "2024-02-29" = true ↔ 2%Z = 2%Z ∧ 29%Z = 29%Z)
  ∧ ((29 ≤ Py.days_in_month 2024 2)%Z → md_key "2024-02-29" ∈ base_dates).
Proof.
  apply (iso_date_keys "2024" 2 29); [reflexivity | lia | lia].
Defined.

Lemma record_rows_months (yr : string) (rs : list Row)
    (records records' : gmap Z MonthRecord) :
  foldl_opt (record_row yr) rs records = Some records' →
  Forall (λ r : Row, is_Some (month_num r.1.1)) rs.
Proof.
  revert records. induction rs as [| [[d h] l] rs IH]; intros records;
    [intros _; apply Forall_nil_2 |].
  cbn [foldl_opt]. intros H. apply bind_Some in H as (mid & Hmid & H).
  apply Forall_cons_2; [| by eapply IH].
  unfold record_row in Hmid.
  apply bind_Some in Hmid as (m & Hm & _). by exists m.
Qed.

Lemma record_years_months (years : list (string * YearData))
    (records records' : gmap Z MonthRecord) :
  foldl_opt record_year years records = Some records' →
  Forall (λ item, rows item.2 = Some (days item.2)
                  ∧ Forall (λ r : Row, is_Some (month_num r.1.1))
                      (days item.2)) years.
Proof.
  revert records. induction years as [| item years IH]; intros records;
    [intros _; apply Forall_nil_2 |].
  cbn [foldl_opt]. intros H. apply bind_Some in H as (mid & Hmid & H).
  apply Forall_cons_2; [| by eapply IH].
  unfold record_year in Hmid.
  apply bind_Some in Hmid as (rs & Hrs & Hfold).
  pose proof (rows_days _ _ Hrs) as ->. split; [exact Hrs |].
  by eapply record_rows_months.
Qed.

Lemma pool_month_rows_months (rs : list Row)
    (monthly monthly' : gmap Z Pooled) :
  foldl_opt pool_month_row rs monthly = Some monthly' →
  Forall (λ r : Row, is_valid r = true → is_Some (month_num r.1.1)) rs.
Proof.
  revert monthly. induction rs as [| [[d h] l] rs IH]; intros monthly;
    [intros _; apply Forall_nil_2 |].
  cbn [foldl_opt]. intros H. apply bind_Some in H as (mid & Hmid & H).
  apply Forall_cons_2; [| by eapply IH].
  destruct h as [h |], l as [l |]; cbn [is_valid]; try discriminate.
  intros _. cbn [pool_month_row] in Hmid.
  apply bind_Some in Hmid as (m & Hm & _). by exists m.
Qed.

(** X17.  A date whose characters 5 and 6 are not a number ends the run
    with a [ValueError]: on any day of a historical year, and on a day of
    the current year that has both values. *)
Theorem main_value_error (w : World) (y : Z) (data : YearData)
    (date_str : string) (h l : option Q) :
  ((HIST_START_YEAR ≤ y ≤ HIST_END_YEAR)%Z ∧ fetch_year w y = Some data)
  ∨ (fetch_current w = Some data ∧ is_Some h ∧ is_Some l) →
  (date_str, h, l) ∈ days data →
  month_num date_str = None →
  main w = None.
Proof.
  intros Hdata Hin Hmonth.
  destruct (main w) as [out |] eqn:Hmain; [exfalso | done].
  apply main_inv in Hmain
    as (historical & all_daily & cur & ? & ? & ? & monthly_records
        & cur_rows & ? & ? & ? & ? & E1 & E2 & _ & _ & _ & E6 & E7 & E8 & _).
  apply main_historical in E1 as [-> _].
  destruct Hdata as [[Hy E] | (E & [h' ->] & [l' ->])].
  - apply record_years_months in E6. rewrite Forall_forall in E6.
    destruct (E6 (Py.str y, data)) as [_ Hrows].
    { apply elem_of_fetched_of; [| done]. apply elem_of_range.
      unfold HIST_START_YEAR, HIST_END_YEAR in *. lia. }
    rewrite Forall_forall in Hrows. specialize (Hrows _ Hin).
    cbn [fst] in Hrows. rewrite Hmonth in Hrows.
    by apply is_Some_None in Hrows.
  - rewrite E in E2. injection E2 as <-.
    apply rows_days in E7 as ->.
    apply pool_month_rows_months in E8. rewrite Forall_forall in E8.
    specialize (E8 _ Hin eq_refl). cbn [fst] in E8.
    rewrite Hmonth in E8. by apply is_Some_None in E8.
Qed.

Lemma main_value_error_witness : main bad_date_world = None.
Proof.
  apply (main_value_error bad_date_world 2020
           {| dates := ["2020"]; high := [None]; low := [None] |}
           "2020" None None).
  - left. split; [unfold HIST_START_YEAR, HIST_END_YEAR; lia | reflexivity].
  - apply list_elem_of_singleton. reflexivity.
  - reflexivity.
Defined.

(** ** The days of the envelope *)

Lemma envelope_rows_complete (a : gmap string Pooled) (mds : list string)
    (rs : list EnvRow) (md : string) :
  envelope_rows a mds = Some rs → md ∈ mds →
  (5 ≤ length (highs (dd_get a md)))%nat →
  (5 ≤ length (lows (dd_get a md)))%nat →
  md ∈ e_date <$> rs.
Proof.
  intros H Hin Hh Hl. revert rs H.
  induction mds as [| md' mds IH]; intros rs; [by apply elem_of_nil in Hin |].
  cbn [envelope_rows].
  destruct (_ || _)%Z eqn:E.
  - intros H. apply elem_of_cons in Hin as [-> | Hin]; [| by apply IH].
    exfalso. rewrite !sorted_len in E. unfold Py.len in E.
    apply orb_true_iff in E as [E | E]; apply Z.ltb_lt in E; lia.
  - apply orb_false_iff in E as [Eh El]. apply Z.ltb_ge in Eh, El.
    intros H. apply bind_Some in H as (r & Er & H).
    apply bind_Some in H as (rs' & Ers & [= <-]).
    apply envelope_row_spec in Er as [Hdate _]; [| lia | lia].
    cbn [fmap list_fmap]. rewrite Hdate.
    apply elem_of_cons in Hin as [-> | Hin]; [by left |].
    right. by apply IH.
Qed.

(** X18.  Every day of the calendar axis for which the thirty years have
    five or more days with both values is a day of the envelope, exactly
    once, and each of the eleven lists of the envelope has its entry at
    the position of that day. *)
Theorem envelope_complete (w : World) (out : Output) (md : string) :
  main w = Some out → md ∈ base_dates →
  (5 ≤ length (pooled_highs (all_years w) md))%nat →
  ∃ i r,
    env_dates (historical_envelope out) !! i = Some md
    ∧ (∀ j, env_dates (historical_envelope out) !! j = Some md → j = i)
    ∧ env_at (historical_envelope out) i = Some r
    ∧ e_date r = md.
Proof.
  intros H Hin Hfive.
  pose proof H as Hmain. apply main_inv in H
    as (historical & all_daily & ? & trailing_daily & envelope & ? & ? & ?
        & ? & ? & ? & ? & E1 & _ & E3 & E4 & _ & _ & _ & _ & _ & _ & _ & Hout).
  destruct (main_pools _ _ _ _ E1 E3) as (_ & _ & Hall & _).
  assert (md ∈ e_date <$> envelope) as Hmd.
  { apply (envelope_rows_complete all_daily base_dates); [done | done | |];
      rewrite Hall; cbn [highs lows]; [done |].
    by rewrite <- pooled_lengths. }
  assert (env_dates (historical_envelope out) = e_date <$> envelope) as Hdates
    by by rewrite Hout.
  apply list_elem_of_lookup_1 in Hmd as [i Hi].
  rewrite <- Hdates in Hi.
  destruct (envelope_lookup _ _ _ _ Hmain Hi) as (r & Hr & Hdate & _).
  exists i, r. split; [exact Hi |]. split; [| by split].
  intros j Hj.
  apply (NoDup_lookup (env_dates (historical_envelope out)) j i md);
    [| exact Hj | exact Hi].
  rewrite Hdates.
  destruct (envelope_rows_spec _ _ _ E4) as [Hsub _].
  eapply sublist_NoDup; [apply base_dates_NoDup | exact Hsub].
Qed.

Lemma envelope_complete_witness :
  ∃ i r,
    env_dates (historical_envelope sample_out) !! i = Some "01-01"
    ∧ (∀ j, env_dates (historical_envelope sample_out) !! j = Some "01-01"
            → j = i)
    ∧ env_at (historical_envelope sample_out) i = Some r
    ∧ e_date r = "01-01".
Proof.
  apply (envelope_complete sample_world sample_out "01-01").
  - vm_compute. reflexivity.
  - apply (bool_decide_unpack ("01-01" ∈ base_dates)). vm_compute. exact I.
  - assert (length (pooled_highs (all_years sample_world) "01-01") = 10%nat)
      as -> by (vm_compute; reflexivity).
    lia.
Defined.
